(** * TradeCP: the tool-orchestration loop of [backend/calling_mcps.py]

    A shallow embedding of [MCPChatSystem] (the planner / executor loop, the
    two response generators, the thinking-tag stripping done inline at lines
    49-52 and 144-147, and the bookkeeping of [conversation_history]),
    followed by the properties of the written specification.

    Conventions.
    - A Python [str] is a [string], one [ascii] per character (texts whose
      characters are code points below 256).
    - An exception is a value [exn] carrying [str(e)]; only
      [json.JSONDecodeError] is told apart from the other subclasses of
      [Exception], because line 219 is the only handler that names a class.
    - [_execute_tools_sequentially] is the method on the runs that fit in
      the interpreter's stack; the recursion limit is counted in
      [_execute_tools_sequentially_within].
    - [print] calls have no effect on any value and are left out; the
      frames they need are counted with the recursion limit.
    - The language model ([ollama.chat]), the tool registry
      ([mcp_client.call_tool]), [json.loads] and [str()] on parsed values are
      not code of this repository: they are parameters of the model. *)

From Stdlib Require Import String Ascii List ZArith Lia Bool PeanoNat.
From Stdlib Require Import Decimal DecimalString SpecFloat.
Import ListNotations.

Local Open Scope list_scope.
Local Open Scope string_scope.

(* ===================================================================== *)
(** * Python strings *)
(* ===================================================================== *)

Module PyStr.

(** [len(s)] *)
Definition len (s : string) : Z := Z.of_nat (String.length s).

(** Truth value of a [str]: non-empty. *)
Definition truthy (s : string) : bool :=
  match s with
  | EmptyString => false
  | String _ _ => true
  end.

(** [c.isspace()] for a character below 256: TAB, LF, VT, FF, CR,
    FS, GS, RS, US, SPACE, NEL (0x85) and NBSP (0xA0). *)
Definition isspace (c : ascii) : bool :=
  let n := nat_of_ascii c in
  (((9 <=? n) && (n <=? 13)) || ((28 <=? n) && (n <=? 32))
   || (n =? 133) || (n =? 160))%nat.

Fixpoint lstrip (s : string) : string :=
  match s with
  | EmptyString => EmptyString
  | String c s' => if isspace c then lstrip s' else s
  end.

Fixpoint rstrip (s : string) : string :=
  match s with
  | EmptyString => EmptyString
  | String c s' =>
      match rstrip s' with
      | EmptyString => if isspace c then EmptyString else String c EmptyString
      | r => String c r
      end
  end.

(** [s.strip()] *)
Definition strip (s : string) : string := rstrip (lstrip s).

(** [c.lower()] for a character below 256. *)
Definition lower_char (c : ascii) : ascii :=
  let n := nat_of_ascii c in
  if (((65 <=? n) && (n <=? 90))
      || ((192 <=? n) && (n <=? 222) && negb (n =? 215)))%nat
  then ascii_of_nat (n + 32) else c.

(** [s.lower()] *)
Fixpoint lower (s : string) : string :=
  match s with
  | EmptyString => EmptyString
  | String c s' => String (lower_char c) (lower s')
  end.

(** [s.startswith(sub)] *)
Fixpoint startswith (sub s : string) : bool :=
  match sub, s with
  | EmptyString, _ => true
  | String _ _, EmptyString => false
  | String a sub', String b s' => Ascii.eqb a b && startswith sub' s'
  end.

(** Index of the first occurrence of [sub] in [s], counted from [i]. *)
Fixpoint find_from (i : nat) (sub s : string) : option nat :=
  if startswith sub s then Some i
  else match s with
       | EmptyString => None
       | String _ s' => find_from (S i) sub s'
       end.

Definition first_index (sub s : string) : option nat := find_from 0 sub s.

(** [s.find(sub)]: the lowest index where [sub] is found, [-1] if it is
    not found. *)
Definition find (s sub : string) : Z :=
  match first_index sub s with
  | Some i => Z.of_nat i
  | None => (-1)%Z
  end.

(** [sub in s] *)
Definition contains (sub s : string) : bool :=
  match first_index sub s with
  | Some _ => true
  | None => false
  end.

Fixpoint take (n : nat) (s : string) : string :=
  match n, s with
  | O, _ => EmptyString
  | S _, EmptyString => EmptyString
  | S n', String c s' => String c (take n' s')
  end.

Fixpoint drop (n : nat) (s : string) : string :=
  match n, s with
  | O, _ => s
  | S _, EmptyString => EmptyString
  | S n', String _ s' => drop n' s'
  end.

(** A slice bound as Python normalises it: a negative bound counts from
    the end, and the bound is clipped to [0 .. len(s)]. *)
Definition clip (s : string) (i : Z) : nat :=
  let i' := if (i <? 0)%Z then (i + len s)%Z else i in
  Z.to_nat (Z.min (Z.max 0 i') (len s)).

(** [s[:i]] *)
Definition slice_to (s : string) (i : Z) : string := take (clip s i) s.

(** [s[i:]] *)
Definition slice_from (s : string) (i : Z) : string := drop (clip s i) s.

(** [sep.join(parts)] *)
Fixpoint join (sep : string) (parts : list string) : string :=
  match parts with
  | [] => EmptyString
  | [p] => p
  | p :: rest => p ++ sep ++ join sep rest
  end.

(** [str(n)] for a non-negative [int]. *)
Definition of_nat (n : nat) : string := NilEmpty.string_of_uint (Nat.to_uint n).

(** The characters that a literal cannot hold directly. *)
Definition nl : string := String (ascii_of_nat 10) EmptyString.
Definition dquote : string := String (ascii_of_nat 34) EmptyString.

End PyStr.

(* ===================================================================== *)
(** * The thinking-tag stripper (lines 144-147, and again lines 49-52) *)
(* ===================================================================== *)

Definition think_open : string := "<think>".
Definition think_close : string := "</think>".

(** <<
    if text and '<think>' in text and '</think>' in text:
        start = text.find('<think>')
        end = text.find('</think>') + len('</think>')
        text = text[:start] + text[end:]
    >> *)
Definition strip_think_tags (text : string) : string :=
  if PyStr.truthy text && PyStr.contains think_open text
     && PyStr.contains think_close text
  then
    let start := PyStr.find text think_open in
    let end_ := (PyStr.find text think_close + PyStr.len think_close)%Z in
    PyStr.slice_to text start ++ PyStr.slice_from text end_
  else text.

(** The stripper as the specification words it: "if it contains both an
    opening marker and a matching closing marker, remove the span from the
    first opening marker through the end of the first closing marker that
    follows it (inclusive), concatenating the text before and after";
    otherwise the text unchanged. *)
Definition strip_think_tags_spec (text : string) : string :=
  match PyStr.first_index think_open text with
  | None => text
  | Some start =>
      let inside := PyStr.drop (start + String.length think_open) text in
      match PyStr.first_index think_close inside with
      | None => text
      | Some k =>
          PyStr.take start text
            ++ PyStr.drop (k + String.length think_close) inside
      end
  end.

(* ===================================================================== *)
(** * Python values, exceptions and the operations of lines 159-162 *)
(* ===================================================================== *)

(** What [json.loads] can return: [None], [bool], [int], [float], [str],
    [list] and [dict] (string keys, in insertion order, no key twice). *)
#[local] Set Warnings "-register-all".

Inductive value : Type :=
| VNone
| VBool (b : bool)
| VInt (z : Z)
| VFloat (f : spec_float)
| VStr (s : string)
| VList (items : list value)
| VDict (items : list (string * value)).

(** A raised exception, with the text of [str(e)]. *)
Inductive exn : Type :=
| JSONDecodeError (msg : string)
| Exception (msg : string).

Definition str_exn (e : exn) : string :=
  match e with
  | JSONDecodeError msg => msg
  | Exception msg => msg
  end.

(** A Python expression either returns a value or raises. *)
Inductive completion (A : Type) : Type :=
| Returns (a : A)
| Raises (e : exn).

Arguments Returns {A} a.
Arguments Raises {A} e.

Definition bind {A B : Type} (c : completion A) (k : A -> completion B)
  : completion B :=
  match c with
  | Returns a => k a
  | Raises e => Raises e
  end.

Declare Scope py_scope.
Delimit Scope py_scope with py.
Notation "x <- c ;; k" := (bind c (fun x => k))
  (at level 61, c at next level, right associativity) : py_scope.

Module Py.

(** [type(v).__name__] *)
Definition type_name (v : value) : string :=
  match v with
  | VNone => "NoneType"
  | VBool _ => "bool"
  | VInt _ => "int"
  | VFloat _ => "float"
  | VStr _ => "str"
  | VList _ => "list"
  | VDict _ => "dict"
  end.

(** [bool(v)] *)
Definition truthy (v : value) : bool :=
  match v with
  | VNone => false
  | VBool b => b
  | VInt z => negb (z =? 0)%Z
  | VFloat (S754_zero _) => false
  | VFloat _ => true
  | VStr s => PyStr.truthy s
  | VList [] => false
  | VList (_ :: _) => true
  | VDict [] => false
  | VDict (_ :: _) => true
  end.

(** [len(v)]; a [TypeError] for a value without length. *)
Definition len (v : value) : completion nat :=
  match v with
  | VStr s => Returns (String.length s)
  | VList items => Returns (List.length items)
  | VDict items => Returns (List.length items)
  | _ =>
      Raises (Exception ("object of type '" ++ type_name v ++ "' has no len()"))
  end.

(** [str(i)] for an [int]. *)
Definition str_int (i : Z) : string := NilEmpty.string_of_int (Z.to_int i).

(** The position a sequence of length [n] reads for index [i]. *)
Definition position (n : nat) (i : Z) : option nat :=
  let i' := if (i <? 0)%Z then (i + Z.of_nat n)%Z else i in
  if ((0 <=? i') && (i' <? Z.of_nat n))%Z then Some (Z.to_nat i') else None.

(** [v[i]] for an [int] index: [IndexError] outside a list or string,
    [KeyError] on a dict (its keys are strings), [TypeError] elsewhere. *)
Definition getitem (v : value) (i : Z) : completion value :=
  match v with
  | VList items =>
      match position (List.length items) i with
      | Some k => match nth_error items k with
                  | Some x => Returns x
                  | None => Raises (Exception "list index out of range")
                  end
      | None => Raises (Exception "list index out of range")
      end
  | VStr s =>
      match position (String.length s) i with
      | Some k => match String.get k s with
                  | Some c => Returns (VStr (String c EmptyString))
                  | None => Raises (Exception "string index out of range")
                  end
      | None => Raises (Exception "string index out of range")
      end
  | VDict _ => Raises (Exception (str_int i))
  | _ =>
      Raises (Exception ("'" ++ type_name v ++ "' object is not subscriptable"))
  end.

Fixpoint lookup (key : string) (items : list (string * value)) : option value :=
  match items with
  | [] => None
  | (k, v) :: rest => if String.eqb k key then Some v else lookup key rest
  end.

(** [v.get(key, default)]; an [AttributeError] when [v] is not a dict. *)
Definition get (v : value) (key : string) (default : value)
  : completion value :=
  match v with
  | VDict items =>
      match lookup key items with
      | Some x => Returns x
      | None => Returns default
      end
  | _ =>
      Raises
        (Exception ("'" ++ type_name v ++ "' object has no attribute 'get'"))
  end.

End Py.

(* ===================================================================== *)
(** * Data of the chat system *)
(* ===================================================================== *)

(** An entry of [conversation_history], and of the [messages] argument of
    [ollama.chat]. *)
Record message : Type := { role : string; content : string }.

(** A part of the sequence [call_tool] returns. Only a text part has the
    attribute [text] that line 169 reads. *)
Inductive content_part : Type :=
| TextContent (text : string)
| ImageContent (data mimeType : string)
| EmbeddedResource (uri : string).

(** An entry of [executed_tools] (lines 172-176 and 190-194). *)
Record ExecutedTool : Type :=
  { tool_name : value; parameters : value; result : string }.

(** The fields of [self] (lines 9-11). *)
Record MCPChatSystem : Type :=
  { mcp_server_path : string;
    ollama_model : string;
    conversation_history : list message }.

(** The collaborators that are not code of this repository. Each may keep
    state of its own (a model or a stub answering by call count): they read
    and update a [World].
    - [ollama_chat model messages] is the expression
      [ollama.chat(model=model, messages=messages,
                   stream=False)['message']['content']]:
      it returns that text, or raises;
    - [call_tool name params] is [await mcp_client.call_tool(name, params)];
    - [json_loads] is [json.loads];
    - [py_str] is [str()] as an f-string applies it to a parsed value. *)
Class Collaborators : Type :=
  { World : Type;
    ollama_chat : string -> list message -> World -> completion string * World;
    call_tool :
      value -> value -> World -> completion (list content_part) * World;
    json_loads : string -> completion value;
    py_str : value -> string }.

(* ===================================================================== *)
(** * [MCPChatSystem]: the methods *)
(* ===================================================================== *)

Section Methods.

Context {C : Collaborators}.

Local Open Scope py_scope.

(** The chat system together with the state of its collaborators. *)
Record state : Type := { self : MCPChatSystem; world : World }.

Definition set_world (st : state) (w : World) : state :=
  {| self := self st; world := w |}.

(** [self.conversation_history.append(m)] *)
Definition history_append (m : message) (st : state) : state :=
  {| self := {| mcp_server_path := mcp_server_path (self st);
                ollama_model := ollama_model (self st);
                conversation_history :=
                  (conversation_history (self st) ++ [m])%list |};
     world := world st |}.

(** [self.conversation_history = []] (line 35) *)
Definition history_clear (st : state) : state :=
  {| self := {| mcp_server_path := mcp_server_path (self st);
                ollama_model := ollama_model (self st);
                conversation_history := [] |};
     world := world st |}.

(** ** [_generate_direct_response] (lines 236-253) *)
Definition _generate_direct_response (user_query : string) (st : state)
  : string * state :=
  let messages :=
    [ {| role := "system";
         content :=
           "You are a helpful assistant. Respond naturally to the user's query." |};
      {| role := "user"; content := user_query |} ] in
  match ollama_chat (ollama_model (self st)) messages (world st) with
  | (Returns text, w) =>
      let direct_response := PyStr.strip text in
      (direct_response,
       history_append {| role := "assistant"; content := direct_response |}
                      (set_world st w))
  | (Raises e, w) =>
      ("Error generating response: " ++ str_exn e, set_world st w)
  end.

(** ** [_generate_comprehensive_response] (lines 255-284) *)

(** Lines 259-261: one line per result, numbered from [i]. *)
Fixpoint results_summary (i : nat) (tool_results : list ExecutedTool)
  : list string :=
  match tool_results with
  | [] => []
  | r :: rest =>
      ("Tool " ++ PyStr.of_nat i ++ " (" ++ py_str (tool_name r) ++ "): "
         ++ result r)
        :: results_summary (S i) rest
  end.

(** Lines 263-273. *)
Definition comprehensive_prompt (user_query : string)
  (tool_results : list ExecutedTool) : string :=
  let results_text :=
    PyStr.join (PyStr.nl ++ PyStr.nl) (results_summary 1 tool_results) in
  PyStr.join PyStr.nl
    [ "The user asked: " ++ PyStr.dquote ++ user_query ++ PyStr.dquote;
      "";
      "I used " ++ PyStr.of_nat (List.length tool_results)
        ++ " tool(s) and got these results:";
      "";
      results_text;
      "";
      "Please provide a comprehensive, natural response to the user based on ALL this information. ";
      "Combine and synthesize the data from all tools to give a complete answer. ";
      "Don't mention the technical details about using tools, just give a conversational response that addresses the user's query." ].

(** Line 284: the fallback when the model call fails. *)
Definition fallback_response (tool_results : list ExecutedTool) : string :=
  "Based on the collected information: "
    ++ PyStr.join " " (map result tool_results).

Definition _generate_comprehensive_response (user_query : string)
  (tool_results : list ExecutedTool) (st : state) : string * state :=
  let prompt := comprehensive_prompt user_query tool_results in
  match ollama_chat (ollama_model (self st))
                    [ {| role := "user"; content := prompt |} ] (world st) with
  | (Returns text, w) => (PyStr.strip text, set_world st w)
  | (Raises e, w) => (fallback_response tool_results, set_world st w)
  end.

(** ** [_execute_tools_sequentially] (lines 90-234) *)

(** Lines 96-101. *)
Definition tool_context (executed_tools : list ExecutedTool) : string :=
  match executed_tools with
  | [] => ""
  | _ :: _ =>
      fold_left
        (fun context tool =>
           context ++ "- " ++ py_str (tool_name tool) ++ ": " ++ result tool
                   ++ PyStr.nl)
        executed_tools
        (PyStr.nl ++ PyStr.nl ++ "Previous tool results:" ++ PyStr.nl)
  end.

(** The text [[{"tool": t, "params": {k: v}}]] of the prompt's examples. *)
Definition request_example (t k v : string) : string :=
  let q s := PyStr.dquote ++ s ++ PyStr.dquote in
  "[{" ++ q "tool" ++ ": " ++ q t ++ ", " ++ q "params" ++ ": {"
       ++ q k ++ ": " ++ q v ++ "}}]".

(** Lines 104-131. *)
Definition planning_prompt (tool_descriptions current_query context : string)
  : string :=
  PyStr.join PyStr.nl
    [ "You are a helpful assistant with access to various tools through MCP (Model Context Protocol).";
      "";
      "Available tools:";
      tool_descriptions;
      "";
      "The user originally asked: " ++ PyStr.dquote ++ current_query
        ++ PyStr.dquote ++ context;
      "";
      "ANALYZE THE SITUATION:";
      "- What is the user asking for?";
      "- What tools have already been executed?";
      "- What information is still missing to fully answer the user's question?";
      "";
      "RULES:";
      "1. If the user asks for stock price and you don't have a ticker symbol, use get_ticker_from_name first";
      "2. If you have a ticker symbol from previous results, use get_stock_price next";
      "3. If the user asks for news and you have a ticker, use get_stock_news";
      "4. If you have all the information needed, return empty array []";
      "";
      "Respond with ONLY a JSON array with ONE tool (or empty array), in this exact format:";
      request_example "tool_name" "param1" "value1";
      "";
      "Examples:";
      "- Need ticker first: " ++ request_example "get_ticker_from_name" "name" "Apple Inc";
      "- Have ticker, need price: " ++ request_example "get_stock_price" "ticker" "AAPL";
      "- Have ticker, need news: " ++ request_example "get_stock_news" "ticker" "AAPL";
      "- All done: []";
      "";
      "Do not include any explanation, just the JSON array." ].

(** Lines 159-162, on the value [json.loads] returned:
    <<
    if tool_requests and len(tool_requests) > 0:
        tool_request = tool_requests[0]
        tool_name = tool_request.get('tool')
        parameters = tool_request.get('params', {})
    >>
    [Returns None] when the test of line 159 fails. *)
Definition first_request (tool_requests : value)
  : completion (option (value * value)) :=
  if Py.truthy tool_requests then
    n <- Py.len tool_requests ;;
    if (0 <? n)%nat then
      tool_request <- Py.getitem tool_requests 0 ;;
      tool_name <- Py.get tool_request "tool" VNone ;;
      parameters <- Py.get tool_request "params" (VDict []) ;;
      Returns (Some (tool_name, parameters))
    else Returns None
  else Returns None.

(** What a planning round decides (lines 133-162 and the handlers that
    enclose them). *)
Inductive plan : Type :=
| ToolCallRequest (tool_name parameters : value)
    (** line 160: a tool is needed *)
| NoToolNeeded
    (** line 199 (the test of line 159 fails), line 210 (empty text) or
        line 219 ([JSONDecodeError]) *)
| PlanningError (e : exn)
    (** line 228: any other exception of lines 135-162 *).

(** Lines 141-147: the text that is parsed. *)
Definition planning_text_of (reply : string) : string :=
  strip_think_tags (PyStr.strip reply).

(** Lines 96-162: ask the model for the next tool and parse its reply. *)
Definition plan_round (current_query tool_descriptions : string)
  (executed_tools : list ExecutedTool) (st : state) : plan * state :=
  let context := tool_context executed_tools in
  let prompt := planning_prompt tool_descriptions current_query context in
  match ollama_chat (ollama_model (self st))
                    [ {| role := "user"; content := prompt |} ] (world st) with
  | (Raises e, w) => (PlanningError e, set_world st w)
  | (Returns reply, w) =>
      let planning_text := planning_text_of reply in
      if PyStr.truthy planning_text then
        match (tool_requests <- json_loads planning_text ;;
               first_request tool_requests) with
        | Returns (Some (tool_name, parameters)) =>
            (ToolCallRequest tool_name parameters, set_world st w)
        | Returns None => (NoToolNeeded, set_world st w)
        | Raises (JSONDecodeError _) => (NoToolNeeded, set_world st w)
        | Raises (Exception _ as e) => (PlanningError e, set_world st w)
        end
      else (NoToolNeeded, set_world st w)
  end.

(** Line 169: [tool_result[0].text if tool_result else "No result"]. *)
Definition tool_output_of (tool_result : list content_part)
  : completion string :=
  match tool_result with
  | [] => Returns "No result"
  | TextContent text :: _ => Returns text
  | ImageContent _ _ :: _ =>
      Raises (Exception "'ImageContent' object has no attribute 'text'")
  | EmbeddedResource _ :: _ =>
      Raises (Exception "'EmbeddedResource' object has no attribute 'text'")
  end.

(** Lines 166-176 and 188-194: call the tool and build the entry that is
    appended to [executed_tools], the result on success, ["Error: ..."] when
    line 168 or line 169 raises. *)
Definition dispatch (tool_name parameters : value) (st : state)
  : ExecutedTool * state :=
  let '(called, w) := call_tool tool_name parameters (world st) in
  match (tool_result <- called ;; tool_output_of tool_result) with
  | Returns tool_output =>
      ({| tool_name := tool_name; parameters := parameters;
          result := tool_output |}, set_world st w)
  | Raises e =>
      ({| tool_name := tool_name; parameters := parameters;
          result := "Error: " ++ str_exn e |}, set_world st w)
  end.

(** Lines 201-204 (and again 212-215, 221-224, 229-232): synthesis from the
    trace, recorded in the history. *)
Definition synthesize (current_query : string)
  (executed_tools : list ExecutedTool) (st : state) : string * state :=
  let '(final_response, st1) :=
    _generate_comprehensive_response current_query executed_tools st in
  (final_response,
   history_append {| role := "assistant"; content := final_response |} st1).

(** Lines 201-208 (and again 212-217, 221-226). *)
Definition respond (current_query : string)
  (executed_tools : list ExecutedTool) (st : state) : string * state :=
  match executed_tools with
  | _ :: _ => synthesize current_query executed_tools st
  | [] => _generate_direct_response current_query st
  end.

(** Lines 228-234. *)
Definition respond_to_exception (e : exn) (current_query : string)
  (executed_tools : list ExecutedTool) (st : state) : string * state :=
  match executed_tools with
  | _ :: _ => synthesize current_query executed_tools st
  | [] => ("Error in query processing: " ++ str_exn e, st)
  end.

(** What a call returns: the string, and with it the list [executed_tools]
    as the call leaves it (the list is the caller's object, appended to in
    place) and the state. *)
Record turn : Type :=
  { response : string; trace : list ExecutedTool; final : state }.

(** The method calls itself at lines 186 and 197 with nothing that
    decreases; [fuel] bounds the depth of these calls, and [None] is a run
    that needs more nested calls than [fuel]: it is no statement of what
    the interpreter does with such a run.  This function is the method on
    the runs that fit in the interpreter's stack, where no call raises
    [RecursionError].  On these the two nested calls, which are in the
    [try] of line 166, raise nothing, because the method catches every
    [Exception] itself (line 228; lines 252 and 282 in the generators), and
    the handler of line 188 is entered from lines 168-169 only.  What the
    method does when the stack runs out is
    [_execute_tools_sequentially_within], further down, which agrees with
    this function on every run that fits (lemma [execute_within_agrees]). *)
Fixpoint _execute_tools_sequentially (fuel : nat)
  (current_query tool_descriptions : string)
  (executed_tools : list ExecutedTool) (st : state) : option turn :=
  match fuel with
  | O => None
  | S fuel' =>
      match plan_round current_query tool_descriptions executed_tools st with
      | (ToolCallRequest tool_name parameters, st1) =>
          let '(entry, st2) := dispatch tool_name parameters st1 in
          _execute_tools_sequentially fuel' current_query tool_descriptions
            (executed_tools ++ [entry])%list st2
      | (NoToolNeeded, st1) =>
          let '(final_response, st2) :=
            respond current_query executed_tools st1 in
          Some {| response := final_response; trace := executed_tools;
                  final := st2 |}
      | (PlanningError e, st1) =>
          let '(final_response, st2) :=
            respond_to_exception e current_query executed_tools st1 in
          Some {| response := final_response; trace := executed_tools;
                  final := st2 |}
      end
  end.

(** ** [_process_query_automatically] (lines 81-88) *)
Definition _process_query_automatically (fuel : nat)
  (user_query tool_descriptions : string) (st : state) : option turn :=
  let st1 := history_append {| role := "user"; content := user_query |} st in
  _execute_tools_sequentially fuel user_query tool_descriptions [] st1.

(** ** [start_chat] (lines 27-59): one pass of the loop on an input line *)

Inductive loop_step : Type :=
| Break
| Continue (printed : option string).

Definition start_chat_step (fuel : nat) (tool_descriptions line : string)
  (st : state) : option (loop_step * state) :=
  let user_input := PyStr.strip line in
  if String.eqb (PyStr.lower user_input) "quit" then Some (Break, st)
  else if String.eqb (PyStr.lower user_input) "clear" then
    Some (Continue None, history_clear st)
  else if String.eqb (PyStr.lower user_input) "tools" then
    Some (Continue None, st)
  else if negb (PyStr.truthy user_input) then Some (Continue None, st)
  else
    match _process_query_automatically fuel user_input tool_descriptions st with
    | None => None
    | Some t => Some (Continue (Some (strip_think_tags (response t))), final t)
    end.

End Methods.

(* ===================================================================== *)
(** * Runs of the executor loop *)
(* ===================================================================== *)

Section Runs.

Context {C : Collaborators}.

(** One planning round that ends in a tool call, as an observer of the
    collaborators sees it: the model's reply, the first object of the array
    the reply parses to, the rest of the array, and what [call_tool] did. *)
Record tool_round : Type :=
  { reply : string;
    request : list (string * value);
    extra : list value;
    outcome : completion (list content_part) }.

(** The [tool] and [params] of a request, [None] and [{}] for a missing
    key. *)
Definition requested_tool (r : tool_round) : value :=
  match Py.lookup "tool" (request r) with
  | Some v => v
  | None => VNone
  end.

Definition requested_params (r : tool_round) : value :=
  match Py.lookup "params" (request r) with
  | Some v => v
  | None => VDict []
  end.

(** A request with both keys, a string and a mapping. *)
Definition well_formed (r : tool_round) : Prop :=
  exists name params,
    Py.lookup "tool" (request r) = Some (VStr name)
    /\ Py.lookup "params" (request r) = Some (VDict params).

(** The result string that belongs to an outcome of [call_tool]. *)
Definition recorded_result (o : completion (list content_part)) : string :=
  match o with
  | Returns [] => "No result"
  | Returns (TextContent text :: _) => text
  | Returns (ImageContent _ _ :: _) =>
      "Error: 'ImageContent' object has no attribute 'text'"
  | Returns (EmbeddedResource _ :: _) =>
      "Error: 'EmbeddedResource' object has no attribute 'text'"
  | Raises e => "Error: " ++ str_exn e
  end.

Definition entry_of (r : tool_round) : ExecutedTool :=
  {| tool_name := requested_tool r;
     parameters := requested_params r;
     result := recorded_result (outcome r) |}.

(** The message list of the planning call of a round. *)
Definition planning_messages (current_query tool_descriptions : string)
  (executed_tools : list ExecutedTool) : list message :=
  [ {| role := "user";
       content := planning_prompt tool_descriptions current_query
                    (tool_context executed_tools) |} ].

(** In the state [st], with the trace [tr], the model answers the planning
    call with the reply of [r], the text parsed is not empty and
    [json.loads] makes of it a non-empty array whose first element is the
    object [request r]; [w1] is the state the call leaves the collaborators
    in. *)
Definition planner_requests (current_query tool_descriptions : string)
  (tr : list ExecutedTool) (st : state) (r : tool_round) (w1 : World) : Prop :=
  ollama_chat (ollama_model (self st))
    (planning_messages current_query tool_descriptions tr) (world st)
  = (Returns (reply r), w1)
  /\ planning_text_of (reply r) <> ""
  /\ json_loads (planning_text_of (reply r))
     = Returns (VList (VDict (request r) :: extra r)).

(** [rounds q d rs tr st tr' st']: from the trace [tr] and the state [st],
    the collaborators answer the successive planning rounds with the
    requests [rs] and the tool calls with their outcomes, and leave the
    trace [tr'] and the state [st']. *)
Inductive rounds (current_query tool_descriptions : string)
  : list tool_round -> list ExecutedTool -> state
    -> list ExecutedTool -> state -> Prop :=
| rounds_done : forall tr st,
    rounds current_query tool_descriptions [] tr st tr st
| rounds_call : forall r rs tr st w1 w2 tr' st',
    planner_requests current_query tool_descriptions tr st r w1 ->
    call_tool (requested_tool r) (requested_params r) w1 = (outcome r, w2) ->
    rounds current_query tool_descriptions rs
      (tr ++ [entry_of r])%list (set_world st w2) tr' st' ->
    rounds current_query tool_descriptions (r :: rs) tr st tr' st'.

(** A round that makes no tool call: the loop ends in it. *)
Definition terminating_round (current_query tool_descriptions : string)
  (executed_tools : list ExecutedTool) (st : state) : Prop :=
  match fst (plan_round current_query tool_descriptions executed_tools st) with
  | ToolCallRequest _ _ => False
  | NoToolNeeded => True
  | PlanningError _ => True
  end.

(** A planner stub that answers every planning call, whatever the messages
    and its own state, with a non-empty array of requests. *)
Definition always_requests_tool : Prop :=
  forall model messages w,
  exists text w' obj more,
    ollama_chat model messages w = (Returns text, w')
    /\ planning_text_of text <> ""
    /\ json_loads (planning_text_of text) = Returns (VList (VDict obj :: more)).

(** The text of a planning reply that is no plan: it is empty, or
    [json.loads] raises on it, or what it parses to is not an array, or
    reading the first request off it (lines 159-162) raises. *)
Definition unusable_plan (text : string) : Prop :=
  text = ""
  \/ (exists e, json_loads text = Raises e)
  \/ (exists v, json_loads text = Returns v
                /\ ((forall items, v <> VList items)
                    \/ exists e, first_request v = Raises e)).

(** The failures that lines 199, 210 and 219 take in. *)
Definition quiet_failure (text : string) : Prop :=
  text = ""
  \/ (exists msg, json_loads text = Raises (JSONDecodeError msg))
  \/ (exists v, json_loads text = Returns v /\ Py.truthy v = false).

(** The failures that reach the handler of line 228, with [str(e)]. *)
Definition loud_failure (text msg : string) : Prop :=
  text <> ""
  /\ (json_loads text = Raises (Exception msg)
      \/ exists v, json_loads text = Returns v
                   /\ first_request v = Raises (Exception msg)).

(** The records of the history. *)
Definition assistant (text : string) : message :=
  {| role := "assistant"; content := text |}.

Definition user (text : string) : message :=
  {| role := "user"; content := text |}.

(** [self.conversation_history] *)
Definition history (st : state) : list message :=
  conversation_history (self st).

(** The two replies that are error descriptions (lines 234 and 253). *)
Definition error_reply (text : string) : Prop :=
  exists msg,
    text = "Error in query processing: " ++ msg
    \/ text = "Error generating response: " ++ msg.

End Runs.

(* ===================================================================== *)
(** * Collaborators under observation *)
(* ===================================================================== *)

(** The collaborators [C] with a record of the calls made to the registry:
    besides the state of [C], the world keeps the arguments of every
    [call_tool], in the order of the calls.  The answers are those of [C]. *)
Definition recording (C : Collaborators) : Collaborators :=
  {| World := (@World C * list (value * value))%type;
     ollama_chat := fun model messages w =>
       let '(r, w') := @ollama_chat C model messages (fst w) in
       (r, (w', snd w));
     call_tool := fun name params w =>
       let '(r, w') := @call_tool C name params (fst w) in
       (r, (w', (snd w ++ [(name, params)])%list));
     json_loads := @json_loads C;
     py_str := @py_str C |}.

Section Observation.

Context {C : Collaborators}.

(** The calls made to the registry so far, with their arguments. *)
Definition calls_made (st : @state (recording C)) : list (value * value) :=
  snd (world st).

(** The state without the record, and a turn without it. *)
Definition forget (st : @state (recording C)) : @state C :=
  {| self := self st; world := fst (world st) |}.

Definition forget_turn (t : @turn (recording C)) : @turn C :=
  {| response := response t; trace := trace t; final := forget (final t) |}.

(** The arguments of the call of a round. *)
Definition call_of (r : tool_round) : value * value :=
  (requested_tool r, requested_params r).

End Observation.

(* ===================================================================== *)
(** * The executor loop under the interpreter's recursion limit *)
(* ===================================================================== *)

(** [_execute_tools_sequentially] above stands for the runs that fit in the
    interpreter's stack.  Here the stack is counted.  A call for which the
    interpreter has no frame left raises [RecursionError], an [Exception],
    at the place of the call; [sys.getrecursionlimit()] and the depth at
    which the method is first called decide how many frames there are.

    What is counted:
    - a call of one of the methods of [self] takes one frame, and the
      method runs with the frames that are left;
    - a call of a collaborator needs as many frames as its deepest chain of
      calls.  [chat_frames] are those of [ollama.chat] (lines 135, 239 and
      276); [loads_frames] those of lines 156-164, [json.loads] and the
      formatting of what it returned in the two prints; [tool_frames] those
      of lines 168-169.  A collaborator that lacks them raises
      [RecursionError] and leaves its state as it is;
    - [comprehension_frames] are those of the list comprehension of
      line 284 (a frame of its own before Python 3.12, none since);
    - [print_frames] are those of a [print] of a string and of [str(e)]
      (C functions: one level while they run before Python 3.12, none
      since).  The first [print] of a call is that of line 148; a call that
      got past it has the frames for the others, and [str(e)] is counted
      again where line 148 was not reached (lines 234 and 253);
    - the methods of [str], [list] and [dict] take none.

    [recursion_message] is [str(e)] of the [RecursionError].  The numbers
    are those of an interpreter and of the collaborators in use; they are
    taken as constants of a run: where the frames of a call vary with its
    arguments, as those of the formatting of line 157 do with the depth of
    the parsed value, the number is that of the deepest call. *)
Record interpreter : Type :=
  { recursion_message : string;
    chat_frames : nat;
    loads_frames : nat;
    tool_frames : nat;
    comprehension_frames : nat;
    print_frames : nat }.

Section RecursionLimit.

Context {C : Collaborators}.

Variable python : interpreter.

Local Open Scope py_scope.

Definition RecursionError : exn := Exception (recursion_message python).

(** A call of a collaborator that needs [frames] frames where [room] are
    left. *)
Definition call_within {A : Type} (room frames : nat)
  (call : World -> completion A * World) (w : World) : completion A * World :=
  if (frames <=? room)%nat then call w else (Raises RecursionError, w).

(** [_generate_direct_response] (lines 236-253) with [room] frames left
    below its own.  Line 253 is in the handler: a [RecursionError] of its
    [str(e)] leaves the method. *)
Definition _generate_direct_response_within (room : nat)
  (user_query : string) (st : state) : completion string * state :=
  let messages :=
    [ {| role := "system";
         content :=
           "You are a helpful assistant. Respond naturally to the user's query." |};
      {| role := "user"; content := user_query |} ] in
  match call_within room (chat_frames python)
          (ollama_chat (ollama_model (self st)) messages) (world st) with
  | (Returns text, w) =>
      let direct_response := PyStr.strip text in
      (Returns direct_response,
       history_append {| role := "assistant"; content := direct_response |}
                      (set_world st w))
  | (Raises e, w) =>
      if (print_frames python <=? room)%nat
      then (Returns ("Error generating response: " ++ str_exn e),
            set_world st w)
      else (Raises RecursionError, set_world st w)
  end.

(** [_generate_comprehensive_response] (lines 255-284) with [room] frames
    left below its own.  The fallback of line 284 is computed in the
    handler: a [RecursionError] of its comprehension leaves the method. *)
Definition _generate_comprehensive_response_within (room : nat)
  (user_query : string) (tool_results : list ExecutedTool) (st : state)
  : completion string * state :=
  let prompt := comprehensive_prompt user_query tool_results in
  match call_within room (chat_frames python)
          (ollama_chat (ollama_model (self st))
             [ {| role := "user"; content := prompt |} ]) (world st) with
  | (Returns text, w) => (Returns (PyStr.strip text), set_world st w)
  | (Raises e, w) =>
      if (comprehension_frames python <=? room)%nat
      then (Returns (fallback_response tool_results), set_world st w)
      else (Raises RecursionError, set_world st w)
  end.

(** Lines 96-162 with [room] frames left below the method's own. *)
Definition plan_round_within (room : nat)
  (current_query tool_descriptions : string)
  (executed_tools : list ExecutedTool) (st : state) : plan * state :=
  let context := tool_context executed_tools in
  let prompt := planning_prompt tool_descriptions current_query context in
  match call_within room (chat_frames python)
          (ollama_chat (ollama_model (self st))
             [ {| role := "user"; content := prompt |} ]) (world st) with
  | (Raises e, w) => (PlanningError e, set_world st w)
  | (Returns reply, w) =>
      let planning_text := planning_text_of reply in
      if (print_frames python <=? room)%nat then
        if PyStr.truthy planning_text then
          match (tool_requests <-
                   (if (loads_frames python <=? room)%nat
                    then json_loads planning_text
                    else Raises RecursionError) ;;
                 first_request tool_requests) with
          | Returns (Some (tool_name, parameters)) =>
              (ToolCallRequest tool_name parameters, set_world st w)
          | Returns None => (NoToolNeeded, set_world st w)
          | Raises (JSONDecodeError _) => (NoToolNeeded, set_world st w)
          | Raises (Exception _ as e) => (PlanningError e, set_world st w)
          end
        else (NoToolNeeded, set_world st w)
      else (PlanningError RecursionError, set_world st w)
  end.

(** Lines 168-169 with [room] frames left: the tool output, or the
    exception that the handler of line 188 receives. *)
Definition call_and_read_within (room : nat) (tool_name parameters : value)
  (st : state) : completion string * state :=
  let '(called, w) :=
    call_within room (tool_frames python)
      (call_tool tool_name parameters) (world st) in
  (tool_result <- called ;; tool_output_of tool_result, set_world st w).

(** How a call of the method ends: it returns a string, or an exception
    leaves it.  Either way the caller finds the list [executed_tools] and
    the state as the call left them: the list is one object, appended to in
    place by every call. *)
Inductive ending : Type :=
| Returned (final_response : string)
| Raised (e : exn).

(** A call of a method of [self] from a frame below which [room] frames are
    left. *)
Definition call_method {A : Type} (room : nat) (st : state)
  (method : nat -> completion A * state) : completion A * state :=
  match room with
  | O => (Raises RecursionError, st)
  | S room' => method room'
  end.

(** Lines 228-234, on the list and the state of that moment. *)
Definition handle_exception (room : nat) (e : exn) (current_query : string)
  (executed_tools : list ExecutedTool) (st : state)
  : ending * list ExecutedTool * state :=
  match executed_tools with
  | _ :: _ =>
      match call_method room st
              (fun room' =>
                 _generate_comprehensive_response_within room' current_query
                   executed_tools st) with
      | (Returns final_response, st1) =>
          (Returned final_response, executed_tools,
           history_append
             {| role := "assistant"; content := final_response |} st1)
      | (Raises e', st1) => (Raised e', executed_tools, st1)
      end
  | [] =>
      if (print_frames python <=? room)%nat
      then (Returned ("Error in query processing: " ++ str_exn e),
            executed_tools, st)
      else (Raised RecursionError, executed_tools, st)
  end.

(** Lines 201-208 (and again 212-217, 221-226), all of them inside the
    [try] of line 133. *)
Definition respond_within (room : nat) (current_query : string)
  (executed_tools : list ExecutedTool) (st : state)
  : ending * list ExecutedTool * state :=
  match executed_tools with
  | _ :: _ =>
      match call_method room st
              (fun room' =>
                 _generate_comprehensive_response_within room' current_query
                   executed_tools st) with
      | (Returns final_response, st1) =>
          (Returned final_response, executed_tools,
           history_append
             {| role := "assistant"; content := final_response |} st1)
      | (Raises e, st1) =>
          handle_exception room e current_query executed_tools st1
      end
  | [] =>
      match call_method room st
              (fun room' =>
                 _generate_direct_response_within room' current_query st) with
      | (Returns direct_response, st1) =>
          (Returned direct_response, executed_tools, st1)
      | (Raises e, st1) =>
          handle_exception room e current_query executed_tools st1
      end
  end.

(** Lines 188-197 once the nested call of line 197 has ended: its string
    is returned, its exception goes to line 228. *)
Definition after_nested_call (room : nat) (current_query : string)
  (nested : ending * list ExecutedTool * state)
  : ending * list ExecutedTool * state :=
  match nested with
  | (Returned final_response, executed_tools, st) =>
      (Returned final_response, executed_tools, st)
  | (Raised e, executed_tools, st) =>
      handle_exception room e current_query executed_tools st
  end.

(** The method with [frames] frames for itself and all it calls.  Without a
    frame the call is refused.  The calls of lines 186 and 197 are refused
    in the same way when the method has no frame left below its own; the
    first is in the [try] of line 166, so that its exception is recorded as
    one more entry (lines 188-194) and the call is made again at line 197,
    in the [try] of line 133 only. *)
Fixpoint _execute_tools_sequentially_within (frames : nat)
  (current_query tool_descriptions : string)
  (executed_tools : list ExecutedTool) (st : state)
  : ending * list ExecutedTool * state :=
  match frames with
  | O => (Raised RecursionError, executed_tools, st)
  | S room =>
      match plan_round_within room current_query tool_descriptions
              executed_tools st with
      | (ToolCallRequest tool_name parameters, st1) =>
          let '(output, st2) :=
            call_and_read_within room tool_name parameters st1 in
          (* lines 188-197 *)
          let record_error (e : exn) (executed_tools : list ExecutedTool)
                (st : state) :=
            after_nested_call room current_query
              (_execute_tools_sequentially_within room current_query
                 tool_descriptions
                 (executed_tools
                    ++ [ {| tool_name := tool_name; parameters := parameters;
                            result := "Error: " ++ str_exn e |} ])%list st) in
          match output with
          | Returns tool_output =>
              (* lines 172-186 *)
              match _execute_tools_sequentially_within room current_query
                      tool_descriptions
                      (executed_tools
                         ++ [ {| tool_name := tool_name;
                                 parameters := parameters;
                                 result := tool_output |} ])%list st2 with
              | (Returned final_response, executed_tools, st3) =>
                  (Returned final_response, executed_tools, st3)
              | (Raised e, executed_tools, st3) =>
                  record_error e executed_tools st3
              end
          | Raises e => record_error e executed_tools st2
          end
      | (NoToolNeeded, st1) =>
          respond_within room current_query executed_tools st1
      | (PlanningError e, st1) =>
          handle_exception room e current_query executed_tools st1
      end
  end.

(** The frames a planning round needs below the method's own, and those
    the answer of line 228 needs. *)
Definition planning_frames : nat :=
  Nat.max (Nat.max (chat_frames python) (loads_frames python))
    (print_frames python).


(** The frames that a turn of [depth] nested calls needs at most: one for
    each call, one for the generator that answers, and those of the
    deepest collaborator. *)
Definition frames_needed (depth : nat) : nat :=
  depth + 1
  + Nat.max (Nat.max planning_frames (tool_frames python))
      (comprehension_frames python).



End RecursionLimit.

(* ===================================================================== *)
(** * Stubs of the collaborators, for the closed examples *)
(* ===================================================================== *)

Module Stub.

(** A request object [{"tool": t, "params": {k: v}}] as parsed. *)
Definition request_value (t k v : string) : value :=
  VDict [("tool", VStr t); ("params", VDict [(k, VStr v)])].

Definition ticker_text : string :=
  request_example "get_ticker_from_name" "name" "Apple Inc".
Definition price_text : string :=
  request_example "get_stock_price" "ticker" "AAPL".

(** [json.loads] on the texts the examples use; any other text is taken
    as undecodable. *)
Definition loads_table : list (string * value) :=
  [ ("[]", VList []);
    (ticker_text,
     VList [request_value "get_ticker_from_name" "name" "Apple Inc"]);
    (price_text, VList [request_value "get_stock_price" "ticker" "AAPL"]);
    ("[{}]", VList [VDict []]);
    ("[{}, {}]", VList [VDict []; VDict []]);
    ("[1]", VList [VInt 1]);
    ("{}", VDict []);
    ("null", VNone);
    ("true", VBool true);
    ("1", VInt 1) ].

Definition loads (text : string) : completion value :=
  match Py.lookup text loads_table with
  | Some v => Returns v
  | None => Raises (JSONDecodeError "Expecting value: line 1 column 1 (char 0)")
  end.

(** [str()] on the tool names the examples use. *)
Definition str (v : value) : string :=
  match v with
  | VStr s => s
  | VNone => "None"
  | VBool true => "True"
  | VBool false => "False"
  | VInt z => Py.str_int z
  | _ => "<" ++ Py.type_name v ++ ">"
  end.

(** Collaborators that answer from two scripts, one reply per call, in the
    manner of a mock with a list of side effects. *)
Record script : Type :=
  { chat_script : list (completion string);
    tool_script : list (completion (list content_part)) }.

Definition scripted_chat (model : string) (messages : list message)
  (w : script) : completion string * script :=
  match chat_script w with
  | [] => (Raises (Exception "no reply scripted"), w)
  | r :: rest => (r, {| chat_script := rest; tool_script := tool_script w |})
  end.

Definition scripted_call_tool (name params : value) (w : script)
  : completion (list content_part) * script :=
  match tool_script w with
  | [] => (Raises (Exception "no tool result scripted"), w)
  | r :: rest => (r, {| chat_script := chat_script w; tool_script := rest |})
  end.

Definition scripted : Collaborators :=
  {| World := script;
     ollama_chat := scripted_chat;
     call_tool := scripted_call_tool;
     json_loads := loads;
     py_str := str |}.

(** A planner stub that asks for the price on every round, and a registry
    that always returns it. *)
Definition relentless : Collaborators :=
  {| World := unit;
     ollama_chat := fun _ _ w => (Returns price_text, w);
     call_tool := fun _ _ w => (Returns [TextContent "190.5"], w);
     json_loads := loads;
     py_str := str |}.

(** The numbers of CPython 3.11 for collaborators that are plain functions,
    as the two stubs above are when written in Python: one frame for the
    model and one for the registry, seven levels for [json.loads] on a
    request, one frame for the comprehension of line 284 and one level for
    a [print]. *)
Definition cpython : interpreter :=
  {| recursion_message := "maximum recursion depth exceeded";
     chat_frames := 1;
     loads_frames := 7;
     tool_frames := 1;
     comprehension_frames := 1;
     print_frames := 1 |}.

Definition chat_system : MCPChatSystem :=
  {| mcp_server_path := "backend/mcp_sever.py";
     ollama_model := "qwen3:8b";
     conversation_history := [] |}.

Definition start (C : Collaborators) (w : @World C) : @state C :=
  {| self := chat_system; world := w |}.

(** The scenario of the specification: the ticker, then the price, then
    [[]], then the synthesis. *)
Definition apple_query : string := "What is the stock price of Apple Inc".
Definition catalog : string :=
  "- get_ticker_from_name: Find the ticker of a company" ++ PyStr.nl
  ++ "- get_stock_price: Get the price of a ticker".

Definition ticker_round (o : completion (list content_part)) : tool_round :=
  {| reply := ticker_text;
     request := [("tool", VStr "get_ticker_from_name");
                 ("params", VDict [("name", VStr "Apple Inc")])];
     extra := [];
     outcome := o |}.

Definition price_round (o : completion (list content_part)) : tool_round :=
  {| reply := price_text;
     request := [("tool", VStr "get_stock_price");
                 ("params", VDict [("ticker", VStr "AAPL")])];
     extra := [];
     outcome := o |}.

Definition apple_world : script :=
  {| chat_script := [ Returns ticker_text; Returns price_text; Returns "[]";
                      Returns "Apple trades at 190.5" ];
     tool_script := [ Returns [TextContent "AAPL"];
                      Returns [TextContent "190.5"] ] |}.

Definition apple_rounds : list tool_round :=
  [ ticker_round (Returns [TextContent "AAPL"]);
    price_round (Returns [TextContent "190.5"]) ].

(** The same turn with a registry that fails on the second call. *)
Definition failing_world : script :=
  {| chat_script := [ Returns ticker_text; Returns price_text; Returns "[]";
                      Returns "I could not get the price" ];
     tool_script := [ Returns [TextContent "AAPL"];
                      Raises (Exception "upstream timeout") ] |}.

Definition failing_rounds : list tool_round :=
  [ ticker_round (Returns [TextContent "AAPL"]);
    price_round (Raises (Exception "upstream timeout")) ].

(** A reply [[{}, {}]]: two objects, both without keys, and a registry that
    refuses a call without tool name. *)
Definition bare_round : tool_round :=
  {| reply := "[{}, {}]";
     request := [];
     extra := [VDict []];
     outcome := Raises (Exception "tool name must be a string") |}.

Definition bare_world : script :=
  {| chat_script := [ Returns "[{}, {}]"; Returns "[]"; Returns "Sorry" ];
     tool_script := [ Raises (Exception "tool name must be a string") ] |}.

(** A registry that returns an empty sequence. *)
Definition empty_result_world : script :=
  {| chat_script := [ Returns price_text; Returns "[]"; Returns "No data" ];
     tool_script := [ Returns [] ] |}.

(** A model that answers the planning call with [1], and would answer a
    second call with a greeting. *)
Definition number_world : script :=
  {| chat_script := [ Returns "1"; Returns "hello" ]; tool_script := [] |}.

(** A model that is not reachable. *)
Definition offline_world : script :=
  {| chat_script := [ Raises (Exception "connection refused") ];
     tool_script := [] |}.

End Stub.

(* ===================================================================== *)
(** * [MCPChatSystem]: the constructor, the tool catalog, the chat loop *)
(* ===================================================================== *)

(** ** [__init__] (lines 8-11) *)
Definition __init__ (mcp_server_path : string) (ollama_model : option string)
  : MCPChatSystem :=
  {| mcp_server_path := mcp_server_path;
     ollama_model := match ollama_model with
                     | Some model => model
                     | None => "llama3.2"
                     end;
     conversation_history := [] |}.

(** A tool as [list_tools] returns it: [name] a string, [description] a
    string or [None], and the attribute [input_schema], which an object may
    lack ([hasattr] of line 67). *)
Module Tool.

Record t : Type :=
  { name : string;
    description : option string;
    input_schema : option value }.

End Tool.

Section Catalog.

Context {C : Collaborators}.

Local Open Scope py_scope.

(** An f-string on a string or [None]. *)
Definition format_optional (s : option string) : string :=
  match s with
  | Some text => text
  | None => "None"
  end.

(** [v.items()]; an [AttributeError] when [v] is not a dict. *)
Definition py_items (v : value) : completion (list (string * value)) :=
  match v with
  | VDict items => Returns items
  | _ =>
      Raises
        (Exception ("'" ++ Py.type_name v
                        ++ "' object has no attribute 'items'"))
  end.

(** Lines 69-72: one text per property of the schema. *)
Fixpoint format_params (properties : list (string * value))
  : completion (list string) :=
  match properties with
  | [] => Returns []
  | (param_name, param_info) :: rest =>
      param_type <- Py.get param_info "type" (VStr "string") ;;
      param_desc <- Py.get param_info "description" (VStr "") ;;
      params <- format_params rest ;;
      Returns ((param_name ++ " (" ++ py_str param_type ++ "): "
                  ++ py_str param_desc) :: params)
  end.

(** Lines 66-72. *)
Definition tool_params (tool : Tool.t) : completion (list string) :=
  match Tool.input_schema tool with
  | None => Returns []
  | Some schema =>
      if Py.truthy schema then
        properties <- Py.get schema "properties" (VDict []) ;;
        items <- py_items properties ;;
        format_params items
      else Returns []
  end.

(** Lines 74-76. *)
Definition tool_desc (tool : Tool.t) : completion string :=
  params <- tool_params tool ;;
  let head :=
    "- " ++ Tool.name tool ++ ": " ++ format_optional (Tool.description tool) in
  match params with
  | [] => Returns head
  | _ :: _ =>
      Returns (head ++ PyStr.nl ++ "  Parameters: " ++ PyStr.join ", " params)
  end.

(** Lines 63-77: the loop over the tools. *)
Fixpoint tool_info (tools : list Tool.t) : completion (list string) :=
  match tools with
  | [] => Returns []
  | tool :: rest =>
      desc <- tool_desc tool ;;
      infos <- tool_info rest ;;
      Returns (desc :: infos)
  end.

(** ** [_format_tools_for_model] (lines 61-79) *)
Definition _format_tools_for_model (tools : list Tool.t) : completion string :=
  infos <- tool_info tools ;;
  Returns (PyStr.join PyStr.nl infos).

(** The line of the planning context for an entry (line 101). *)
Definition context_line (tool : ExecutedTool) : string :=
  "- " ++ py_str (tool_name tool) ++ ": " ++ result tool ++ PyStr.nl.

(** The first line of a tool's description (line 74). *)
Definition tool_head (tool : Tool.t) : string :=
  "- " ++ Tool.name tool ++ ": " ++ format_optional (Tool.description tool).

(** A property of a schema whose value is a dict. *)
Definition dict_property (p : string * value) : Prop :=
  exists info, snd p = VDict info.

(** The text of line 72 for a property, its type ["string"] and its
    description [""] when the key is missing. *)
Definition param_text (p : string * value) : string :=
  let read key default :=
    match snd p with
    | VDict info =>
        match Py.lookup key info with
        | Some v => v
        | None => default
        end
    | _ => default
    end in
  fst p ++ " (" ++ py_str (read "type" (VStr "string")) ++ "): "
        ++ py_str (read "description" (VStr "")).

(** A tool for which lines 66-72 collect no parameter: it has no
    [input_schema], or a false one, or one without properties. *)
Definition without_parameters (tool : Tool.t) : Prop :=
  match Tool.input_schema tool with
  | None => True
  | Some schema =>
      Py.truthy schema = false
      \/ exists items,
           schema = VDict items
           /\ (Py.lookup "properties" items = None
               \/ Py.lookup "properties" items = Some (VDict []))
  end.

(** A schema the loop of lines 69-72 reads without raising: a false value,
    or a dict whose ["properties"], when present, is a dict of dicts. *)
Definition readable_schema (schema : value) : Prop :=
  Py.truthy schema = false
  \/ exists items,
       schema = VDict items
       /\ match Py.lookup "properties" items with
          | None => True
          | Some (VDict properties) =>
              Forall (fun p => exists info, snd p = VDict info) properties
          | Some _ => False
          end.

Definition readable_tool (tool : Tool.t) : Prop :=
  match Tool.input_schema tool with
  | None => True
  | Some schema => readable_schema schema
  end.

End Catalog.

Section ChatLoop.

Context {C : Collaborators}.

(** What a call of [input] at line 29 gives: a line, or a
    [KeyboardInterrupt], or another exception (an [EOFError] at the end of
    the input). *)
Inductive console_event : Type :=
| Line (text : string)
| KeyboardInterrupt
| InputError (e : exn).

(** A chat session so far: the replies printed at line 53, whether the loop
    was left (lines 33 and 57), and the state. *)
Record session : Type :=
  { printed : list string; ended : bool; after : state }.

(** Lines 27-59: the loop, on the successive outcomes of [input]. With no
    outcome left the loop waits at line 29. [fuel] is the depth allowed to
    each turn. *)
Fixpoint chat_loop (fuel : nat) (tool_descriptions : string)
  (events : list console_event) (st : state) : option session :=
  match events with
  | [] => Some {| printed := []; ended := false; after := st |}
  | KeyboardInterrupt :: _ =>
      Some {| printed := []; ended := true; after := st |}
  | InputError _ :: rest => chat_loop fuel tool_descriptions rest st
  | Line text :: rest =>
      match start_chat_step fuel tool_descriptions text st with
      | None => None
      | Some (Break, st1) =>
          Some {| printed := []; ended := true; after := st1 |}
      | Some (Continue shown, st1) =>
          match chat_loop fuel tool_descriptions rest st1 with
          | None => None
          | Some s =>
              Some {| printed := match shown with
                                 | Some text => text :: printed s
                                 | None => printed s
                                 end;
                      ended := ended s;
                      after := after s |}
          end
      end
  end.

(** ** [start_chat] (lines 13-59), given what [list_tools] returned. The
    catalog is formatted at line 22, outside the [try] of the loop, so that
    an exception there leaves [start_chat] before any input is read. *)
Definition start_chat (fuel : nat) (tools : list Tool.t)
  (events : list console_event) (st : state) : completion (option session) :=
  match _format_tools_for_model tools with
  | Raises e => Raises e
  | Returns tool_descriptions =>
      Returns (chat_loop fuel tool_descriptions events st)
  end.

(** A line that is the command [c], in any case and with any blanks around
    it. *)
Definition is_command (c : string) (event : console_event) : Prop :=
  match event with
  | Line text => PyStr.lower (PyStr.strip text) = c
  | _ => False
  end.

(** The shape of a conversation: a sequence of exchanges, each the user's
    record followed or not by the assistant's. *)
Inductive transcript : list message -> Prop :=
| transcript_empty : transcript []
| transcript_unanswered : forall h q,
    transcript h -> transcript (h ++ [user q])%list
| transcript_answered : forall h q r,
    transcript h -> transcript (h ++ [user q; assistant r])%list.

(** Two states that differ at most in the conversation history. *)
Definition same_but_history (st1 st2 : state) : Prop :=
  world st1 = world st2
  /\ ollama_model (self st1) = ollama_model (self st2)
  /\ mcp_server_path (self st1) = mcp_server_path (self st2).

(** Two runs that differ at most in the history they leave. *)
Definition same_turn (o1 o2 : option turn) : Prop :=
  match o1, o2 with
  | Some t1, Some t2 =>
      response t1 = response t2 /\ trace t1 = trace t2
      /\ same_but_history (final t1) (final t2)
  | None, None => True
  | _, _ => False
  end.

End ChatLoop.

(** ** Closed examples for the catalog and the chat loop *)

Module Scenario.

(** A model that answers the planning call with [[]] and the direct call
    with a greeting. *)
Definition greeting_world : Stub.script :=
  {| Stub.chat_script := [ Returns "[]"; Returns " Hello! " ];
     Stub.tool_script := [] |}.

(** A registry that returns an image. *)
Definition image_world : Stub.script :=
  {| Stub.chat_script :=
       [ Returns Stub.price_text; Returns "[]"; Returns "A chart" ];
     Stub.tool_script :=
       [ Returns [ImageContent "iVBORw0KGgo=" "image/png"] ] |}.

(** What the loop returns on the scenario of the specification. *)
Definition apple_turn : @turn Stub.scripted :=
  Eval vm_compute in
    match _execute_tools_sequentially (C := Stub.scripted) 3
            Stub.apple_query Stub.catalog []
            (Stub.start Stub.scripted Stub.apple_world) with
    | Some t => t
    | None =>
        {| response := ""; trace := [];
           final := Stub.start Stub.scripted Stub.apple_world |}
    end.

(** A catalog of two tools, one with a schema and one with neither schema
    nor description, and a tool whose schema has a boolean for property. *)
Definition price_tool : Tool.t :=
  {| Tool.name := "get_stock_price";
     Tool.description := Some "Get the price of a stock";
     Tool.input_schema :=
       Some (VDict [ ("type", VStr "object");
                     ("properties",
                      VDict [ ("ticker", VDict [("type", VStr "string");
                                                ("title", VStr "Ticker")]);
                              ("period", VDict [("description",
                                                 VStr "e.g. 1mo")]) ]) ]) |}.

Definition bare_tool : Tool.t :=
  {| Tool.name := "get_ticker_from_name";
     Tool.description := None;
     Tool.input_schema := None |}.

Definition boolean_tool : Tool.t :=
  {| Tool.name := "anything";
     Tool.description := Some "Accepts anything";
     Tool.input_schema :=
       Some (VDict [ ("properties", VDict [("payload", VBool true)]) ]) |}.

(** A chat system that remembers an exchange. *)
Definition remembering : MCPChatSystem :=
  {| mcp_server_path := "backend/mcp_sever.py";
     ollama_model := "qwen3:8b";
     conversation_history := [ user "hello"; assistant "Hello!" ] |}.

Definition remembering_state : @state Stub.scripted :=
  @Build_state Stub.scripted remembering Stub.apple_world.

(** The session of the scenario: the query, then [quit]. *)
Definition apple_events : list console_event :=
  [ Line Stub.apple_query; Line "  Quit " ].

Definition apple_session : @session Stub.scripted :=
  Eval vm_compute in
    match chat_loop (C := Stub.scripted) 3 Stub.catalog apple_events
            (Stub.start Stub.scripted Stub.apple_world) with
    | Some s => s
    | None =>
        {| printed := []; ended := false;
           after := Stub.start Stub.scripted Stub.apple_world |}
    end.

End Scenario.

(* ===================================================================== *)
(** * [tools/find_ticker.py]: the ticker search *)
(* ===================================================================== *)

(** A response of [requests.get], by what the function reads of it:
    [status_code], and what the calls [json()] and [raise_for_status()]
    do. *)
Module Http.

Record Response : Type :=
  { status_code : Z;
    json : completion value;
    raise_for_status : completion unit }.

End Http.

(** The network and the clock. [requests_get url params headers] is
    [requests.get(url, params=params, headers=headers)] and [time_sleep] is
    [time.sleep], both on a state of their own; [Time] is the type of
    [base_sleep].  The arithmetic of line 25 and the formatting of line 26
    are those of that type, and both may raise (with the [float] of the
    default, [1.0 * 2 ** 1024] raises [OverflowError]; with an [int], the
    product is exact and the format [.1f] raises it on a product beyond the
    floats):
    - [times t n] is the product [t * n] with an [int], where it is
      defined, and [times_raises t n] is the exception the product raises
      instead, if it raises;
    - [format_raises t] is the exception that formatting [t] with [.1f]
      raises, if it raises. *)
Class Network : Type :=
  { Net : Type;
    Time : Type;
    requests_get :
      string -> list (string * string) -> list (string * string) -> Net
      -> completion Http.Response * Net;
    time_sleep : Time -> Net -> completion unit * Net;
    times : Time -> Z -> Time;
    times_raises : Time -> Z -> option exn;
    format_raises : Time -> option exn }.

Section FindTicker.

Context {N : Network}.

Local Open Scope py_scope.

(** The calls made to the network and to the clock, in their order. *)
Inductive call : Type :=
| Requested
| Slept (sleep_time : Time).

(** [range(1, max_retries + 1)] *)
Definition attempts (max_retries : Z) : list Z :=
  map Z.of_nat (seq 1 (Z.to_nat max_retries)).

(** Line 25, [base_sleep * (2 ** (attempt - 1))], and the f-string of
    line 26 on its value: the sleep time, or the exception that ends the
    function before the sleep.  The power itself is one of [int]s and does
    not raise on the attempts of [range(1, max_retries + 1)]. *)
Definition backoff (base_sleep : Time) (attempt : Z) : completion Time :=
  match times_raises base_sleep (2 ^ (attempt - 1))%Z with
  | Some e => Raises e
  | None =>
      let sleep_time := times base_sleep (2 ^ (attempt - 1))%Z in
      match format_raises sleep_time with
      | Some e => Raises e
      | None => Returns sleep_time
      end
  end.

(** Lines 20-29: the loop over the attempts. It returns [Some quotes] when
    line 23 returns, [None] when the attempts are used up, and with either
    the calls it made. *)
Fixpoint search_loop (query region lang : string) (base_sleep : Time)
  (remaining : list Z) (net : Net)
  : completion (option value) * list call * Net :=
  match remaining with
  | [] => (Returns None, [], net)
  | attempt :: rest =>
      let url := "https://query2.finance.yahoo.com/v1/finance/search" in
      let params := [("q", query); ("lang", lang); ("region", region)] in
      let headers := [("User-Agent", "MyApp/1.0")] in
      match requests_get url params headers net with
      | (Raises e, net1) => (Raises e, [Requested], net1)
      | (Returns resp, net1) =>
          if (Http.status_code resp =? 200)%Z then
            (body <- Http.json resp ;;
             quotes <- Py.get body "quotes" (VList []) ;;
             Returns (Some quotes),
             [Requested], net1)
          else if (Http.status_code resp =? 429)%Z then
            match backoff base_sleep attempt with
            | Raises e => (Raises e, [Requested], net1)
            | Returns sleep_time =>
                match time_sleep sleep_time net1 with
                | (Raises e, net2) =>
                    (Raises e, [Requested; Slept sleep_time], net2)
                | (Returns _, net2) =>
                    let '(r, calls, net3) :=
                      search_loop query region lang base_sleep rest net2 in
                    (r, Requested :: Slept sleep_time :: calls, net3)
                end
            end
          else
            match Http.raise_for_status resp with
            | Raises e => (Raises e, [Requested], net1)
            | Returns _ =>
                let '(r, calls, net3) :=
                  search_loop query region lang base_sleep rest net1 in
                (r, Requested :: calls, net3)
            end
      end
  end.

(** ** [search_tickers] (lines 7-31), every argument given. *)
Definition search_tickers (query region lang : string) (max_retries : Z)
  (base_sleep : Time) (net : Net) : completion value * list call * Net :=
  let '(r, calls, net1) :=
    search_loop query region lang base_sleep (attempts max_retries) net in
  match r with
  | Returns (Some quotes) => (Returns quotes, calls, net1)
  | Returns None =>
      (Raises (Exception ("Failed after " ++ Py.str_int max_retries
                            ++ " retries due to rate limits.")),
       calls, net1)
  | Raises e => (Raises e, calls, net1)
  end.

(** The number of requests among some calls. *)
Definition requests (calls : list call) : nat :=
  List.length (filter (fun c => match c with
                                | Requested => true
                                | Slept _ => false
                                end) calls).




End FindTicker.

(** A network that answers from a list of responses, and a clock that
    counts in milliseconds. *)
Module NetStub.

Definition scripted : Network :=
  {| Net := list Http.Response;
     Time := Z;
     requests_get := fun _ _ _ net =>
       match net with
       | [] => (Raises (Exception "connection refused"), [])
       | resp :: rest => (Returns resp, rest)
       end;
     time_sleep := fun _ net => (Returns tt, net);
     times := Z.mul;
     times_raises := fun _ _ => None;
     format_raises := fun _ => None |}.

Definition busy : Network :=
  {| Net := unit;
     Time := Z;
     requests_get := fun _ _ _ net =>
       (Returns {| Http.status_code := 429;
                   Http.json := Raises (JSONDecodeError "Expecting value");
                   Http.raise_for_status :=
                     Raises (Exception "429 Client Error") |}, net);
     time_sleep := fun _ net => (Returns tt, net);
     times := Z.mul;
     times_raises := fun _ _ => None;
     format_raises := fun _ => None |}.

(** The same network with a clock in seconds as a [float] holds them: the
    product of line 25 raises beyond the largest float. *)
Definition busy_float : Network :=
  {| Net := unit;
     Time := Z;
     requests_get := @requests_get busy;
     time_sleep := fun _ net => (Returns tt, net);
     times := Z.mul;
     times_raises := fun t n =>
       if (t * n <? 2 ^ 1024)%Z then None
       else Some (Exception "int too large to convert to float");
     format_raises := fun _ => None |}.

Definition paused (ms : Z) : @call scripted := @Slept scripted ms.

Definition too_many : Http.Response :=
  {| Http.status_code := 429;
     Http.json := Raises (JSONDecodeError "Expecting value");
     Http.raise_for_status := Raises (Exception "429 Client Error") |}.

Definition found : Http.Response :=
  {| Http.status_code := 200;
     Http.json :=
       Returns (VDict [("quotes", VList [VDict [("symbol", VStr "AAPL")]])]);
     Http.raise_for_status := Returns tt |}.

Definition nothing : Http.Response :=
  {| Http.status_code := 200;
     Http.json := Returns (VDict [("count", VInt 0)]);
     Http.raise_for_status := Returns tt |}.

Definition forbidden : Http.Response :=
  {| Http.status_code := 403;
     Http.json := Raises (JSONDecodeError "Expecting value");
     Http.raise_for_status := Raises (Exception "403 Client Error") |}.

End NetStub.

(* ===================================================================== *)
(** * Facts about strings *)
(* ===================================================================== *)

Module PyStrFacts.
Import PyStr.

Lemma length_append (a b : string) :
  String.length (a ++ b) = String.length a + String.length b.
Proof. induction a as [|c a IH]; simpl; [reflexivity | now rewrite IH]. Qed.

Lemma append_assoc (a b c : string) : (a ++ b) ++ c = a ++ (b ++ c).
Proof. induction a as [|x a IH]; simpl; [reflexivity | now rewrite IH]. Qed.

Lemma append_empty_r (a : string) : a ++ "" = a.
Proof. induction a as [|x a IH]; simpl; [reflexivity | now rewrite IH]. Qed.

Lemma take_append (a b : string) : take (String.length a) (a ++ b) = a.
Proof. induction a as [|x a IH]; simpl; [now destruct b | now rewrite IH]. Qed.

Lemma drop_append (a b : string) : drop (String.length a) (a ++ b) = b.
Proof. induction a as [|x a IH]; simpl; [reflexivity | exact IH]. Qed.

Lemma drop_drop (n m : nat) (s : string) : drop n (drop m s) = drop (m + n) s.
Proof.
  revert s; induction m as [|m IH]; intros s; simpl; [reflexivity|].
  destruct s as [|c s]; [now destruct n | apply IH].
Qed.

Lemma clip_inside (s : string) (n : nat) :
  n <= String.length s -> clip s (Z.of_nat n) = n.
Proof.
  intros H. unfold clip, len.
  destruct (Z.ltb_spec (Z.of_nat n) 0); lia.
Qed.

Lemma startswith_append (sub rest : string) :
  startswith sub (sub ++ rest) = true.
Proof.
  induction sub as [|c sub IH]; simpl; [reflexivity|].
  now rewrite Ascii.eqb_refl, IH.
Qed.

Lemma startswith_split (sub s : string) :
  startswith sub s = true -> exists rest, s = sub ++ rest.
Proof.
  revert s; induction sub as [|c sub IH]; intros s H; simpl in *.
  - now exists s.
  - destruct s as [|d s]; [discriminate|].
    apply andb_true_iff in H as [Hc Hs]. apply Ascii.eqb_eq in Hc. subst d.
    destruct (IH _ Hs) as [rest ->]. now exists rest.
Qed.

Lemma find_from_shift (i : nat) (sub s : string) :
  find_from (S i) sub s = option_map S (find_from i sub s).
Proof.
  revert i; induction s as [|c s IH]; intros i; simpl.
  - now destruct (startswith sub "").
  - destruct (startswith sub (String c s)); [reflexivity | apply IH].
Qed.

Lemma find_from_add (i : nat) (sub s : string) :
  find_from i sub s = option_map (Nat.add i) (first_index sub s).
Proof.
  unfold first_index. induction i as [|i IH].
  - now destruct (find_from 0 sub s).
  - rewrite find_from_shift, IH. now destruct (find_from 0 sub s).
Qed.

(** The index found is an occurrence, and the first one. *)
Lemma first_index_occurs (sub s : string) (k : nat) :
  first_index sub s = Some k ->
  exists pre post, s = pre ++ sub ++ post /\ String.length pre = k.
Proof.
  unfold first_index.
  revert k; induction s as [|c s IH]; intros k H; simpl in H.
  - destruct (startswith sub "") eqn:E; [|discriminate].
    injection H as <-. destruct (startswith_split _ _ E) as [rest Hr].
    now exists "", rest.
  - destruct (startswith sub (String c s)) eqn:E.
    + injection H as <-. destruct (startswith_split _ _ E) as [rest Hr].
      now exists "", rest.
    + rewrite find_from_shift in H.
      destruct (find_from 0 sub s) as [j|] eqn:F; [|discriminate].
      injection H as <-. destruct (IH j eq_refl) as (pre & post & -> & Hl).
      exists (String c pre), post. simpl. now rewrite Hl.
Qed.

Lemma first_index_least (sub pre post : string) :
  exists k,
    first_index sub (pre ++ sub ++ post) = Some k /\ k <= String.length pre.
Proof.
  unfold first_index. induction pre as [|c pre IH]; simpl.
  - rewrite (find_from_add 0). unfold first_index.
    destruct (sub ++ post) as [|d r] eqn:E; simpl.
    + rewrite <- E, startswith_append. exists 0. split; [reflexivity | lia].
    + rewrite <- E, startswith_append. exists 0. split; [reflexivity | lia].
  - destruct (startswith sub (String c (pre ++ sub ++ post))).
    + exists 0. split; [reflexivity | lia].
    + destruct IH as (k & Hk & Hle). rewrite find_from_shift, Hk.
      exists (S k). split; [reflexivity | lia].
Qed.

Lemma contains_occurrence (sub pre post : string) :
  contains sub (pre ++ sub ++ post) = true.
Proof.
  unfold contains. destruct (first_index_least sub pre post) as (k & -> & _).
  reflexivity.
Qed.

Lemma first_index_drop (sub s : string) (n k : nat) :
  first_index sub s = Some k -> n <= k ->
  first_index sub (drop n s) = Some (k - n).
Proof.
  unfold first_index.
  revert s k; induction n as [|n IH]; intros s k H Hn; simpl.
  - now rewrite Nat.sub_0_r.
  - destruct s as [|c s]; simpl in H.
    + destruct (startswith sub ""); [injection H as <-; lia | discriminate].
    + destruct (startswith sub (String c s)); [injection H as <-; lia|].
      rewrite find_from_shift in H.
      destruct (find_from 0 sub s) as [j|] eqn:F; [|discriminate].
      injection H as <-. simpl. apply IH; [exact F | lia].
Qed.

Lemma find_contains (sub s : string) (k : nat) :
  first_index sub s = Some k ->
  contains sub s = true /\ find s sub = Z.of_nat k /\ k <= String.length s.
Proof.
  intros H. unfold contains, find. rewrite H. repeat split.
  destruct (first_index_occurs _ _ _ H) as (pre & post & -> & <-).
  rewrite length_append. lia.
Qed.

End PyStrFacts.

(* ===================================================================== *)
(** * The thinking-tag stripper: properties *)
(* ===================================================================== *)

Section Stripper.
Import PyStr PyStrFacts.

Lemma contains_nonempty (sub s : string) :
  PyStr.truthy sub = true -> contains sub s = true -> PyStr.truthy s = true.
Proof.
  destruct sub as [|a sub]; [discriminate|]. intros _.
  destruct s as [|c s]; [discriminate | reflexivity].
Qed.


(** With both markers in the text, the result is the text before the first
    opening marker followed by the text after the first closing marker,
    whichever of the two comes first. *)
Lemma strip_think_tags_cut (text : string) (o c : nat) :
  first_index think_open text = Some o ->
  first_index think_close text = Some c ->
  strip_think_tags text
  = take o text ++ drop (c + String.length think_close) text.
Proof.
  intros Ho Hc.
  destruct (find_contains _ _ _ Ho) as (Ho1 & Ho2 & Ho3).
  destruct (find_contains _ _ _ Hc) as (Hc1 & Hc2 & Hc3).
  unfold strip_think_tags.
  rewrite Ho1, Hc1, (contains_nonempty think_open text eq_refl Ho1). simpl.
  rewrite Ho2, Hc2. unfold slice_to, slice_from.
  rewrite (clip_inside text o Ho3).
  destruct (first_index_occurs _ _ _ Hc) as (pre & post & Ht & Hl).
  assert (Hlen : c + String.length think_close <= String.length text).
  { rewrite Ht, !length_append. lia. }
  replace (Z.of_nat c + len think_close)%Z
    with (Z.of_nat (c + String.length think_close))
    by (unfold len; lia).
  now rewrite (clip_inside text _ Hlen).
Qed.

(** The two markers cannot overlap: a closing marker that begins after the
    opening marker begins after its end. *)
Lemma close_after_open (text : string) (o c : nat) :
  first_index think_open text = Some o ->
  first_index think_close text = Some c ->
  o < c ->
  o + String.length think_open <= c
  /\ first_index think_close (drop (o + String.length think_open) text)
     = Some (c - (o + String.length think_open)).
Proof.
  intros Ho Hc Hlt.
  destruct (first_index_occurs _ _ _ Ho) as (pre & post & Ht & Hl).
  assert (Hd : first_index think_close (drop o text) = Some (c - o))
    by (apply first_index_drop; [exact Hc | lia]).
  rewrite Ht in Hd. rewrite <- Hl in Hd at 1. rewrite drop_append in Hd.
  assert (Hs : first_index think_close (think_open ++ post)
               = find_from 7 think_close post) by reflexivity.
  rewrite Hs, find_from_add in Hd.
  destruct (first_index think_close post) as [j|] eqn:Hj; [|discriminate].
  simpl in Hd. injection Hd as Hd.
  split; [simpl; lia|].
  rewrite <- drop_drop, Ht. rewrite <- Hl at 1. rewrite drop_append.
  change (drop (String.length think_open) (think_open ++ post)) with post.
  rewrite Hj. f_equal. simpl. lia.
Qed.

(** Where the first closing marker of the text comes after the first opening
    marker, the code removes the span the specification describes. *)
Lemma strip_think_tags_meets_spec (text : string) (o c : nat) :
  first_index think_open text = Some o ->
  first_index think_close text = Some c ->
  o < c ->
  strip_think_tags text = strip_think_tags_spec text.
Proof.
  intros Ho Hc Hlt.
  destruct (close_after_open _ _ _ Ho Hc Hlt) as (Hle & Hin).
  rewrite (strip_think_tags_cut _ _ _ Ho Hc).
  unfold strip_think_tags_spec. rewrite Ho. cbv zeta. rewrite Hin.
  rewrite drop_drop. do 2 f_equal. lia.
Qed.

(** A text with one span, whose markers are the first of their kind. *)
Lemma strip_think_tags_span (pre mid post : string) :
  let text := pre ++ think_open ++ mid ++ think_close ++ post in
  first_index think_open text = Some (String.length pre) ->
  first_index think_close text
  = Some (String.length pre + String.length think_open + String.length mid) ->
  strip_think_tags text = pre ++ post.
Proof.
  intros text Ho Hc. rewrite (strip_think_tags_cut _ _ _ Ho Hc).
  unfold text. rewrite take_append. f_equal.
  replace (pre ++ think_open ++ mid ++ think_close ++ post)
    with ((pre ++ think_open ++ mid ++ think_close) ++ post)
    by (now rewrite !append_assoc).
  replace (String.length pre + String.length think_open + String.length mid
           + String.length think_close)
    with (String.length (pre ++ think_open ++ mid ++ think_close))
    by (rewrite !length_append; lia).
  apply drop_append.
Qed.

(** The examples of the specification. *)
Example strip_think_tags_final_answer :
  strip_think_tags "<think>internal</think>final answer" = "final answer"
  /\ strip_think_tags "final answer" = "final answer"
  /\ strip_think_tags "<think>internal final answer"
     = "<think>internal final answer".
Proof. repeat split. Qed.

(** C5 (code defect): on a text that holds a closing marker before its
    first opening marker, the code does not remove the span from the first
    opening marker through the closing marker that follows it, as the
    specification's stripper does; it keeps the span and repeats the text
    between the two markers. *)
Theorem strip_think_tags_stray_close :
  let text := "a</think>b<think>c</think>d" in
  strip_think_tags text = "a</think>bb<think>c</think>d"
  /\ strip_think_tags_spec text = "a</think>bd"
  /\ strip_think_tags text <> strip_think_tags_spec text.
Proof. repeat split. discriminate. Qed.


End Stripper.

(* ===================================================================== *)
(** * The executor loop: one round *)
(* ===================================================================== *)

Section Round.

Context {C : Collaborators}.

Variables current_query tool_descriptions : string.

Lemma truthy_nonempty (s : string) : s <> "" -> PyStr.truthy s = true.
Proof. destruct s; [congruence | reflexivity]. Qed.

(** Lines 159-162 on a non-empty array whose first element is an object. *)
Lemma first_request_object (obj : list (string * value)) (more : list value) :
  first_request (VList (VDict obj :: more))
  = Returns (Some (match Py.lookup "tool" obj with
                   | Some v => v
                   | None => VNone
                   end,
                   match Py.lookup "params" obj with
                   | Some v => v
                   | None => VDict []
                   end)).
Proof.
  unfold first_request, Py.getitem, Py.position. simpl.
  destruct (Py.lookup "tool" obj); destruct (Py.lookup "params" obj);
    reflexivity.
Qed.

(** Only the first element of the array is read. *)
Lemma first_request_ignores_rest (x : value) (more : list value) :
  first_request (VList (x :: more)) = first_request (VList [x]).
Proof. reflexivity. Qed.

(** Line 159 on a value that is false. *)
Lemma first_request_falsy (v : value) :
  Py.truthy v = false -> first_request v = Returns None.
Proof. intros H. unfold first_request. now rewrite H. Qed.

(** Lines 159-161 on a true value that is not an array: [len], the
    subscript or [.get] raises. *)
Lemma first_request_not_array (v : value) :
  Py.truthy v = true -> (forall items, v <> VList items) ->
  exists msg, first_request v = Raises (Exception msg).
Proof.
  intros Ht Hn. unfold first_request. rewrite Ht.
  destruct v as [|b|z|f|s|items|items]; simpl in *; try (eexists; reflexivity).
  - destruct s as [|c s]; [discriminate|]. simpl. eexists; reflexivity.
  - exfalso. now apply (Hn items).
  - destruct items; [discriminate|]. simpl. eexists; reflexivity.
Qed.

(** Lines 159-162 on what the model may answer in place of an array of
    requests. *)
Example first_request_examples :
  first_request (VList []) = Returns None
  /\ first_request VNone = Returns None
  /\ first_request (VInt 1)
     = Raises (Exception "object of type 'int' has no len()")
  /\ first_request (VBool true)
     = Raises (Exception "object of type 'bool' has no len()")
  /\ first_request (VDict [("tool", VStr "get_stock_price")])
     = Raises (Exception "0")
  /\ first_request (VStr "get_stock_price")
     = Raises (Exception "'str' object has no attribute 'get'")
  /\ first_request (VList [VInt 1])
     = Raises (Exception "'int' object has no attribute 'get'")
  /\ first_request (VList [VDict []; VInt 1])
     = Returns (Some (VNone, VDict [])).
Proof. repeat split. Qed.

(** The planning round on a reply that parses to a request. *)
Lemma plan_round_request (tr : list ExecutedTool) (st : state)
  (r : tool_round) (w1 : World) :
  planner_requests current_query tool_descriptions tr st r w1 ->
  plan_round current_query tool_descriptions tr st
  = (ToolCallRequest (requested_tool r) (requested_params r), set_world st w1).
Proof.
  intros (Hc & Ht & Hj). unfold plan_round.
  unfold planning_messages in Hc. rewrite Hc.
  rewrite (truthy_nonempty _ Ht), Hj. simpl bind.
  rewrite first_request_object. reflexivity.
Qed.

(** Lines 166-194: the entry appended for an outcome of [call_tool]. *)
Lemma dispatch_records (name params : value) (st : state)
  (o : completion (list content_part)) (w2 : World) :
  call_tool name params (world st) = (o, w2) ->
  dispatch name params st
  = ({| tool_name := name; parameters := params;
        result := recorded_result o |}, set_world st w2).
Proof.
  intros H. unfold dispatch. rewrite H.
  destruct o as [[|[text|data mime|uri] rest]|e]; reflexivity.
Qed.

(** A round with a request: one entry more, and the next planning round. *)
Lemma execute_round (fuel : nat) (tr : list ExecutedTool) (st : state)
  (r : tool_round) (w1 w2 : World) :
  planner_requests current_query tool_descriptions tr st r w1 ->
  call_tool (requested_tool r) (requested_params r) w1 = (outcome r, w2) ->
  _execute_tools_sequentially (S fuel) current_query tool_descriptions tr st
  = _execute_tools_sequentially fuel current_query tool_descriptions
      (tr ++ [entry_of r])%list (set_world st w2).
Proof.
  intros Hp Hc. simpl. rewrite (plan_round_request _ _ _ _ Hp).
  rewrite (dispatch_records _ _ (set_world st w1) (outcome r) w2 Hc).
  reflexivity.
Qed.

(** A round without request ends the call, with the trace as it is. *)
Lemma execute_terminating (fuel : nat) (tr : list ExecutedTool) (st : state) :
  terminating_round current_query tool_descriptions tr st ->
  exists t,
    _execute_tools_sequentially (S fuel) current_query tool_descriptions tr st
    = Some t
    /\ trace t = tr.
Proof.
  unfold terminating_round. intros H. simpl.
  destruct (plan_round current_query tool_descriptions tr st)
    as [[name params| |e] st1]; simpl in H.
  - contradiction.
  - destruct (respond current_query tr st1) as [text st2].
    eexists; split; reflexivity.
  - destruct (respond_to_exception e current_query tr st1) as [text st2].
    eexists; split; reflexivity.
Qed.

(** The rounds of a run are those of the loop. *)
Lemma execute_rounds (rs : list tool_round) (tr tr' : list ExecutedTool)
  (st st' : state) :
  rounds current_query tool_descriptions rs tr st tr' st' ->
  tr' = (tr ++ map entry_of rs)%list
  /\ forall fuel,
       _execute_tools_sequentially (List.length rs + fuel)
         current_query tool_descriptions tr st
       = _execute_tools_sequentially fuel
           current_query tool_descriptions tr' st'.
Proof.
  induction 1 as [tr st | r rs tr st w1 w2 tr' st' Hp Hc Hr [IHt IHe]].
  - split; [now rewrite app_nil_r | reflexivity].
  - split.
    + rewrite IHt, <- app_assoc. reflexivity.
    + intros fuel. simpl List.length. simpl Nat.add.
      rewrite (execute_round _ _ _ _ _ _ Hp Hc). apply IHe.
Qed.

(** A run of [N] requests and a terminating round: the call returns, with
    the [N] entries of the requests as its trace. *)
Lemma execute_run (rs : list tool_round) (tr' : list ExecutedTool)
  (st st' : state) (fuel : nat) :
  rounds current_query tool_descriptions rs [] st tr' st' ->
  terminating_round current_query tool_descriptions tr' st' ->
  List.length rs < fuel ->
  exists t,
    _execute_tools_sequentially fuel current_query tool_descriptions [] st
    = Some t
    /\ trace t = map entry_of rs.
Proof.
  intros Hr Ht Hf. destruct (execute_rounds _ _ _ _ _ Hr) as [Htr He].
  simpl in Htr. subst tr'.
  replace fuel with (List.length rs + S (fuel - S (List.length rs))) by lia.
  rewrite He. apply execute_terminating. exact Ht.
Qed.

End Round.

(* ===================================================================== *)
(** * The executor loop: the execution trace *)
(* ===================================================================== *)

Section Trace.

Context {C : Collaborators}.

Variables current_query tool_descriptions : string.

Lemma nth_error_map_entry (rs : list tool_round) (k : nat) (r : tool_round) :
  nth_error rs k = Some r ->
  nth_error (map entry_of rs) k = Some (entry_of r).
Proof. intros H. now rewrite nth_error_map, H. Qed.

(** C2: when the planner produces [N] requests over [N] rounds, each reply
    parsing to a non-empty array, and the next round is a terminating one,
    the loop returns with a trace of exactly [N] entries, in the order of
    the rounds, each entry holding the tool name and the parameters of the
    first object of its round's array; the other elements of the array play
    no part. *)
Theorem trace_follows_requests (rs : list tool_round)
  (tr' : list ExecutedTool) (st st' : state) (fuel : nat) :
  rounds current_query tool_descriptions rs [] st tr' st' ->
  terminating_round current_query tool_descriptions tr' st' ->
  List.length rs < fuel ->
  exists t,
    _execute_tools_sequentially fuel current_query tool_descriptions [] st
    = Some t
    /\ List.length (trace t) = List.length rs
    /\ map tool_name (trace t) = map requested_tool rs
    /\ map parameters (trace t) = map requested_params rs
    /\ (forall k r name params,
          nth_error rs k = Some r ->
          Py.lookup "tool" (request r) = Some (VStr name) ->
          Py.lookup "params" (request r) = Some (VDict params) ->
          exists text,
            nth_error (trace t) k
            = Some {| tool_name := VStr name; parameters := VDict params;
                      result := text |})
    /\ (forall r, In r rs ->
          first_request (VList (VDict (request r) :: extra r))
          = first_request (VList [VDict (request r)])).
Proof.
  intros Hr Ht Hf.
  destruct (execute_run _ _ rs tr' st st' fuel Hr Ht Hf) as (t & He & Htr).
  exists t. rewrite Htr. split; [exact He|].
  split; [apply length_map|].
  split; [now rewrite map_map|].
  split; [now rewrite map_map|].
  split.
  - intros k r name params Hk Hn Hp. exists (recorded_result (outcome r)).
    rewrite (nth_error_map_entry _ _ _ Hk). unfold entry_of.
    unfold requested_tool, requested_params. now rewrite Hn, Hp.
  - intros r _. apply first_request_ignores_rest.
Qed.

(** C3: a round whose tool call raises leaves the entry
    ["Error: " + str(e)] at its place in the trace; the exception goes no
    further, the later rounds take place, and the turn returns with its [N]
    entries. *)
Theorem tool_errors_are_absorbed (rs : list tool_round)
  (tr' : list ExecutedTool) (st st' : state) (fuel : nat) :
  rounds current_query tool_descriptions rs [] st tr' st' ->
  terminating_round current_query tool_descriptions tr' st' ->
  List.length rs < fuel ->
  exists t,
    _execute_tools_sequentially fuel current_query tool_descriptions [] st
    = Some t
    /\ List.length (trace t) = List.length rs
    /\ forall k r e,
         nth_error rs k = Some r ->
         outcome r = Raises e ->
         nth_error (trace t) k
         = Some {| tool_name := requested_tool r;
                   parameters := requested_params r;
                   result := "Error: " ++ str_exn e |}.
Proof.
  intros Hr Ht Hf.
  destruct (execute_run _ _ rs tr' st st' fuel Hr Ht Hf) as (t & He & Htr).
  exists t. rewrite Htr. split; [exact He|]. split; [apply length_map|].
  intros k r e Hk Ho. rewrite (nth_error_map_entry _ _ _ Hk).
  unfold entry_of. now rewrite Ho.
Qed.

(** C8: in a turn that returns, every round whose [call_tool] returned
    left, at its place in the returned trace, an entry whose result is the
    text of the first part of the returned sequence, and ["No result"] when
    the sequence is empty. *)
Theorem tool_result_is_first_text (rs : list tool_round)
  (tr' : list ExecutedTool) (st st' : state) (fuel : nat) :
  rounds current_query tool_descriptions rs [] st tr' st' ->
  terminating_round current_query tool_descriptions tr' st' ->
  List.length rs < fuel ->
  exists t,
    _execute_tools_sequentially fuel current_query tool_descriptions [] st
    = Some t
    /\ List.length (trace t) = List.length rs
    /\ forall k r parts,
         nth_error rs k = Some r ->
         outcome r = Returns parts ->
         (parts = [] ->
          nth_error (trace t) k
          = Some {| tool_name := requested_tool r;
                    parameters := requested_params r;
                    result := "No result" |})
         /\ (forall text rest,
               parts = TextContent text :: rest ->
               nth_error (trace t) k
               = Some {| tool_name := requested_tool r;
                         parameters := requested_params r;
                         result := text |}).
Proof.
  intros Hr Ht Hf.
  destruct (execute_run _ _ rs tr' st st' fuel Hr Ht Hf) as (t & He & Htr).
  exists t. rewrite Htr. split; [exact He|]. split; [apply length_map|].
  intros k r parts Hk Ho. rewrite (nth_error_map_entry _ _ _ Hk).
  unfold entry_of. rewrite Ho. split.
  - intros ->. reflexivity.
  - intros text rest ->. reflexivity.
Qed.

(** ** The calls made to the registry *)

Lemma chat_keeps_calls (model : string) (messages : list message)
  (w w' : @World (recording C)) (r : completion string) :
  @ollama_chat (recording C) model messages w = (r, w') -> snd w' = snd w.
Proof.
  simpl. destruct (ollama_chat model messages (fst w)) as [x w1].
  intros H. injection H as _ <-. reflexivity.
Qed.

Lemma call_tool_adds_call (name params : value)
  (w w' : @World (recording C)) (r : completion (list content_part)) :
  @call_tool (recording C) name params w = (r, w') ->
  snd w' = (snd w ++ [(name, params)])%list.
Proof.
  simpl. destruct (call_tool name params (fst w)) as [x w1].
  intros H. injection H as _ <-. reflexivity.
Qed.

Lemma plan_round_keeps_calls (tr : list ExecutedTool)
  (st : @state (recording C)) :
  calls_made
    (snd (plan_round (C := recording C) current_query tool_descriptions tr st))
  = calls_made st.
Proof.
  unfold plan_round, calls_made.
  destruct (@ollama_chat (recording C) (ollama_model (self st))
              [{| role := "user";
                  content := planning_prompt tool_descriptions current_query
                               (tool_context tr) |}] (world st))
    as [[text|e] w] eqn:Hc; apply chat_keeps_calls in Hc.
  - destruct (PyStr.truthy (planning_text_of text)); [|exact Hc].
    destruct (bind (json_loads (planning_text_of text)) first_request)
      as [[[name params]|]|[msg|msg]]; exact Hc.
  - exact Hc.
Qed.

Lemma direct_response_keeps_calls (st : @state (recording C)) :
  calls_made
    (snd (_generate_direct_response (C := recording C) current_query st))
  = calls_made st.
Proof.
  unfold _generate_direct_response, calls_made.
  destruct (@ollama_chat (recording C) (ollama_model (self st))
              [{| role := "system";
                  content :=
                    "You are a helpful assistant. Respond naturally to the user's query." |};
               {| role := "user"; content := current_query |}] (world st))
    as [[text|e] w] eqn:Hc; apply chat_keeps_calls in Hc; exact Hc.
Qed.

Lemma synthesize_keeps_calls (tr : list ExecutedTool)
  (st : @state (recording C)) :
  calls_made (snd (synthesize (C := recording C) current_query tr st))
  = calls_made st.
Proof.
  unfold synthesize, _generate_comprehensive_response, calls_made.
  destruct (@ollama_chat (recording C) (ollama_model (self st))
              [{| role := "user";
                  content := comprehensive_prompt current_query tr |}]
              (world st))
    as [[text|e] w] eqn:Hc; apply chat_keeps_calls in Hc; exact Hc.
Qed.

(** A terminating round calls the model only. *)
Lemma terminating_keeps_calls (fuel : nat) (tr : list ExecutedTool)
  (st : @state (recording C)) (t : @turn (recording C)) :
  terminating_round (C := recording C) current_query tool_descriptions tr st ->
  _execute_tools_sequentially (C := recording C) (S fuel)
    current_query tool_descriptions tr st = Some t ->
  calls_made (final t) = calls_made st.
Proof.
  unfold terminating_round. simpl. intros Ht.
  pose proof (plan_round_keeps_calls tr st) as Hp.
  destruct (plan_round (C := recording C) current_query tool_descriptions
              tr st) as [[name params| |e] st1]; simpl in Ht, Hp.
  - contradiction.
  - unfold respond. destruct tr as [|x tr].
    + pose proof (direct_response_keeps_calls st1) as Hd.
      destruct (_generate_direct_response (C := recording C) current_query
                  st1) as [text st2].
      intros H. injection H as <-. simpl in *. congruence.
    + pose proof (synthesize_keeps_calls (x :: tr) st1) as Hd.
      destruct (synthesize (C := recording C) current_query (x :: tr) st1)
        as [text st2].
      intros H. injection H as <-. simpl in *. congruence.
  - unfold respond_to_exception. destruct tr as [|x tr].
    + intros H. injection H as <-. exact Hp.
    + pose proof (synthesize_keeps_calls (x :: tr) st1) as Hd.
      destruct (synthesize (C := recording C) current_query (x :: tr) st1)
        as [text st2].
      intros H. injection H as <-. simpl in *. congruence.
Qed.

(** Every round of a run calls the registry once, with its tool name and
    its parameters. *)
Lemma rounds_add_calls (rs : list tool_round) (tr tr' : list ExecutedTool)
  (st st' : @state (recording C)) :
  rounds (C := recording C) current_query tool_descriptions rs tr st tr' st' ->
  calls_made st' = (calls_made st ++ map call_of rs)%list.
Proof.
  induction 1 as [tr st | r rs tr st w1 w2 tr' st' Hp Hc Hr IH].
  - now rewrite app_nil_r.
  - destruct Hp as (Hchat & _ & _).
    apply chat_keeps_calls in Hchat. apply call_tool_adds_call in Hc.
    rewrite IH. unfold calls_made. simpl map. simpl world.
    rewrite Hc, Hchat, <- app_assoc. reflexivity.
Qed.

(** Observation changes nothing: the turn of the observed collaborators is
    the turn of the collaborators themselves, the record apart. *)
Lemma forget_plan_round (tr : list ExecutedTool) (st : @state (recording C)) :
  plan_round (C := C) current_query tool_descriptions tr (forget st)
  = (fst (plan_round (C := recording C) current_query tool_descriptions tr st),
     forget (snd (plan_round (C := recording C) current_query
                    tool_descriptions tr st))).
Proof.
  unfold plan_round, forget. simpl.
  destruct (ollama_chat (ollama_model (self st))
              [{| role := "user";
                  content := planning_prompt tool_descriptions current_query
                               (tool_context tr) |}] (fst (world st)))
    as [[text|e] w]; [|reflexivity].
  destruct (PyStr.truthy (planning_text_of text)); [|reflexivity].
  destruct (bind (json_loads (planning_text_of text)) first_request)
    as [[[name params]|]|[msg|msg]]; reflexivity.
Qed.

Lemma forget_dispatch (name params : value) (st : @state (recording C)) :
  dispatch (C := C) name params (forget st)
  = (fst (dispatch (C := recording C) name params st),
     forget (snd (dispatch (C := recording C) name params st))).
Proof.
  unfold dispatch, forget. simpl.
  destruct (call_tool name params (fst (world st))) as [called w].
  destruct (bind called tool_output_of); reflexivity.
Qed.

Lemma forget_direct_response (st : @state (recording C)) :
  _generate_direct_response (C := C) current_query (forget st)
  = (fst (_generate_direct_response (C := recording C) current_query st),
     forget (snd (_generate_direct_response (C := recording C)
                    current_query st))).
Proof.
  unfold _generate_direct_response, forget. simpl.
  destruct (ollama_chat (ollama_model (self st))
              [{| role := "system";
                  content :=
                    "You are a helpful assistant. Respond naturally to the user's query." |};
               {| role := "user"; content := current_query |}]
              (fst (world st)))
    as [[text|e] w]; reflexivity.
Qed.

Lemma forget_synthesize (tr : list ExecutedTool) (st : @state (recording C)) :
  synthesize (C := C) current_query tr (forget st)
  = (fst (synthesize (C := recording C) current_query tr st),
     forget (snd (synthesize (C := recording C) current_query tr st))).
Proof.
  unfold synthesize, _generate_comprehensive_response, forget. simpl.
  destruct (ollama_chat (ollama_model (self st))
              [{| role := "user";
                  content := comprehensive_prompt current_query tr |}]
              (fst (world st)))
    as [[text|e] w]; reflexivity.
Qed.

Lemma recording_is_an_observer (fuel : nat) (tr : list ExecutedTool)
  (st : @state (recording C)) :
  _execute_tools_sequentially (C := C) fuel current_query tool_descriptions
    tr (forget st)
  = option_map forget_turn
      (_execute_tools_sequentially (C := recording C) fuel
         current_query tool_descriptions tr st).
Proof.
  revert tr st. induction fuel as [|fuel IH]; intros tr st; [reflexivity|].
  simpl. rewrite forget_plan_round.
  destruct (plan_round (C := recording C) current_query tool_descriptions
              tr st) as [[name params| |e] st1]; simpl.
  - rewrite forget_dispatch.
    destruct (dispatch (C := recording C) name params st1) as [entry st2].
    simpl. apply IH.
  - unfold respond. destruct tr as [|x tr].
    + rewrite forget_direct_response.
      now destruct (_generate_direct_response (C := recording C)
                      current_query st1).
    + rewrite forget_synthesize.
      now destruct (synthesize (C := recording C) current_query (x :: tr) st1).
  - unfold respond_to_exception. destruct tr as [|x tr]; [reflexivity|].
    rewrite forget_synthesize.
    now destruct (synthesize (C := recording C) current_query (x :: tr) st1).
Qed.

(** C10: a first object without ["params"] is dispatched with an empty
    mapping; a first object without ["tool"] is dispatched with [None] for
    tool name, and when that call raises, its message is recorded as an
    ["Error: "] entry and the loop goes on to the next planning round.
    The collaborators are observed through [recording]: in a turn that
    returns, the registry was called once per round, in the order of the
    rounds, and the call of a round without ["params"] has [{}] for
    parameters, the call of a round without ["tool"] has [None] for name;
    the returned trace has the entry of every round at its place. *)
Theorem missing_keys_are_defaulted (rs : list tool_round)
  (tr' : list ExecutedTool) (st st' : @state (recording C)) (fuel : nat) :
  rounds (C := recording C) current_query tool_descriptions rs [] st tr' st' ->
  terminating_round (C := recording C) current_query tool_descriptions
    tr' st' ->
  List.length rs < fuel ->
  exists t,
    _execute_tools_sequentially (C := recording C) fuel
      current_query tool_descriptions [] st = Some t
    /\ List.length (trace t) = List.length rs
    /\ calls_made (final t) = (calls_made st ++ map call_of rs)%list
    /\ forall k r,
         nth_error rs k = Some r ->
         (Py.lookup "params" (request r) = None ->
          nth_error (calls_made (final t)) (List.length (calls_made st) + k)
          = Some (requested_tool r, VDict [])
          /\ nth_error (trace t) k
             = Some {| tool_name := requested_tool r;
                       parameters := VDict [];
                       result := recorded_result (outcome r) |})
         /\ (Py.lookup "tool" (request r) = None ->
             nth_error (calls_made (final t))
               (List.length (calls_made st) + k)
             = Some (VNone, requested_params r)
             /\ forall e,
                  outcome r = Raises e ->
                  nth_error (trace t) k
                  = Some {| tool_name := VNone;
                            parameters := requested_params r;
                            result := "Error: " ++ str_exn e |}).
Proof.
  intros Hr Ht Hf.
  destruct (execute_rounds (C := recording C) _ _ _ _ _ _ _ Hr) as [Htr He].
  pose proof (rounds_add_calls _ _ _ _ _ Hr) as Hcalls.
  simpl in Htr. subst tr'.
  destruct (execute_terminating (C := recording C) _ _
              (fuel - S (List.length rs)) _ _ Ht) as (t & Hex & Htt).
  pose proof (terminating_keeps_calls _ _ _ _ Ht Hex) as Hfin.
  exists t. split.
  { replace fuel with (List.length rs + S (fuel - S (List.length rs))) by lia.
    rewrite He. exact Hex. }
  rewrite Htt, Hfin, Hcalls. split; [apply length_map|].
  split; [reflexivity|].
  intros k r Hk.
  assert (Hcall : nth_error (calls_made st ++ map call_of rs)%list
                    (List.length (calls_made st) + k)
                  = Some (call_of r)).
  { rewrite nth_error_app2 by lia.
    replace (List.length (calls_made st) + k - List.length (calls_made st))
      with k by lia.
    now rewrite nth_error_map, Hk. }
  rewrite Hcall, (nth_error_map_entry _ _ _ Hk).
  unfold call_of, entry_of. split.
  - intros Hm. unfold requested_params. rewrite Hm. split; reflexivity.
  - intros Hm. unfold requested_tool. rewrite Hm. split; [reflexivity|].
    intros e Ho. now rewrite Ho.
Qed.

End Trace.

(** ** The trace on the scenario of the specification *)

(** Discharges the premises of [rounds_call] on closed collaborators. *)
Ltac answer_round :=
  eapply rounds_call;
  [ split;
    [ reflexivity
    | split; [ let H := fresh in intro H; vm_compute in H; discriminate H
             | vm_compute; reflexivity ] ]
  | reflexivity
  | ].

(** The collaborators of the scenario answer its two rounds. *)
Lemma apple_rounds_run :
  rounds (C := Stub.scripted) Stub.apple_query Stub.catalog Stub.apple_rounds
    [] (Stub.start Stub.scripted Stub.apple_world)
    (map entry_of Stub.apple_rounds)
    (Stub.start Stub.scripted
       {| Stub.chat_script := [Returns "[]"; Returns "Apple trades at 190.5"];
          Stub.tool_script := [] |}).
Proof.
  unfold Stub.apple_rounds. answer_round. answer_round. apply rounds_done.
Defined.

(** The same with the failing registry. *)
Lemma failing_rounds_run :
  rounds (C := Stub.scripted) Stub.apple_query Stub.catalog Stub.failing_rounds
    [] (Stub.start Stub.scripted Stub.failing_world)
    (map entry_of Stub.failing_rounds)
    (Stub.start Stub.scripted
       {| Stub.chat_script :=
            [Returns "[]"; Returns "I could not get the price"];
          Stub.tool_script := [] |}).
Proof.
  unfold Stub.failing_rounds. answer_round. answer_round. apply rounds_done.
Defined.

(** The two requests of the scenario, in their order. *)
Lemma trace_follows_requests_witness :
  exists t,
    _execute_tools_sequentially (C := Stub.scripted) 3
      Stub.apple_query Stub.catalog []
      (Stub.start Stub.scripted Stub.apple_world) = Some t
    /\ List.length (trace t) = 2
    /\ map tool_name (trace t)
       = [VStr "get_ticker_from_name"; VStr "get_stock_price"]
    /\ map parameters (trace t)
       = [VDict [("name", VStr "Apple Inc")]; VDict [("ticker", VStr "AAPL")]].
Proof.
  destruct (trace_follows_requests (C := Stub.scripted)
              Stub.apple_query Stub.catalog Stub.apple_rounds _ _ _ 3
              apple_rounds_run)
    as (t & He & Hl & Hn & Hp & _).
  - vm_compute. exact I.
  - simpl. lia.
  - exists t. repeat split; assumption.
Defined.

(** The registry fails on the second call of the scenario. *)
Lemma tool_errors_are_absorbed_witness :
  exists t,
    _execute_tools_sequentially (C := Stub.scripted) 3
      Stub.apple_query Stub.catalog []
      (Stub.start Stub.scripted Stub.failing_world) = Some t
    /\ List.length (trace t) = 2
    /\ nth_error (trace t) 1
       = Some {| tool_name := VStr "get_stock_price";
                 parameters := VDict [("ticker", VStr "AAPL")];
                 result := "Error: upstream timeout" |}.
Proof.
  destruct (tool_errors_are_absorbed (C := Stub.scripted)
              Stub.apple_query Stub.catalog Stub.failing_rounds _ _ _ 3
              failing_rounds_run)
    as (t & He & Hl & Hk).
  - vm_compute. exact I.
  - simpl. lia.
  - exists t. split; [exact He|]. split; [exact Hl|].
    exact (Hk 1 _ _ eq_refl eq_refl).
Defined.

(** A registry that returns an empty sequence. *)
Lemma empty_result_run :
  rounds (C := Stub.scripted) Stub.apple_query Stub.catalog
    [Stub.price_round (Returns [])]
    [] (Stub.start Stub.scripted Stub.empty_result_world)
    (map entry_of [Stub.price_round (Returns [])])
    (Stub.start Stub.scripted
       {| Stub.chat_script := [Returns "[]"; Returns "No data"];
          Stub.tool_script := [] |}).
Proof. answer_round. apply rounds_done. Defined.

(** The two rounds of the scenario record the texts [AAPL] and [190.5]. *)
Lemma tool_result_is_first_text_witness :
  exists t,
    _execute_tools_sequentially (C := Stub.scripted) 3
      Stub.apple_query Stub.catalog []
      (Stub.start Stub.scripted Stub.apple_world) = Some t
    /\ List.length (trace t) = 2
    /\ nth_error (trace t) 0
       = Some {| tool_name := VStr "get_ticker_from_name";
                 parameters := VDict [("name", VStr "Apple Inc")];
                 result := "AAPL" |}
    /\ nth_error (trace t) 1
       = Some {| tool_name := VStr "get_stock_price";
                 parameters := VDict [("ticker", VStr "AAPL")];
                 result := "190.5" |}.
Proof.
  destruct (tool_result_is_first_text (C := Stub.scripted)
              Stub.apple_query Stub.catalog Stub.apple_rounds _ _ _ 3
              apple_rounds_run)
    as (t & He & Hl & Hk).
  - vm_compute. exact I.
  - simpl. lia.
  - exists t. split; [exact He|]. split; [exact Hl|]. split.
    + exact (proj2 (Hk 0 _ _ eq_refl eq_refl) "AAPL" [] eq_refl).
    + exact (proj2 (Hk 1 _ _ eq_refl eq_refl) "190.5" [] eq_refl).
Defined.

(** An empty sequence is recorded as [No result]. *)
Example empty_result_is_no_result :
  exists t,
    _execute_tools_sequentially (C := Stub.scripted) 2
      Stub.apple_query Stub.catalog []
      (Stub.start Stub.scripted Stub.empty_result_world) = Some t
    /\ trace t
       = [ {| tool_name := VStr "get_stock_price";
              parameters := VDict [("ticker", VStr "AAPL")];
              result := "No result" |} ]
    /\ response t = "No data".
Proof. eexists. split; [vm_compute; reflexivity | split; reflexivity]. Qed.

(** A reply [[{}, {}]] under observation. *)
Lemma bare_round_run :
  rounds (C := recording Stub.scripted) "hello" Stub.catalog [Stub.bare_round]
    [] (Stub.start (recording Stub.scripted) (Stub.bare_world, []))
    (map entry_of [Stub.bare_round])
    (Stub.start (recording Stub.scripted)
       ({| Stub.chat_script := [Returns "[]"; Returns "Sorry"];
           Stub.tool_script := [] |},
        [(VNone, VDict [])])).
Proof. answer_round. apply rounds_done. Defined.

(** A reply [[{}, {}]]: the call is made with [None] and [{}], and its
    failure is recorded. *)
Lemma missing_keys_are_defaulted_witness :
  exists t,
    _execute_tools_sequentially (C := recording Stub.scripted) 2
      "hello" Stub.catalog []
      (Stub.start (recording Stub.scripted) (Stub.bare_world, [])) = Some t
    /\ calls_made (final t) = [(VNone, VDict [])]
    /\ nth_error (trace t) 0
       = Some {| tool_name := VNone; parameters := VDict [];
                 result := "Error: tool name must be a string" |}.
Proof.
  destruct (missing_keys_are_defaulted (C := Stub.scripted)
              "hello" Stub.catalog [Stub.bare_round] _ _ _ 2
              bare_round_run)
    as (t & He & Hl & Hc & Hk).
  - vm_compute. exact I.
  - simpl. lia.
  - exists t. split; [exact He|]. split; [exact Hc|].
    exact (proj2 (proj2 (Hk 0 _ eq_refl) eq_refl)
             (Exception "tool name must be a string") eq_refl).
Defined.

(* ===================================================================== *)
(** * The executor loop: termination *)
(* ===================================================================== *)

Section Termination.

Context {C : Collaborators}.

Lemma always_plans_request :
  always_requests_tool ->
  forall q d tr st,
  exists name params w1,
    plan_round q d tr st = (ToolCallRequest name params, set_world st w1).
Proof.
  intros H q d tr st.
  destruct (H (ollama_model (self st)) (planning_messages q d tr) (world st))
    as (text & w1 & obj & more & Hc & Ht & Hj).
  pose (r := {| reply := text; request := obj; extra := more;
                outcome := Returns [] |}).
  exists (requested_tool r), (requested_params r), w1.
  apply plan_round_request. repeat split; assumption.
Qed.

(** With a planner that always requests a tool, no depth of nested calls is
    enough for the turn: the method calls itself until the interpreter
    refuses the call. *)
Lemma needs_more_depth :
  always_requests_tool ->
  forall fuel q d tr st, _execute_tools_sequentially fuel q d tr st = None.
Proof.
  intros H fuel. induction fuel as [|fuel IH]; intros q d tr st.
  - reflexivity.
  - simpl. destruct (always_plans_request H q d tr st) as (n & p & w1 & ->).
    destruct (dispatch n p (set_world st w1)) as [entry st2]. apply IH.
Qed.

Variable python : interpreter.
Variables current_query tool_descriptions : string.

(** ** Runs that fit *)

Lemma call_within_fits {A : Type} (room frames : nat)
  (call : World -> completion A * World) (w : World) :
  frames <= room -> call_within python room frames call w = call w.
Proof.
  intros H. unfold call_within.
  destruct (Nat.leb_spec frames room); [reflexivity | lia].
Qed.

Lemma plan_round_within_fits (room : nat) (tr : list ExecutedTool)
  (st : state) :
  planning_frames python <= room ->
  plan_round_within python room current_query tool_descriptions tr st
  = plan_round current_query tool_descriptions tr st.
Proof.
  unfold planning_frames. intros H. unfold plan_round_within, plan_round.
  rewrite call_within_fits by lia.
  destruct (Nat.leb_spec (print_frames python) room); [|lia].
  destruct (Nat.leb_spec (loads_frames python) room); [|lia].
  reflexivity.
Qed.

Lemma direct_response_within_fits (room : nat) (st : state) :
  chat_frames python <= room -> print_frames python <= room ->
  _generate_direct_response_within python room current_query st
  = (Returns (fst (_generate_direct_response current_query st)),
     snd (_generate_direct_response current_query st)).
Proof.
  intros Hc Hp. unfold _generate_direct_response_within,
    _generate_direct_response.
  rewrite call_within_fits by lia.
  destruct (ollama_chat _ _ _) as [[text|e] w]; [reflexivity|].
  destruct (Nat.leb_spec (print_frames python) room); [reflexivity | lia].
Qed.

Lemma comprehensive_response_within_fits (room : nat)
  (tr : list ExecutedTool) (st : state) :
  chat_frames python <= room -> comprehension_frames python <= room ->
  _generate_comprehensive_response_within python room current_query tr st
  = (Returns (fst (_generate_comprehensive_response current_query tr st)),
     snd (_generate_comprehensive_response current_query tr st)).
Proof.
  intros Hc Hp. unfold _generate_comprehensive_response_within,
    _generate_comprehensive_response.
  rewrite call_within_fits by lia.
  destruct (ollama_chat _ _ _) as [[text|e] w]; [reflexivity|].
  destruct (Nat.leb_spec (comprehension_frames python) room);
    [reflexivity | lia].
Qed.

Lemma dispatch_within_fits (room : nat) (name params : value) (st : state) :
  tool_frames python <= room ->
  dispatch name params st
  = match call_and_read_within python room name params st with
    | (Returns tool_output, st2) =>
        ({| tool_name := name; parameters := params;
            result := tool_output |}, st2)
    | (Raises e, st2) =>
        ({| tool_name := name; parameters := params;
            result := "Error: " ++ str_exn e |}, st2)
    end.
Proof.
  intros H. unfold dispatch, call_and_read_within.
  rewrite call_within_fits by lia.
  destruct (call_tool name params (world st)) as [called w].
  destruct (bind called tool_output_of); reflexivity.
Qed.

Lemma execute_within_step (room : nat) (tr : list ExecutedTool) (st : state) :
  _execute_tools_sequentially_within python (S room)
    current_query tool_descriptions tr st
  = match plan_round_within python room current_query tool_descriptions
            tr st with
    | (ToolCallRequest tool_name parameters, st1) =>
        let '(output, st2) :=
          call_and_read_within python room tool_name parameters st1 in
        let record_error (e : exn) (executed_tools : list ExecutedTool)
              (st : state) :=
          after_nested_call python room current_query
            (_execute_tools_sequentially_within python room current_query
               tool_descriptions
               (executed_tools
                  ++ [ {| tool_name := tool_name; parameters := parameters;
                          result := "Error: " ++ str_exn e |} ])%list st) in
        match output with
        | Returns tool_output =>
            match _execute_tools_sequentially_within python room
                    current_query tool_descriptions
                    (tr ++ [ {| tool_name := tool_name;
                                parameters := parameters;
                                result := tool_output |} ])%list st2 with
            | (Returned final_response, executed_tools, st3) =>
                (Returned final_response, executed_tools, st3)
            | (Raised e, executed_tools, st3) =>
                record_error e executed_tools st3
            end
        | Raises e => record_error e tr st2
        end
    | (NoToolNeeded, st1) =>
        respond_within python room current_query tr st1
    | (PlanningError e, st1) =>
        handle_exception python room e current_query tr st1
    end.
Proof. reflexivity. Qed.

(** Within the frames it needs, a turn is the turn of
    [_execute_tools_sequentially]: the same string, the same trace, the same
    state. *)
Lemma execute_within_agrees (fuel : nat) :
  forall (frames : nat) (tr : list ExecutedTool) (st : state) (t : turn),
  _execute_tools_sequentially fuel current_query tool_descriptions tr st
  = Some t ->
  frames_needed python fuel <= frames ->
  _execute_tools_sequentially_within python frames
    current_query tool_descriptions tr st
  = (Returned (response t), trace t, final t).
Proof.
  unfold frames_needed, planning_frames.
  induction fuel as [|fuel IH]; intros frames tr st t H Hf; [discriminate H|].
  destruct frames as [|room]; [lia|].
  rewrite execute_within_step, plan_round_within_fits
    by (unfold planning_frames; lia).
  simpl in H.
  destruct (plan_round current_query tool_descriptions tr st)
    as [[name params| |e] st1].
  - rewrite (dispatch_within_fits room) in H by lia.
    destruct (call_and_read_within python room name params st1)
      as [[out|e] st2].
    + now rewrite (IH room _ _ _ H) by lia.
    + cbv beta zeta. now rewrite (IH room _ _ _ H) by lia.
  - unfold respond in H. unfold respond_within.
    destruct room as [|room']; [lia|].
    destruct tr as [|x tr]; simpl call_method.
    + rewrite direct_response_within_fits by lia.
      destruct (_generate_direct_response current_query st1) as [text st2].
      injection H as <-. reflexivity.
    + rewrite comprehensive_response_within_fits by lia.
      unfold synthesize in H.
      destruct (_generate_comprehensive_response current_query (x :: tr) st1)
        as [text st2].
      injection H as <-. reflexivity.
  - unfold respond_to_exception in H. unfold handle_exception.
    destruct room as [|room']; [lia|].
    destruct tr as [|x tr]; simpl call_method.
    + destruct (Nat.leb_spec (print_frames python) (S room')); [|lia].
      injection H as <-. reflexivity.
    + rewrite comprehensive_response_within_fits by lia.
      unfold synthesize in H.
      destruct (_generate_comprehensive_response current_query (x :: tr) st1)
        as [text st2].
      injection H as <-. reflexivity.
Qed.


(** A run of [N] requests and a terminating round is the same turn under
    the recursion limit, with the frames for [N + 1] nested calls. *)
Lemma run_within_limit (rs : list tool_round) (tr' : list ExecutedTool)
  (st st' : state) (frames : nat) :
  rounds current_query tool_descriptions rs [] st tr' st' ->
  terminating_round current_query tool_descriptions tr' st' ->
  frames_needed python (S (List.length rs)) <= frames ->
  exists t,
    _execute_tools_sequentially (S (List.length rs))
      current_query tool_descriptions [] st = Some t
    /\ _execute_tools_sequentially_within python frames
         current_query tool_descriptions [] st
       = (Returned (response t), map entry_of rs, final t).
Proof.
  intros Hr Ht Hf.
  destruct (execute_run _ _ rs tr' st st' (S (List.length rs)) Hr Ht)
    as (t & He & Htr); [lia|].
  exists t. split; [exact He|].
  rewrite <- Htr. apply (execute_within_agrees _ _ _ _ _ He Hf).
Qed.

(** ** A planner that always requests a tool *)









(** ** A call that has the frames to answer *)






End Termination.




(** The same turn, computed: three rounds, then [json.loads] is refused in
    the planning of the fourth, and the model is asked for the synthesis
    from the three entries. *)
Example relentless_turn_with_ten_frames :
  _execute_tools_sequentially_within (C := Stub.relentless) Stub.cpython 10
    Stub.apple_query Stub.catalog [] (Stub.start Stub.relentless tt)
  = (Returned Stub.price_text,
     [ {| tool_name := VStr "get_stock_price";
          parameters := VDict [("ticker", VStr "AAPL")];
          result := "190.5" |};
       {| tool_name := VStr "get_stock_price";
          parameters := VDict [("ticker", VStr "AAPL")];
          result := "190.5" |};
       {| tool_name := VStr "get_stock_price";
          parameters := VDict [("ticker", VStr "AAPL")];
          result := "190.5" |} ],
     history_append (assistant Stub.price_text)
       (Stub.start Stub.relentless tt)).
Proof. vm_compute. reflexivity. Qed.

(* ===================================================================== *)
(** * The executor loop: replies that are no plan *)
(* ===================================================================== *)

Section PlanFailure.

Context {C : Collaborators}.

Variables current_query tool_descriptions : string.

(** Lines 159-162 raise no [JSONDecodeError]. *)
Lemma first_request_raises (v : value) (e : exn) :
  first_request v = Raises e -> exists msg, e = Exception msg.
Proof.
  unfold first_request. destruct (Py.truthy v); [|discriminate].
  destruct v as [|b|z|f|s|items|items]; simpl;
    try (intros [= <-]; eexists; reflexivity).
  - destruct s as [|c s]; simpl; [discriminate|].
    intros [= <-]; eexists; reflexivity.
  - destruct items as [|x items]; simpl; [discriminate|].
    unfold Py.getitem, Py.position. simpl.
    destruct x as [|b|z|f|s|xs|xs]; simpl;
      try (intros [= <-]; eexists; reflexivity).
    destruct (Py.lookup "tool" xs); destruct (Py.lookup "params" xs);
      discriminate.
  - destruct items as [|x items]; simpl; [discriminate|].
    intros [= <-]; eexists; reflexivity.
Qed.

(** The planning round on a quiet failure. *)
Lemma plan_round_quiet (tr : list ExecutedTool) (st : state)
  (text : string) (w1 : World) :
  ollama_chat (ollama_model (self st))
    (planning_messages current_query tool_descriptions tr) (world st)
  = (Returns text, w1) ->
  quiet_failure (planning_text_of text) ->
  plan_round current_query tool_descriptions tr st
  = (NoToolNeeded, set_world st w1).
Proof.
  intros Hc Hq. unfold plan_round. unfold planning_messages in Hc. rewrite Hc.
  destruct (PyStr.truthy (planning_text_of text)) eqn:Ht; [|reflexivity].
  destruct Hq as [He | [(msg & Hj) | (v & Hj & Hv)]].
  - rewrite He in Ht. discriminate.
  - now rewrite Hj.
  - rewrite Hj. simpl bind. now rewrite (first_request_falsy v Hv).
Qed.

(** The planning round on a loud failure. *)
Lemma plan_round_loud (tr : list ExecutedTool) (st : state)
  (text msg : string) (w1 : World) :
  ollama_chat (ollama_model (self st))
    (planning_messages current_query tool_descriptions tr) (world st)
  = (Returns text, w1) ->
  loud_failure (planning_text_of text) msg ->
  plan_round current_query tool_descriptions tr st
  = (PlanningError (Exception msg), set_world st w1).
Proof.
  intros Hc [Hne Hl]. unfold plan_round. unfold planning_messages in Hc.
  rewrite Hc, (truthy_nonempty _ Hne).
  destruct Hl as [Hj | (v & Hj & Hv)].
  - now rewrite Hj.
  - rewrite Hj. simpl bind. now rewrite Hv.
Qed.

(** Every reply that is no plan is a quiet or a loud failure. *)
Lemma unusable_plan_cases (text : string) :
  unusable_plan text ->
  quiet_failure text \/ exists msg, loud_failure text msg.
Proof.
  intros H. destruct (PyStr.truthy text) eqn:Hty.
  2: { left; left. destruct text; [reflexivity | discriminate]. }
  assert (Hne : text <> "") by (intros ->; discriminate).
  destruct H as [He | [(e & Hj) | (v & Hj & Hv)]].
  - contradiction.
  - destruct e as [msg|msg].
    + left. right. left. now exists msg.
    + right. exists msg. split; [exact Hne | now left].
  - destruct (Py.truthy v) eqn:Ht.
    + right. destruct Hv as [Hn | (e & He)].
      * destruct (first_request_not_array v Ht Hn) as (msg & Hm).
        exists msg. split; [exact Hne|]. right. now exists v.
      * destruct (first_request_raises v e He) as (msg & ->).
        exists msg. split; [exact Hne|]. right. now exists v.
    + left. right. right. now exists v.
Qed.

(** C4 (amended): a planning round whose reply is no plan ends the turn in
    that round, without a second planning call and without raising. With a
    non-empty trace the answer is the synthesis from the trace. With an
    empty trace it is the direct response when the text is empty, is not
    valid JSON or parses to a false value, and the string
    ["Error in query processing: " + str(e)] when parsing raises another
    exception, as a true value that is not an array makes it do. *)
Theorem unusable_plan_ends_turn (fuel : nat) (tr : list ExecutedTool)
  (st : state) (text : string) (w1 : World) :
  ollama_chat (ollama_model (self st))
    (planning_messages current_query tool_descriptions tr) (world st)
  = (Returns text, w1) ->
  unusable_plan (planning_text_of text) ->
  exists t,
    _execute_tools_sequentially (S fuel) current_query tool_descriptions tr st
    = Some t
    /\ trace t = tr
    /\ (quiet_failure (planning_text_of text)
        \/ exists msg, loud_failure (planning_text_of text) msg)
    /\ (tr <> [] ->
        (response t, final t)
        = synthesize current_query tr (set_world st w1))
    /\ (tr = [] ->
        quiet_failure (planning_text_of text) ->
        (response t, final t)
        = _generate_direct_response current_query (set_world st w1))
    /\ (tr = [] ->
        forall msg,
          loud_failure (planning_text_of text) msg ->
          response t = "Error in query processing: " ++ msg
          /\ final t = set_world st w1)
    /\ (forall v,
          planning_text_of text <> "" ->
          json_loads (planning_text_of text) = Returns v ->
          Py.truthy v = true ->
          (forall items, v <> VList items) ->
          exists msg, loud_failure (planning_text_of text) msg).
Proof.
  intros Hc Hu. pose proof (unusable_plan_cases _ Hu) as Hcases.
  assert (Hlast : forall v,
             planning_text_of text <> "" ->
             json_loads (planning_text_of text) = Returns v ->
             Py.truthy v = true ->
             (forall items, v <> VList items) ->
             exists msg, loud_failure (planning_text_of text) msg).
  { intros v Hne Hj Ht Hn.
    destruct (first_request_not_array v Ht Hn) as (msg & Hm).
    exists msg. split; [exact Hne|]. right. now exists v. }
  destruct Hcases as [Hq | (msg & Hl)].
  - simpl. rewrite (plan_round_quiet tr st text w1 Hc Hq).
    destruct (respond current_query tr (set_world st w1)) as [r st2] eqn:Hr.
    eexists. split; [reflexivity|]. simpl.
    split; [reflexivity|]. split; [now left|].
    split; [|split; [|split]].
    + intros Hne. destruct tr; [congruence|]. exact (eq_sym Hr).
    + intros -> _. exact (eq_sym Hr).
    + intros -> m (Hne & Hm). exfalso.
      destruct Hq as [He | [(m' & Hj) | (v & Hj & Hv)]].
      * contradiction.
      * destruct Hm as [Hm | (v & Hm & _)]; rewrite Hj in Hm; discriminate.
      * destruct Hm as [Hm | (v' & Hm & Hf)]; rewrite Hj in Hm;
          [discriminate|].
        injection Hm as <-. rewrite (first_request_falsy v Hv) in Hf.
        discriminate.
    + exact Hlast.
  - simpl. rewrite (plan_round_loud tr st text msg w1 Hc Hl).
    destruct (respond_to_exception (Exception msg) current_query tr
                (set_world st w1)) as [r st2] eqn:Hr.
    eexists. split; [reflexivity|]. simpl.
    split; [reflexivity|]. split; [right; now exists msg|].
    split; [|split; [|split]].
    + intros Hne. destruct tr; [congruence|]. exact (eq_sym Hr).
    + intros -> Hq. exfalso. destruct Hl as (Hne & Hm).
      destruct Hq as [He | [(m' & Hj) | (v & Hj & Hv)]].
      * contradiction.
      * destruct Hm as [Hm | (v & Hm & _)]; rewrite Hj in Hm; discriminate.
      * destruct Hm as [Hm | (v' & Hm & Hf)]; rewrite Hj in Hm;
          [discriminate|].
        injection Hm as <-. rewrite (first_request_falsy v Hv) in Hf.
        discriminate.
    + intros -> m (_ & Hm). simpl in Hr. injection Hr as <- <-.
      destruct Hl as (_ & Hl).
      assert (m = msg) as ->; [|split; reflexivity].
      destruct Hl as [Hj | (v & Hj & Hv)];
        destruct Hm as [Hj' | (v' & Hj' & Hv')]; rewrite Hj in Hj';
        try discriminate.
      * now injection Hj'.
      * injection Hj' as <-. rewrite Hv in Hv'. now injection Hv'.
    + exact Hlast.
Qed.

End PlanFailure.

(** C4 (as stated, refuted): the model answers the first planning round
    with [1], which is valid JSON and not an array. The trace is empty, and
    the turn's answer is the error string of line 234, not the direct
    response, for which the model is never asked. *)
Lemma non_array_reply_gets_error_string :
  let st := Stub.start Stub.scripted Stub.number_world in
  let st1 :=
    Stub.start Stub.scripted
      {| Stub.chat_script := [Returns "hello"]; Stub.tool_script := [] |} in
  json_loads (Collaborators := Stub.scripted) (planning_text_of "1")
  = Returns (VInt 1)
  /\ fst (_generate_direct_response (C := Stub.scripted) "hi" st1) = "hello"
  /\ exists t,
       _execute_tools_sequentially (C := Stub.scripted) 1 "hi" Stub.catalog
         [] st = Some t
       /\ trace t = []
       /\ response t
          = "Error in query processing: object of type 'int' has no len()"
       /\ final t = st1
       /\ (response t, final t)
          <> _generate_direct_response (C := Stub.scripted) "hi" st1.
Proof.
  split; [reflexivity|]. split; [reflexivity|].
  eexists. split; [vm_compute; reflexivity|].
  split; [reflexivity|]. split; [reflexivity|]. split; [reflexivity|].
  vm_compute. discriminate.
Qed.

(** The reply [1] with an empty trace. *)
Lemma unusable_plan_ends_turn_witness :
  exists t,
    _execute_tools_sequentially (C := Stub.scripted) 1 "hi" Stub.catalog []
      (Stub.start Stub.scripted Stub.number_world) = Some t
    /\ trace t = []
    /\ response t
       = "Error in query processing: object of type 'int' has no len()".
Proof.
  destruct (unusable_plan_ends_turn (C := Stub.scripted) "hi" Stub.catalog 0
              [] (Stub.start Stub.scripted Stub.number_world) "1"
              {| Stub.chat_script := [Returns "hello"];
                 Stub.tool_script := [] |})
    as (t & He & Ht & _ & _ & _ & Hloud & _).
  - reflexivity.
  - right. right. exists (VInt 1). split; [reflexivity|].
    left. intros items H. discriminate H.
  - exists t. split; [exact He|]. split; [exact Ht|].
    apply (Hloud eq_refl). split; [intro H; discriminate H|].
    right. exists (VInt 1). split; reflexivity.
Defined.

(* ===================================================================== *)
(** * The response synthesizer *)
(* ===================================================================== *)

Section Synthesis.

Context {C : Collaborators}.
Import PyStr PyStrFacts.

Lemma join_occurrence (sep x : string) (parts : list string) :
  In x parts -> exists pre post, join sep parts = pre ++ x ++ post.
Proof.
  induction parts as [|p parts IH]; [contradiction|].
  intros [-> | Hin].
  - destruct parts as [|p' parts].
    + exists "", "". simpl. now rewrite append_empty_r.
    + exists "", (sep ++ join sep (p' :: parts)). reflexivity.
  - destruct (IH Hin) as (pre & post & Hj).
    destruct parts as [|p' parts]; [contradiction|].
    exists (p ++ sep ++ pre), post.
    change (join sep (p :: p' :: parts))
      with (p ++ sep ++ join sep (p' :: parts)).
    now rewrite Hj, !append_assoc.
Qed.

Lemma fallback_holds_result (tool_results : list ExecutedTool)
  (entry : ExecutedTool) :
  In entry tool_results ->
  contains (result entry) (fallback_response tool_results) = true.
Proof.
  intros Hin. unfold fallback_response.
  destruct (join_occurrence " " (result entry) (map result tool_results))
    as (pre & post & ->); [now apply in_map|].
  rewrite <- append_assoc. apply contains_occurrence.
Qed.

(** C6: when the model call of the synthesis raises,
    [_generate_comprehensive_response] returns, as a string fixed by the
    trace alone, the results of all entries joined by a space after a fixed
    heading; every entry's result is a substring of it. *)
Theorem synthesis_falls_back_to_results (user_query : string)
  (tool_results : list ExecutedTool) (st : state) (e : exn) (w1 : World) :
  ollama_chat (ollama_model (self st))
    [ {| role := "user";
         content := comprehensive_prompt user_query tool_results |} ]
    (world st)
  = (Raises e, w1) ->
  _generate_comprehensive_response user_query tool_results st
  = ("Based on the collected information: "
       ++ join " " (map result tool_results), set_world st w1)
  /\ forall entry,
       In entry tool_results ->
       contains (result entry)
         (fst (_generate_comprehensive_response user_query tool_results st))
       = true.
Proof.
  intros Hc. unfold _generate_comprehensive_response. rewrite Hc.
  split; [reflexivity|].
  intros entry Hin. simpl fst. now apply fallback_holds_result.
Qed.

End Synthesis.

(** The trace of the scenario, with the model out of reach. *)
Lemma synthesis_falls_back_to_results_witness :
  fst (_generate_comprehensive_response (C := Stub.scripted)
         Stub.apple_query (map entry_of Stub.apple_rounds)
         (Stub.start Stub.scripted Stub.offline_world))
  = "Based on the collected information: AAPL 190.5".
Proof.
  rewrite (proj1 (synthesis_falls_back_to_results (C := Stub.scripted)
                    Stub.apple_query (map entry_of Stub.apple_rounds)
                    (Stub.start Stub.scripted Stub.offline_world)
                    (Exception "connection refused")
                    {| Stub.chat_script := []; Stub.tool_script := [] |}
                    eq_refl)).
  reflexivity.
Defined.

(* ===================================================================== *)
(** * The conversation history *)
(* ===================================================================== *)

Section History.

Context {C : Collaborators}.

Lemma history_after_append (m : message) (st : state) :
  history (history_append m st) = (history st ++ [m])%list.
Proof. reflexivity. Qed.

Lemma plan_round_keeps_self (q d : string) (tr : list ExecutedTool)
  (st : state) :
  exists w, snd (plan_round q d tr st) = set_world st w.
Proof.
  unfold plan_round.
  destruct (ollama_chat _ _ _) as [[text|e] w]; [|now exists w].
  destruct (PyStr.truthy _); [|now exists w].
  destruct (bind _ _) as [[[name params]|]|[msg|msg]]; now exists w.
Qed.

Lemma dispatch_keeps_self (name params : value) (st : state) :
  exists w, snd (dispatch name params st) = set_world st w.
Proof.
  unfold dispatch. destruct (call_tool _ _ _) as [called w].
  destruct (bind _ _); now exists w.
Qed.

Lemma synthesize_history (q : string) (tr : list ExecutedTool) (st : state) :
  history (snd (synthesize q tr st))
  = (history st ++ [assistant (fst (synthesize q tr st))])%list.
Proof.
  unfold synthesize, _generate_comprehensive_response.
  destruct (ollama_chat _ _ _) as [[text|e] w]; reflexivity.
Qed.

Lemma direct_response_history (q : string) (st : state) :
  let r := _generate_direct_response q st in
  history (snd r) = (history st ++ [assistant (fst r)])%list
  \/ (history (snd r) = history st /\ error_reply (fst r)).
Proof.
  unfold _generate_direct_response.
  destruct (ollama_chat _ _ _) as [[text|e] w]; simpl.
  - now left.
  - right. split; [reflexivity|]. exists (str_exn e). now right.
Qed.

Lemma respond_history (q : string) (tr : list ExecutedTool) (st : state) :
  let r := respond q tr st in
  history (snd r) = (history st ++ [assistant (fst r)])%list
  \/ (history (snd r) = history st /\ error_reply (fst r)).
Proof.
  unfold respond. destruct tr as [|x tr].
  - apply direct_response_history.
  - left. apply synthesize_history.
Qed.

Lemma respond_to_exception_history (e : exn) (q : string)
  (tr : list ExecutedTool) (st : state) :
  let r := respond_to_exception e q tr st in
  history (snd r) = (history st ++ [assistant (fst r)])%list
  \/ (history (snd r) = history st /\ error_reply (fst r)).
Proof.
  unfold respond_to_exception. destruct tr as [|x tr].
  - right. split; [reflexivity|]. exists (str_exn e). now left.
  - left. apply synthesize_history.
Qed.

(** A call of the loop leaves the history as it was, with the assistant's
    reply appended unless the reply is an error description. *)
Lemma execute_history (fuel : nat) (q d : string) (tr : list ExecutedTool)
  (st : state) (t : turn) :
  _execute_tools_sequentially fuel q d tr st = Some t ->
  history (final t) = (history st ++ [assistant (response t)])%list
  \/ (history (final t) = history st /\ error_reply (response t)).
Proof.
  revert tr st. induction fuel as [|fuel IH]; intros tr st H; [discriminate|].
  simpl in H.
  destruct (plan_round_keeps_self q d tr st) as (w1 & Hw1).
  destruct (plan_round q d tr st) as [[name params| |e] st1];
    simpl in Hw1; subst st1.
  - destruct (dispatch_keeps_self name params (set_world st w1)) as (w2 & Hw2).
    destruct (dispatch name params (set_world st w1)) as [entry st2].
    simpl in Hw2. subst st2. exact (IH _ _ H).
  - pose proof (respond_history q tr (set_world st w1)) as Hh.
    destruct (respond q tr (set_world st w1)) as [r st2].
    injection H as <-. exact Hh.
  - pose proof (respond_to_exception_history e q tr (set_world st w1)) as Hh.
    destruct (respond_to_exception e q tr (set_world st w1)) as [r st2].
    injection H as <-. exact Hh.
Qed.

(** C7 (amended): one pass of the chat loop empties the history on the
    command [clear] and on nothing else; every other input keeps the
    entries there were, in their order, at the front. A query appends the
    user's record and then the assistant's record with the reply, except
    that a reply which is one of the two error descriptions
    (["Error in query processing: ..."], ["Error generating response: ..."])
    is printed without being recorded. *)
Theorem history_grows_by_turns (fuel : nat) (tool_descriptions line : string)
  (st st' : state) (step : loop_step) :
  start_chat_step fuel tool_descriptions line st = Some (step, st') ->
  (PyStr.lower (PyStr.strip line) = "clear" -> history st' = [])
  /\ (PyStr.lower (PyStr.strip line) <> "clear" ->
      exists added, history st' = (history st ++ added)%list)
  /\ (step = Break \/ step = Continue None ->
      PyStr.lower (PyStr.strip line) <> "clear" ->
      history st' = history st)
  /\ (forall printed,
        step = Continue (Some printed) ->
        exists reply,
          printed = strip_think_tags reply
          /\ (history st'
              = (history st ++ [user (PyStr.strip line); assistant reply])%list
              \/ (history st' = (history st ++ [user (PyStr.strip line)])%list
                  /\ error_reply reply)))
  /\ (PyStr.strip line <> "" ->
      ~ In (PyStr.lower (PyStr.strip line)) ["quit"; "clear"; "tools"] ->
      exists printed, step = Continue (Some printed)).
Proof.
  unfold start_chat_step. intros H.
  destruct (String.eqb (PyStr.lower (PyStr.strip line)) "quit") eqn:Eq.
  { injection H as <- <-. apply String.eqb_eq in Eq. rewrite Eq.
    split; [discriminate|].
    split; [intros _; exists []; now rewrite app_nil_r|].
    split; [reflexivity|].
    split; [discriminate|].
    intros _ Hn. exfalso. apply Hn. now left. }
  destruct (String.eqb (PyStr.lower (PyStr.strip line)) "clear") eqn:Ec.
  { injection H as <- <-. apply String.eqb_eq in Ec. rewrite Ec.
    split; [reflexivity|].
    split; [contradiction|].
    split; [contradiction|].
    split; [discriminate|].
    intros _ Hn. exfalso. apply Hn. right. now left. }
  apply String.eqb_neq in Ec.
  destruct (String.eqb (PyStr.lower (PyStr.strip line)) "tools") eqn:Et.
  { injection H as <- <-. apply String.eqb_eq in Et.
    split; [contradiction|].
    split; [intros _; exists []; now rewrite app_nil_r|].
    split; [reflexivity|].
    split; [discriminate|].
    intros _ Hn. exfalso. apply Hn. right. right. now left. }
  destruct (PyStr.truthy (PyStr.strip line)) eqn:Hty; simpl in H.
  2: { injection H as <- <-.
       split; [contradiction|].
       split; [intros _; exists []; now rewrite app_nil_r|].
       split; [reflexivity|].
       split; [discriminate|].
       intros Hne _. exfalso. apply Hne.
       destruct (PyStr.strip line); [reflexivity | discriminate]. }
  unfold _process_query_automatically in H.
  destruct (_execute_tools_sequentially _ _ _ _ _) as [t|] eqn:He;
    [|discriminate].
  injection H as <- <-.
  pose proof (execute_history _ _ _ _ _ _ He) as Hh.
  rewrite history_after_append in Hh. fold (user (PyStr.strip line)) in Hh.
  split; [contradiction|].
  split.
  { intros _. destruct Hh as [Hh | [Hh _]]; rewrite Hh.
    - rewrite <- app_assoc. eexists; reflexivity.
    - eexists; reflexivity. }
  split; [intros [Hs | Hs]; discriminate Hs|].
  split.
  { intros printed [= <-]. exists (response t). split; [reflexivity|].
    destruct Hh as [Hh | [Hh Herr]]; rewrite Hh.
    - left. now rewrite <- app_assoc.
    - right. now split. }
  intros _ _. eexists; reflexivity.
Qed.

End History.

(** C7 (as stated, refuted): with the model out of reach the user is
    answered ["Error in query processing: connection refused"], and the
    history holds the user's record alone. *)
Lemma error_reply_is_not_recorded :
  exists st',
    start_chat_step (C := Stub.scripted) 1 Stub.catalog "hello"
      (Stub.start Stub.scripted Stub.offline_world)
    = Some (Continue (Some "Error in query processing: connection refused"),
            st')
    /\ history st' = [ {| role := "user"; content := "hello" |} ].
Proof. eexists. split; [vm_compute; reflexivity | reflexivity]. Qed.

(** The scenario as one pass of the chat loop. *)
Lemma history_grows_by_turns_witness :
  let st := Stub.start Stub.scripted Stub.apple_world in
  exists st',
    start_chat_step (C := Stub.scripted) 3 Stub.catalog Stub.apple_query st
    = Some (Continue (Some "Apple trades at 190.5"), st')
    /\ exists reply,
         "Apple trades at 190.5" = strip_think_tags reply
         /\ (history st'
             = (history st
                  ++ [user (PyStr.strip Stub.apple_query);
                      assistant reply])%list
             \/ (history st'
                 = (history st ++ [user (PyStr.strip Stub.apple_query)])%list
                 /\ error_reply reply)).
Proof.
  intros st.
  assert (H : exists st',
             start_chat_step (C := Stub.scripted) 3 Stub.catalog
               Stub.apple_query st
             = Some (Continue (Some "Apple trades at 190.5"), st'))
    by (eexists; vm_compute; reflexivity).
  destruct H as (st' & H). exists st'. split; [exact H|].
  exact (proj1 (proj2 (proj2 (proj2
           (history_grows_by_turns (C := Stub.scripted) 3 Stub.catalog
              Stub.apple_query st st' _ H)))) _ eq_refl).
Defined.

(* ===================================================================== *)
(** * Further properties: the thinking-tag stripper *)
(* ===================================================================== *)

Section StripperShape.
Import PyStr PyStrFacts.

Lemma length_take_within (n : nat) (s : string) :
  n <= String.length s -> String.length (take n s) = n.
Proof.
  revert s; induction n as [|n IH]; intros s H; simpl; [reflexivity|].
  destruct s as [|c s]; simpl in *; [lia | rewrite IH; lia].
Qed.

Lemma length_drop_within (n : nat) (s : string) :
  n <= String.length s -> String.length (drop n s) = String.length s - n.
Proof.
  revert s; induction n as [|n IH]; intros s H; simpl; [lia|].
  destruct s as [|c s]; simpl in *; [lia | rewrite IH; lia].
Qed.

Lemma first_index_unique_least (sub pre post : string) (k : nat) :
  first_index sub (pre ++ sub ++ post) = Some k -> k <= String.length pre.
Proof.
  intros H. destruct (first_index_least sub pre post) as (k' & Hk & Hle).
  rewrite H in Hk. injection Hk as ->. exact Hle.
Qed.

(** Before its first occurrence in a text, a non-empty string does not
    occur. *)
Lemma nothing_before_first_index (sub pre rest : string) :
  PyStr.truthy sub = true ->
  first_index sub (pre ++ rest) = Some (String.length pre) ->
  contains sub pre = false.
Proof.
  intros Hs H. unfold contains.
  destruct (first_index sub pre) as [i|] eqn:Hi; [|reflexivity].
  exfalso. destruct (first_index_occurs _ _ _ Hi) as (a & b & Hp & _).
  rewrite Hp, !append_assoc in H.
  apply first_index_unique_least in H. rewrite !length_append in H.
  destruct sub; [discriminate | simpl in H; lia].
Qed.

(** X1: with both markers in the text, at the first indices [o] and [c],
    the result is [text[:o] + text[c+8:]], in whichever order the markers
    come; its length is [len(text) + o - (c + 8)]. *)
Theorem strip_think_tags_slices (text : string) (o c : nat) :
  first_index think_open text = Some o ->
  first_index think_close text = Some c ->
  strip_think_tags text = take o text ++ drop (c + 8) text
  /\ len (strip_think_tags text)
     = (len text + Z.of_nat o - (Z.of_nat c + 8))%Z.
Proof.
  intros Ho Hc. pose proof (strip_think_tags_cut _ _ _ Ho Hc) as Hcut.
  change (String.length think_close) with 8 in Hcut.
  split; [exact Hcut|]. rewrite Hcut. unfold len.
  destruct (find_contains _ _ _ Ho) as (_ & _ & Hol).
  destruct (first_index_occurs _ _ _ Hc) as (pre & post & Ht & Hl).
  assert (Hcl : c + 8 <= String.length text).
  { rewrite Ht, !length_append. simpl. lia. }
  rewrite length_append, (length_take_within _ _ Hol),
    (length_drop_within _ _ Hcl). lia.
Qed.

(** X2: when the first closing marker comes after the first opening marker,
    the text is [pre + "<think>" + mid + "</think>" + post] with no opening
    marker in [pre] and no closing marker in [mid], and the result is
    [pre + post]: exactly the first span is removed. *)
Theorem strip_think_tags_removes_first_span (text : string) (o c : nat) :
  first_index think_open text = Some o ->
  first_index think_close text = Some c ->
  o < c ->
  exists pre mid post,
    text = pre ++ think_open ++ mid ++ think_close ++ post
    /\ contains think_open pre = false
    /\ contains think_close mid = false
    /\ strip_think_tags text = pre ++ post.
Proof.
  intros Ho Hc Hlt.
  destruct (close_after_open _ _ _ Ho Hc Hlt) as (Hle & Hin).
  destruct (first_index_occurs _ _ _ Ho) as (pre & rest & Ht & Hl).
  assert (Hrest : drop (o + String.length think_open) text = rest).
  { rewrite <- drop_drop, Ht. rewrite <- Hl at 1. rewrite drop_append.
    reflexivity. }
  rewrite Hrest in Hin.
  destruct (first_index_occurs _ _ _ Hin) as (mid & post & Hr & Hm).
  exists pre, mid, post. clear Hrest. subst rest.
  assert (Ho' : first_index think_open
                  (pre ++ think_open ++ mid ++ think_close ++ post)
                = Some (String.length pre)) by (rewrite <- Ht, Hl; exact Ho).
  split; [exact Ht|]. split; [|split].
  - exact (nothing_before_first_index think_open pre
             (think_open ++ mid ++ think_close ++ post) eq_refl Ho').
  - apply (nothing_before_first_index think_close mid
             (think_close ++ post) eq_refl).
    rewrite Hm. exact Hin.
  - rewrite Ht. apply strip_think_tags_span; [exact Ho'|].
    rewrite <- Ht, Hc, Hl, Hm. f_equal. lia.
Qed.

End StripperShape.

(* ===================================================================== *)
(** * The stripper applied twice *)
(* ===================================================================== *)

Section StripperTwice.
Import PyStr PyStrFacts.







End StripperTwice.


(** Texts on which the second application changes nothing, and one on which
    it does: a closing marker that ends where the opening marker begins; a
    span whose removal leaves a single marker; a span whose removal joins
    the two halves of an opening marker in front of a closing one. *)
Example strip_think_tags_second_pass_examples :
  strip_think_tags "</think><think>" = "</think><think>"
  /\ strip_think_tags "<thi<think>x</think>nk>" = "<think>"
  /\ strip_think_tags "<think>" = "<think>"
  /\ strip_think_tags "<thi<think>x</think>nk>y</think>z"
     = "<think>y</think>z"
  /\ strip_think_tags "<think>y</think>z" = "z".
Proof. repeat split. Qed.

(** The example of the specification. *)
Lemma strip_think_tags_slices_witness :
  strip_think_tags "<think>internal</think>final answer"
  = PyStr.take 0 "<think>internal</think>final answer"
      ++ PyStr.drop (15 + 8) "<think>internal</think>final answer"
  /\ PyStr.len (strip_think_tags "<think>internal</think>final answer")
     = (PyStr.len "<think>internal</think>final answer" + 0 - (15 + 8))%Z.
Proof.
  exact (strip_think_tags_slices "<think>internal</think>final answer" 0 15
           eq_refl eq_refl).
Defined.

Lemma strip_think_tags_removes_first_span_witness :
  exists pre mid post,
    "note <think>a</think> b <think>c</think>"
    = pre ++ think_open ++ mid ++ think_close ++ post
    /\ PyStr.contains think_open pre = false
    /\ PyStr.contains think_close mid = false
    /\ strip_think_tags "note <think>a</think> b <think>c</think>"
       = pre ++ post.
Proof.
  apply (strip_think_tags_removes_first_span
           "note <think>a</think> b <think>c</think>" 5 13 eq_refl eq_refl).
  lia.
Defined.

(* ===================================================================== *)
(** * Further properties: a turn of the executor loop *)
(* ===================================================================== *)

Section Turn.

Context {C : Collaborators}.

Variables current_query tool_descriptions : string.

Lemma plan_round_raises (tr : list ExecutedTool) (st : state) (e : exn)
  (w1 : World) :
  ollama_chat (ollama_model (self st))
    (planning_messages current_query tool_descriptions tr) (world st)
  = (Raises e, w1) ->
  plan_round current_query tool_descriptions tr st
  = (PlanningError e, set_world st w1).
Proof.
  intros H. unfold plan_round. unfold planning_messages in H. now rewrite H.
Qed.

Lemma plan_round_false_value (tr : list ExecutedTool) (st : state)
  (text : string) (w1 : World) (v : value) :
  ollama_chat (ollama_model (self st))
    (planning_messages current_query tool_descriptions tr) (world st)
  = (Returns text, w1) ->
  json_loads (planning_text_of text) = Returns v ->
  Py.truthy v = false ->
  plan_round current_query tool_descriptions tr st
  = (NoToolNeeded, set_world st w1).
Proof.
  intros Hc Hj Hv. apply (plan_round_quiet _ _ tr st text w1 Hc).
  right. right. now exists v.
Qed.

Lemma rounds_keep_self (rs : list tool_round) (tr tr' : list ExecutedTool)
  (st st' : state) :
  rounds current_query tool_descriptions rs tr st tr' st' ->
  self st' = self st.
Proof.
  induction 1 as [|r rs tr st w1 w2 tr' st' _ _ _ IH];
    [reflexivity | exact IH].
Qed.

(** X3: when the planning call itself raises, the turn ends in that round.
    With an empty trace the answer is
    ["Error in query processing: " + str(e)] and nothing else is called;
    with a non-empty trace the answer is the synthesis from the trace. *)
Theorem planning_failure_ends_turn (fuel : nat) (tr : list ExecutedTool)
  (st : state) (e : exn) (w1 : World) :
  ollama_chat (ollama_model (self st))
    (planning_messages current_query tool_descriptions tr) (world st)
  = (Raises e, w1) ->
  exists t,
    _execute_tools_sequentially (S fuel) current_query tool_descriptions tr st
    = Some t
    /\ trace t = tr
    /\ (tr = [] ->
        response t = "Error in query processing: " ++ str_exn e
        /\ final t = set_world st w1)
    /\ (tr <> [] ->
        (response t, final t)
        = synthesize current_query tr (set_world st w1)).
Proof.
  intros H. simpl. rewrite (plan_round_raises tr st e w1 H).
  destruct (respond_to_exception e current_query tr (set_world st w1))
    as [r st2] eqn:Hr.
  eexists. split; [reflexivity|]. simpl. split; [reflexivity|]. split.
  - intros ->. simpl in Hr. injection Hr as <- <-. now split.
  - intros Hne. destruct tr; [congruence|]. exact (eq_sym Hr).
Qed.

(** X4: a query whose first planning reply parses to a false value (the
    array [[]] of "all done") uses no tool and is answered by the direct
    response: the model's reply, stripped of blanks, is returned and recorded
    after the user's query; if that call raises, the answer is
    ["Error generating response: " + str(e)] and only the query is
    recorded. *)
Theorem turn_without_tools_is_direct (fuel : nat) (st : state)
  (reply : string) (w1 : World) (v : value) :
  ollama_chat (ollama_model (self st))
    (planning_messages current_query tool_descriptions []) (world st)
  = (Returns reply, w1) ->
  json_loads (planning_text_of reply) = Returns v ->
  Py.truthy v = false ->
  exists t,
    _process_query_automatically (S fuel) current_query tool_descriptions st
    = Some t
    /\ trace t = []
    /\ (forall text w2,
          ollama_chat (ollama_model (self st))
            [ {| role := "system";
                 content :=
                   "You are a helpful assistant. Respond naturally to the user's query." |};
              user current_query ] w1
          = (Returns text, w2) ->
          response t = PyStr.strip text
          /\ world (final t) = w2
          /\ history (final t)
             = (history st
                  ++ [user current_query; assistant (PyStr.strip text)])%list)
    /\ (forall e w2,
          ollama_chat (ollama_model (self st))
            [ {| role := "system";
                 content :=
                   "You are a helpful assistant. Respond naturally to the user's query." |};
              user current_query ] w1
          = (Raises e, w2) ->
          response t = "Error generating response: " ++ str_exn e
          /\ world (final t) = w2
          /\ history (final t) = (history st ++ [user current_query])%list).
Proof.
  intros Hc Hj Hv. unfold _process_query_automatically. simpl.
  rewrite (plan_round_false_value []
             (history_append {| role := "user"; content := current_query |} st)
             reply w1 v Hc Hj Hv).
  unfold respond, _generate_direct_response. simpl.
  destruct (ollama_chat _ _ w1) as [[text|e] w2] eqn:Hd.
  - eexists. split; [reflexivity|]. split; [reflexivity|]. split.
    + intros text' w2' [= <- <-]. simpl. repeat split.
      unfold history. simpl. now rewrite <- app_assoc.
    + intros e w2' H. discriminate H.
  - eexists. split; [reflexivity|]. split; [reflexivity|]. split.
    + intros text' w2' H. discriminate H.
    + intros e' w2' [= <- <-]. simpl. repeat split.
Qed.

(** X5: a turn in which the planner asks for [N >= 1] tools and then
    answers with a false value is answered by the synthesis from the [N]
    entries: the model's reply, stripped of blanks, or, if that call raises,
    the fallback string; in both cases the answer is recorded in the
    history. *)
Theorem turn_with_tools_is_synthesized (rs : list tool_round)
  (tr' : list ExecutedTool) (st st' : state) (fuel : nat)
  (reply : string) (w1 : World) (v : value) :
  rs <> [] ->
  rounds current_query tool_descriptions rs [] st tr' st' ->
  ollama_chat (ollama_model (self st'))
    (planning_messages current_query tool_descriptions tr') (world st')
  = (Returns reply, w1) ->
  json_loads (planning_text_of reply) = Returns v ->
  Py.truthy v = false ->
  List.length rs < fuel ->
  exists t,
    _execute_tools_sequentially fuel current_query tool_descriptions [] st
    = Some t
    /\ trace t = map entry_of rs
    /\ (forall text w2,
          ollama_chat (ollama_model (self st))
            [ user (comprehensive_prompt current_query (map entry_of rs)) ] w1
          = (Returns text, w2) ->
          response t = PyStr.strip text
          /\ world (final t) = w2
          /\ history (final t)
             = (history st ++ [assistant (PyStr.strip text)])%list)
    /\ (forall e w2,
          ollama_chat (ollama_model (self st))
            [ user (comprehensive_prompt current_query (map entry_of rs)) ] w1
          = (Raises e, w2) ->
          response t = fallback_response (map entry_of rs)
          /\ world (final t) = w2
          /\ history (final t)
             = (history st
                  ++ [assistant (fallback_response (map entry_of rs))])%list).
Proof.
  intros Hne Hr Hc Hj Hv Hf.
  destruct (execute_rounds _ _ rs [] tr' st st' Hr) as [Htr He].
  pose proof (rounds_keep_self _ _ _ _ _ Hr) as Hself.
  simpl in Htr. subst tr'.
  replace fuel with (List.length rs + S (fuel - S (List.length rs))) by lia.
  rewrite He. simpl.
  rewrite (plan_round_false_value _ st' reply w1 v Hc Hj Hv).
  destruct (map entry_of rs) as [|x xs] eqn:Hm.
  { destruct rs; [congruence | discriminate Hm]. }
  unfold respond, synthesize, _generate_comprehensive_response. simpl.
  unfold user. rewrite Hself.
  destruct (ollama_chat _ _ w1) as [[text|e] w2] eqn:Hd.
  - eexists. split; [reflexivity|]. split; [reflexivity|]. split.
    + intros text' w2' [= <- <-]. simpl. repeat split.
      unfold history. simpl. now rewrite Hself.
    + intros e w2' H. discriminate H.
  - eexists. split; [reflexivity|]. split; [reflexivity|]. split.
    + intros text' w2' H. discriminate H.
    + intros e' w2' [= <- <-]. simpl. repeat split.
      unfold history. simpl. now rewrite Hself.
Qed.

(** X6: the trace is append-only. Whatever trace a call starts from is the
    front of the trace it ends with, and a call that returns within [fuel]
    rounds has added fewer than [fuel] entries. *)
Theorem trace_is_append_only (fuel : nat) (tr : list ExecutedTool)
  (st : state) (t : turn) :
  _execute_tools_sequentially fuel current_query tool_descriptions tr st
  = Some t ->
  exists added,
    trace t = (tr ++ added)%list /\ List.length added < fuel.
Proof.
  revert tr st. induction fuel as [|fuel IH]; intros tr st H; [discriminate|].
  simpl in H.
  destruct (plan_round current_query tool_descriptions tr st)
    as [[name params| |e] st1].
  - destruct (dispatch name params st1) as [entry st2].
    destruct (IH _ _ H) as (added & Ht & Hl).
    exists (entry :: added). rewrite Ht, <- app_assoc. split; [reflexivity|].
    simpl. lia.
  - destruct (respond current_query tr st1) as [r st2]. injection H as <-.
    exists []. simpl. rewrite app_nil_r. split; [reflexivity | lia].
  - destruct (respond_to_exception e current_query tr st1) as [r st2].
    injection H as <-.
    exists []. simpl. rewrite app_nil_r. split; [reflexivity | lia].
Qed.

(** X7: once a tool has been called, the answer of the turn is always
    recorded in the history: a call that returns with a non-empty trace has
    appended the assistant's record with its answer. *)
Theorem answer_after_tools_is_recorded (fuel : nat) (tr : list ExecutedTool)
  (st : state) (t : turn) :
  _execute_tools_sequentially fuel current_query tool_descriptions tr st
  = Some t ->
  trace t <> [] ->
  history (final t) = (history st ++ [assistant (response t)])%list.
Proof.
  revert tr st. induction fuel as [|fuel IH]; intros tr st H Hne;
    [discriminate|].
  simpl in H.
  destruct (plan_round_keeps_self current_query tool_descriptions tr st)
    as (w1 & Hw1).
  destruct (plan_round current_query tool_descriptions tr st)
    as [[name params| |e] st1]; simpl in Hw1; subst st1.
  - destruct (dispatch_keeps_self name params (set_world st w1)) as (w2 & Hw2).
    destruct (dispatch name params (set_world st w1)) as [entry st2].
    simpl in Hw2. subst st2. exact (IH _ _ H Hne).
  - destruct (respond current_query tr (set_world st w1)) as [r st2] eqn:Hr.
    injection H as <-. simpl in *. destruct tr as [|x tr]; [congruence|].
    pose proof (synthesize_history current_query (x :: tr) (set_world st w1))
      as Hs.
    unfold respond in Hr. rewrite Hr in Hs. exact Hs.
  - destruct (respond_to_exception e current_query tr (set_world st w1))
      as [r st2] eqn:Hr.
    injection H as <-. simpl in *. destruct tr as [|x tr]; [congruence|].
    pose proof (synthesize_history current_query (x :: tr) (set_world st w1))
      as Hs.
    unfold respond_to_exception in Hr. rewrite Hr in Hs. exact Hs.
Qed.

(** X8: a returned sequence whose first part is not a text part has no
    attribute [text]: line 169 raises, and in a turn that returns the round
    has left at its place in the trace the entry ["Error: " + str(e)] of
    that exception, like a call that raises; the later rounds take place. *)
Theorem non_text_result_is_an_error_entry (rs : list tool_round)
  (tr' : list ExecutedTool) (st st' : state) (fuel : nat) :
  rounds current_query tool_descriptions rs [] st tr' st' ->
  terminating_round current_query tool_descriptions tr' st' ->
  List.length rs < fuel ->
  exists t,
    _execute_tools_sequentially fuel current_query tool_descriptions [] st
    = Some t
    /\ List.length (trace t) = List.length rs
    /\ forall k r part rest,
         nth_error rs k = Some r ->
         outcome r = Returns (part :: rest) ->
         (forall text, part <> TextContent text) ->
         exists e,
           tool_output_of (part :: rest) = Raises e
           /\ nth_error (trace t) k
              = Some {| tool_name := requested_tool r;
                        parameters := requested_params r;
                        result := "Error: " ++ str_exn e |}.
Proof.
  intros Hr Ht Hf.
  destruct (execute_run _ _ rs tr' st st' fuel Hr Ht Hf) as (t & He & Htr).
  exists t. rewrite Htr. split; [exact He|]. split; [apply length_map|].
  intros k r part rest Hk Ho Hn.
  rewrite nth_error_map, Hk. simpl option_map. unfold entry_of. rewrite Ho.
  destruct part as [text|data mime|uri].
  - exfalso. now apply (Hn text).
  - eexists. split; reflexivity.
  - eexists. split; reflexivity.
Qed.

End Turn.

(* ===================================================================== *)
(** * Further properties: what the prompts carry *)
(* ===================================================================== *)

Section Prompts.

Context {C : Collaborators}.
Import PyStr PyStrFacts.

Lemma contains_split (sub s : string) :
  contains sub s = true -> exists pre post, s = pre ++ sub ++ post.
Proof.
  unfold contains. destruct (first_index sub s) as [k|] eqn:H; [|discriminate].
  intros _. destruct (first_index_occurs _ _ _ H) as (pre & post & Hs & _).
  now exists pre, post.
Qed.

Lemma contains_inside (sub a s b : string) :
  contains sub s = true -> contains sub (a ++ s ++ b) = true.
Proof.
  intros H. destruct (contains_split _ _ H) as (pre & post & ->).
  replace (a ++ (pre ++ sub ++ post) ++ b)
    with ((a ++ pre) ++ sub ++ (post ++ b))
    by (now rewrite !append_assoc).
  apply contains_occurrence.
Qed.

Lemma contains_self (s : string) : contains s s = true.
Proof.
  pose proof (contains_occurrence s "" "") as H. simpl in H.
  now rewrite append_empty_r in H.
Qed.

Lemma contains_in_join (sep sub part : string) (parts : list string) :
  In part parts -> contains sub part = true ->
  contains sub (join sep parts) = true.
Proof.
  intros Hin Hc. destruct (join_occurrence sep part parts Hin) as (a & b & ->).
  now apply contains_inside.
Qed.

Lemma context_fold (tools : list ExecutedTool) (start : string) :
  fold_left
    (fun context tool =>
       context ++ "- " ++ py_str (tool_name tool) ++ ": " ++ result tool ++ nl)
    tools start
  = start ++ join "" (map context_line tools).
Proof.
  revert start. induction tools as [|x tools IH]; intros start; simpl.
  - now rewrite append_empty_r.
  - rewrite IH. fold (context_line x). rewrite append_assoc.
    destruct tools as [|y tools]; simpl; [now rewrite append_empty_r|].
    reflexivity.
Qed.

Lemma tool_context_holds_line (tools : list ExecutedTool)
  (entry : ExecutedTool) :
  In entry tools -> contains (context_line entry) (tool_context tools) = true.
Proof.
  intros Hin. unfold tool_context.
  destruct tools as [|x tools]; [contradiction|].
  rewrite context_fold.
  pose proof (contains_in_join "" (context_line entry) (context_line entry)
                (map context_line (x :: tools))
                (in_map context_line _ _ Hin) (contains_self _)) as H.
  pose proof (contains_inside _
                (nl ++ nl ++ "Previous tool results:" ++ nl) _ "" H) as H'.
  now rewrite append_empty_r in H'.
Qed.

(** X9: the planning call is one user message whose text holds the tool
    descriptions, the original query and, for every entry of the trace, the
    line ["- " + tool_name + ": " + result]: each result is handed to the
    next planning round. *)
Theorem planning_prompt_carries_results (current_query tool_descriptions
  : string) (executed_tools : list ExecutedTool) :
  exists prompt,
    planning_messages current_query tool_descriptions executed_tools
    = [ user prompt ]
    /\ contains tool_descriptions prompt = true
    /\ contains current_query prompt = true
    /\ forall entry,
         In entry executed_tools ->
         contains ("- " ++ py_str (tool_name entry) ++ ": " ++ result entry
                        ++ nl) prompt = true.
Proof.
  eexists. split; [reflexivity|]. unfold planning_prompt. split; [|split].
  - eapply contains_in_join; [|apply contains_self]. simpl. tauto.
  - eapply contains_in_join.
    + simpl. do 5 right. left. reflexivity.
    + apply (contains_inside _ ("The user originally asked: " ++ dquote) _
               (dquote ++ tool_context executed_tools)).
      apply contains_self.
  - intros entry Hin. eapply contains_in_join.
    + simpl. do 5 right. left. reflexivity.
    + pose proof (contains_inside _
                    ("The user originally asked: " ++ dquote ++ current_query
                       ++ dquote) _ ""
                    (tool_context_holds_line _ _ Hin)) as H.
      rewrite append_empty_r, !append_assoc in H. exact H.
Qed.

Lemma results_summary_nth (tool_results : list ExecutedTool) (i k : nat)
  (entry : ExecutedTool) :
  nth_error tool_results k = Some entry ->
  In ("Tool " ++ of_nat (i + k) ++ " (" ++ py_str (tool_name entry) ++ "): "
        ++ result entry)
     (results_summary i tool_results).
Proof.
  revert i k. induction tool_results as [|x xs IH]; intros i k H.
  - destruct k; discriminate H.
  - destruct k as [|k]; simpl in H.
    + injection H as ->. left. now rewrite Nat.add_0_r.
    + right. replace (i + S k) with (S i + k) by lia. now apply IH.
Qed.

(** X10: the synthesis prompt holds the query and, for the entry at
    position [k] of the trace (from 0), the text
    ["Tool " + str(k+1) + " (" + tool_name + "): " + result]. *)
Theorem synthesis_prompt_numbers_results (user_query : string)
  (tool_results : list ExecutedTool) :
  contains user_query (comprehensive_prompt user_query tool_results) = true
  /\ forall k entry,
       nth_error tool_results k = Some entry ->
       contains ("Tool " ++ of_nat (S k) ++ " (" ++ py_str (tool_name entry)
                   ++ "): " ++ result entry)
         (comprehensive_prompt user_query tool_results) = true.
Proof.
  unfold comprehensive_prompt. split.
  - eapply contains_in_join; [left; reflexivity|].
    apply (contains_inside _ ("The user asked: " ++ dquote) _ dquote).
    apply contains_self.
  - intros k entry Hk. eapply contains_in_join.
    + simpl. do 4 right. left. reflexivity.
    + eapply contains_in_join; [|apply contains_self].
      exact (results_summary_nth tool_results 1 k entry Hk).
Qed.

End Prompts.

(* ===================================================================== *)
(** * Further properties: the tool catalog *)
(* ===================================================================== *)

Section CatalogFacts.

Context {C : Collaborators}.
Import PyStr PyStrFacts.

Lemma format_params_dicts (properties : list (string * value)) :
  Forall dict_property properties ->
  format_params properties = Returns (map param_text properties).
Proof.
  induction 1 as [|[n v] ps [info Hv] _ IH]; [reflexivity|].
  simpl in Hv. subst v. simpl. rewrite IH. unfold param_text. simpl.
  destruct (Py.lookup "type" info); destruct (Py.lookup "description" info);
    reflexivity.
Qed.

Lemma format_params_raises (good more : list (string * value))
  (n : string) (info : value) :
  Forall dict_property good ->
  (forall items, info <> VDict items) ->
  format_params (good ++ (n, info) :: more)
  = Raises (Exception ("'" ++ Py.type_name info
                           ++ "' object has no attribute 'get'")).
Proof.
  intros Hg Hn. induction Hg as [|[m v] ps [i Hv] _ IH].
  - simpl. destruct info; try reflexivity. exfalso. now apply (Hn items).
  - simpl in Hv. subst v. simpl.
    destruct (Py.lookup "type" i); destruct (Py.lookup "description" i);
      simpl; now rewrite IH.
Qed.

Lemma tool_params_readable (tool : Tool.t) :
  readable_tool tool -> exists params, tool_params tool = Returns params.
Proof.
  unfold readable_tool, tool_params.
  destruct (Tool.input_schema tool) as [schema|]; [|now exists []].
  intros [Hf | (items & -> & Hp)].
  - rewrite Hf. now exists [].
  - destruct (Py.truthy (VDict items)); [|now exists []]. simpl.
    destruct (Py.lookup "properties" items) as [[| | | | | |ps]|];
      try contradiction.
    + simpl. rewrite (format_params_dicts ps Hp). eexists; reflexivity.
    + simpl. now exists [].
Qed.

Lemma tool_desc_readable (tool : Tool.t) :
  readable_tool tool ->
  exists desc,
    tool_desc tool = Returns desc /\ contains (tool_head tool) desc = true.
Proof.
  intros H. destruct (tool_params_readable tool H) as (params & Hp).
  unfold tool_desc. rewrite Hp. simpl. fold (tool_head tool).
  destruct params as [|p ps].
  - eexists. split; [reflexivity|].
    pose proof (contains_occurrence (tool_head tool) "" "") as Hc.
    simpl in Hc. now rewrite append_empty_r in Hc.
  - eexists. split; [reflexivity|].
    exact (contains_occurrence (tool_head tool) "" _).
Qed.

Lemma tool_info_readable (tools : list Tool.t) :
  Forall readable_tool tools ->
  exists infos,
    tool_info tools = Returns infos
    /\ forall tool, In tool tools ->
         exists desc, In desc infos /\ contains (tool_head tool) desc = true.
Proof.
  induction 1 as [|x xs Hx _ (infos & Hi & Hall)].
  - exists []. split; [reflexivity | contradiction].
  - destruct (tool_desc_readable x Hx) as (desc & Hd & Hc).
    exists (desc :: infos). simpl. rewrite Hd. simpl. rewrite Hi. simpl.
    split; [reflexivity|]. intros tool [<- | Hin].
    + exists desc. split; [now left | exact Hc].
    + destruct (Hall tool Hin) as (d & Hd' & Hc'). exists d.
      split; [now right | exact Hc'].
Qed.

(** X11: on a catalog whose schemas can be read (each is false, or a dict
    whose properties, if any, are a dict of dicts),
    [_format_tools_for_model] returns a text in which every tool has its
    line ["- " + name + ": " + description]. *)
Theorem format_tools_lists_every_tool (tools : list Tool.t) :
  Forall readable_tool tools ->
  exists text,
    _format_tools_for_model tools = Returns text
    /\ forall tool,
         In tool tools ->
         contains ("- " ++ Tool.name tool ++ ": "
                        ++ format_optional (Tool.description tool)) text
         = true.
Proof.
  intros H. destruct (tool_info_readable tools H) as (infos & Hi & Hall).
  unfold _format_tools_for_model. rewrite Hi. simpl.
  eexists. split; [reflexivity|]. intros tool Hin.
  destruct (Hall tool Hin) as (desc & Hd & Hc).
  exact (contains_in_join nl (tool_head tool) desc infos Hd Hc).
Qed.

Lemma tool_desc_without_parameters (tool : Tool.t) :
  without_parameters tool -> tool_desc tool = Returns (tool_head tool).
Proof.
  unfold without_parameters, tool_desc, tool_params.
  destruct (Tool.input_schema tool) as [schema|]; [|reflexivity].
  intros [Hf | (items & -> & [Hp | Hp])].
  - now rewrite Hf.
  - destruct (Py.truthy (VDict items)); [|reflexivity]. simpl. now rewrite Hp.
  - destruct (Py.truthy (VDict items)); [|reflexivity]. simpl. now rewrite Hp.
Qed.

(** X12: tools without [input_schema] (or with a false one, or one without
    properties) get no parameter line: the catalog is the lines
    ["- " + name + ": " + description] joined by newlines, a missing
    description reading [None]. *)
Theorem format_tools_without_parameters (tools : list Tool.t) :
  Forall without_parameters tools ->
  _format_tools_for_model tools
  = Returns (join nl (map (fun tool =>
                             "- " ++ Tool.name tool ++ ": "
                                  ++ format_optional (Tool.description tool))
                          tools)).
Proof.
  intros H. unfold _format_tools_for_model.
  assert (Hi : tool_info tools = Returns (map tool_head tools)).
  { induction H as [|x xs Hx _ IH]; [reflexivity|].
    simpl. rewrite (tool_desc_without_parameters x Hx). simpl.
    now rewrite IH. }
  rewrite Hi. reflexivity.
Qed.

(** X13: a tool whose schema has properties that are all dicts gets the
    line ["  Parameters: "] with, for each property in order,
    [name + " (" + type + "): " + description], the type ["string"] and the
    description [""] standing in for a missing key. *)
Theorem format_tool_parameters (tool : Tool.t)
  (items properties : list (string * value)) :
  Tool.input_schema tool = Some (VDict items) ->
  Py.lookup "properties" items = Some (VDict properties) ->
  properties <> [] ->
  Forall dict_property properties ->
  _format_tools_for_model [tool]
  = Returns ("- " ++ Tool.name tool ++ ": "
                  ++ format_optional (Tool.description tool) ++ nl
                  ++ "  Parameters: "
                  ++ join ", " (map param_text properties)).
Proof.
  intros Hs Hp Hne Hd. unfold _format_tools_for_model. simpl.
  unfold tool_desc, tool_params. rewrite Hs.
  assert (Ht : Py.truthy (VDict items) = true).
  { destruct items; [discriminate Hp | reflexivity]. }
  rewrite Ht. simpl. rewrite Hp. simpl.
  rewrite (format_params_dicts properties Hd). simpl.
  destruct properties as [|p ps]; [congruence|]. simpl map at 1.
  cbv iota beta. simpl bind. now rewrite !append_assoc.
Qed.

(** X14: a property of a schema that is not a dict (a boolean schema, for
    one) makes [_format_tools_for_model] raise the [AttributeError] of
    [.get], whatever the other tools are when those before it can be read;
    [start_chat] then raises before reading any input. *)
Theorem format_tools_raises_on_property (good rest : list Tool.t)
  (bad : Tool.t) (items ok more : list (string * value))
  (n : string) (info : value)
  (fuel : nat) (events : list console_event) (st : state) :
  Forall readable_tool good ->
  Tool.input_schema bad = Some (VDict items) ->
  Py.lookup "properties" items = Some (VDict (ok ++ (n, info) :: more)) ->
  Forall dict_property ok ->
  (forall d, info <> VDict d) ->
  let e := Exception ("'" ++ Py.type_name info
                          ++ "' object has no attribute 'get'") in
  _format_tools_for_model (good ++ bad :: rest) = Raises e
  /\ start_chat fuel (good ++ bad :: rest) events st = Raises e.
Proof.
  intros Hg Hs Hp Hok Hn e.
  assert (Hb : tool_desc bad = Raises e).
  { unfold tool_desc, tool_params. rewrite Hs.
    assert (Ht : Py.truthy (VDict items) = true).
    { destruct items; [discriminate Hp | reflexivity]. }
    rewrite Ht. simpl. rewrite Hp. simpl.
    now rewrite (format_params_raises ok more n info Hok Hn). }
  assert (Hi : tool_info (good ++ bad :: rest) = Raises e).
  { induction Hg as [|x xs Hx _ IH]; simpl.
    - now rewrite Hb.
    - destruct (tool_desc_readable x Hx) as (desc & -> & _). simpl.
      now rewrite IH. }
  assert (Hf : _format_tools_for_model (good ++ bad :: rest) = Raises e).
  { unfold _format_tools_for_model. now rewrite Hi. }
  split; [exact Hf|]. unfold start_chat. now rewrite Hf.
Qed.

End CatalogFacts.

(* ===================================================================== *)
(** * Further properties: the chat loop *)
(* ===================================================================== *)

Section ChatLoopFacts.

Context {C : Collaborators}.

(** What one pass of the loop does to the history. *)
Lemma step_history_cases (fuel : nat) (d line : string) (st st' : state)
  (step : loop_step) :
  start_chat_step fuel d line st = Some (step, st') ->
  (PyStr.lower (PyStr.strip line) = "clear" /\ history st' = [])
  \/ (PyStr.lower (PyStr.strip line) <> "clear"
      /\ (history st' = history st
          \/ (exists q, history st' = (history st ++ [user q])%list)
          \/ (exists q r,
                history st' = (history st ++ [user q; assistant r])%list))).
Proof.
  unfold start_chat_step. intros H.
  destruct (String.eqb (PyStr.lower (PyStr.strip line)) "quit") eqn:Eq.
  { injection H as <- <-. apply String.eqb_eq in Eq. right.
    split; [rewrite Eq; discriminate | now left]. }
  destruct (String.eqb (PyStr.lower (PyStr.strip line)) "clear") eqn:Ec.
  { injection H as <- <-. apply String.eqb_eq in Ec. left. now split. }
  apply String.eqb_neq in Ec. right. split; [exact Ec|].
  destruct (String.eqb (PyStr.lower (PyStr.strip line)) "tools").
  { injection H as <- <-. now left. }
  destruct (PyStr.truthy (PyStr.strip line)); simpl in H.
  2: { injection H as <- <-. now left. }
  unfold _process_query_automatically in H.
  destruct (_execute_tools_sequentially _ _ _ _ _) as [t|] eqn:He;
    [|discriminate].
  injection H as <- <-.
  pose proof (execute_history _ _ _ _ _ _ He) as Hh.
  rewrite history_after_append in Hh. fold (user (PyStr.strip line)) in Hh.
  right. destruct Hh as [Hh | [Hh _]].
  - right. exists (PyStr.strip line), (response t).
    now rewrite Hh, <- app_assoc.
  - left. now exists (PyStr.strip line).
Qed.

Lemma transcript_step (h h' : list message) :
  transcript h ->
  h' = []
  \/ h' = h
  \/ (exists q, h' = (h ++ [user q])%list)
  \/ (exists q r, h' = (h ++ [user q; assistant r])%list) ->
  transcript h'.
Proof.
  intros Ht [-> | [-> | [(q & ->) | (q & r & ->)]]].
  - constructor.
  - exact Ht.
  - now constructor.
  - now constructor.
Qed.

(** X15: the history keeps the shape of a conversation through a whole
    session: a sequence of exchanges, each a user record followed by at most
    one assistant record; in particular there is no assistant record without
    the user record before it. *)
Theorem chat_loop_keeps_transcript (fuel : nat) (tool_descriptions : string)
  (events : list console_event) (st : state) (s : session) :
  transcript (history st) ->
  chat_loop fuel tool_descriptions events st = Some s ->
  transcript (history (after s)).
Proof.
  revert st s. induction events as [|ev events IH]; intros st s Ht H.
  - injection H as <-. exact Ht.
  - destruct ev as [text| |e]; simpl in H.
    + destruct (start_chat_step fuel tool_descriptions text st)
        as [[[|shown] st1]|] eqn:Hs; [| |discriminate].
      * injection H as <-. simpl.
        destruct (step_history_cases _ _ _ _ _ _ Hs) as [[_ Hh] | [_ Hh]].
        -- rewrite Hh. constructor.
        -- apply (transcript_step (history st)); [exact Ht | now right].
      * destruct (chat_loop fuel tool_descriptions events st1) as [s1|] eqn:Hl;
          [|discriminate].
        injection H as <-. simpl. apply (IH st1 s1); [|exact Hl].
        destruct (step_history_cases _ _ _ _ _ _ Hs) as [[_ Hh] | [_ Hh]].
        -- rewrite Hh. constructor.
        -- apply (transcript_step (history st)); [exact Ht | now right].
    + injection H as <-. exact Ht.
    + exact (IH st s Ht H).
Qed.

(** X16: once the loop is left, by [quit] or by a [KeyboardInterrupt], no
    further input is read: the session is the same whatever comes after. *)
Theorem nothing_is_read_after_the_end (fuel : nat) (tool_descriptions : string)
  (events more : list console_event) (st : state) (s : session) :
  chat_loop fuel tool_descriptions events st = Some s ->
  ended s = true ->
  chat_loop fuel tool_descriptions (events ++ more) st = Some s.
Proof.
  revert st s. induction events as [|ev events IH]; intros st s H He.
  - injection H as <-. discriminate He.
  - destruct ev as [text| |e]; simpl in *.
    + destruct (start_chat_step fuel tool_descriptions text st)
        as [[[|shown] st1]|]; [exact H | | discriminate].
      destruct (chat_loop fuel tool_descriptions events st1) as [s1|] eqn:Hl;
        [|discriminate].
      injection H as <-. simpl in He. now rewrite (IH st1 s1 Hl He).
    + exact H.
    + exact (IH st s H He).
Qed.

(** X17: in a session without the command [clear] the history only grows:
    the records it held at the start are still there, at the front and in
    their order. *)
Theorem history_is_kept_without_clear (fuel : nat) (tool_descriptions : string)
  (events : list console_event) (st : state) (s : session) :
  Forall (fun ev => ~ is_command "clear" ev) events ->
  chat_loop fuel tool_descriptions events st = Some s ->
  exists added, history (after s) = (history st ++ added)%list.
Proof.
  intros Hn. revert st s.
  induction Hn as [|ev events Hev _ IH]; intros st s H.
  - injection H as <-. exists []. now rewrite app_nil_r.
  - assert (Hstep : forall step st1,
               forall text, ev = Line text ->
               start_chat_step fuel tool_descriptions text st
               = Some (step, st1) ->
               exists added, history st1 = (history st ++ added)%list).
    { intros step st1 text -> Hs.
      destruct (step_history_cases _ _ _ _ _ _ Hs) as [[Hc _] | [_ Hh]].
      - exfalso. exact (Hev Hc).
      - destruct Hh as [Hh | [(q & Hh) | (q & r & Hh)]]; rewrite Hh.
        + exists []. now rewrite app_nil_r.
        + eexists; reflexivity.
        + eexists; reflexivity. }
    destruct ev as [text| |e]; simpl in H.
    + destruct (start_chat_step fuel tool_descriptions text st)
        as [[[|shown] st1]|] eqn:Hs; [| |discriminate].
      * injection H as <-. exact (Hstep _ _ text eq_refl Hs).
      * destruct (chat_loop fuel tool_descriptions events st1) as [s1|] eqn:Hl;
          [|discriminate].
        injection H as <-. simpl.
        destruct (Hstep _ _ text eq_refl Hs) as (a1 & Ha1).
        destruct (IH st1 s1 Hl) as (a2 & Ha2).
        exists (a1 ++ a2)%list. now rewrite Ha2, Ha1, app_assoc.
    + injection H as <-. exists []. now rewrite app_nil_r.
    + exact (IH st s H).
Qed.

(** X18: a session adds at most two records to the history for each
    outcome of [input]. *)
Theorem history_grows_by_two_at_most (fuel : nat) (tool_descriptions : string)
  (events : list console_event) (st : state) (s : session) :
  chat_loop fuel tool_descriptions events st = Some s ->
  List.length (history (after s))
  <= List.length (history st) + 2 * List.length events.
Proof.
  revert st s. induction events as [|ev events IH]; intros st s H.
  - injection H as <-. simpl. lia.
  - assert (Hstep : forall step st1 text,
               start_chat_step fuel tool_descriptions text st
               = Some (step, st1) ->
               List.length (history st1) <= List.length (history st) + 2).
    { intros step st1 text Hs.
      destruct (step_history_cases _ _ _ _ _ _ Hs) as [[_ Hh] | [_ Hh]].
      - rewrite Hh. simpl. lia.
      - destruct Hh as [Hh | [(q & Hh) | (q & r & Hh)]]; rewrite Hh;
          rewrite ?length_app; simpl; lia. }
    destruct ev as [text| |e]; simpl in H.
    + destruct (start_chat_step fuel tool_descriptions text st)
        as [[[|shown] st1]|] eqn:Hs; [| |discriminate].
      * injection H as <-. simpl after. pose proof (Hstep _ _ _ Hs).
        simpl List.length. lia.
      * destruct (chat_loop fuel tool_descriptions events st1) as [s1|] eqn:Hl;
          [|discriminate].
        injection H as <-. simpl after. pose proof (Hstep _ _ _ Hs).
        pose proof (IH st1 s1 Hl). simpl List.length. lia.
    + injection H as <-. simpl. lia.
    + pose proof (IH st s H). simpl List.length. lia.
Qed.

(** X19: the commands [quit], [clear] and [tools] and an empty line call
    neither the model nor a tool, whatever the depth allowed: the pass
    returns with the collaborators as they were, and with the whole state
    as it was unless the command is [clear]. *)
Theorem commands_leave_collaborators_alone (fuel : nat)
  (tool_descriptions line : string) (st : state) :
  In (PyStr.lower (PyStr.strip line)) ["quit"; "clear"; "tools"]
  \/ PyStr.strip line = "" ->
  exists step st',
    start_chat_step fuel tool_descriptions line st = Some (step, st')
    /\ world st' = world st
    /\ (step = Break <-> PyStr.lower (PyStr.strip line) = "quit")
    /\ (PyStr.lower (PyStr.strip line) <> "clear" -> st' = st).
Proof.
  intros H. unfold start_chat_step.
  destruct (String.eqb (PyStr.lower (PyStr.strip line)) "quit") eqn:Eq.
  { apply String.eqb_eq in Eq. exists Break, st. repeat split; auto. }
  apply String.eqb_neq in Eq.
  destruct (String.eqb (PyStr.lower (PyStr.strip line)) "clear") eqn:Ec.
  { apply String.eqb_eq in Ec. exists (Continue None), (history_clear st).
    split; [reflexivity|]. split; [reflexivity|]. split.
    - split; [discriminate | contradiction].
    - contradiction. }
  apply String.eqb_neq in Ec.
  destruct (String.eqb (PyStr.lower (PyStr.strip line)) "tools") eqn:Et.
  { exists (Continue None), st.
    split; [reflexivity|]. split; [reflexivity|]. split; [|reflexivity].
    split; [discriminate | contradiction]. }
  apply String.eqb_neq in Et.
  destruct H as [[H | [H | [H | []]]] | H]; try congruence.
  rewrite H. simpl. exists (Continue None), st.
  split; [reflexivity|]. split; [reflexivity|]. split; [|reflexivity].
  split; [discriminate | intros Hq; discriminate Hq].
Qed.

End ChatLoopFacts.

(* ===================================================================== *)
(** * Further properties: the history is never read *)
(* ===================================================================== *)

Section WriteOnly.

Context {C : Collaborators}.

(** Reduces two states that differ in the history to their fields. *)
Ltac same_states H st1 st2 :=
  let p1 := fresh "path" in
  let m1 := fresh "model" in
  let h1 := fresh "h" in
  let w1 := fresh "w" in
  let p2 := fresh "path" in
  let m2 := fresh "model" in
  let h2 := fresh "h" in
  let w2 := fresh "w" in
  destruct st1 as [[p1 m1 h1] w1]; destruct st2 as [[p2 m2 h2] w2];
  unfold same_but_history in H; simpl in H;
  destruct H as (H & ? & ?); subst.

Lemma same_after_append (m1 m2 : message) (st1 st2 : state) :
  same_but_history st1 st2 ->
  same_but_history (history_append m1 st1) (history_append m2 st2).
Proof. intros (H1 & H2 & H3). repeat split; assumption. Qed.

Lemma same_plan_round (q d : string) (tr : list ExecutedTool)
  (st1 st2 : state) :
  same_but_history st1 st2 ->
  fst (plan_round q d tr st1) = fst (plan_round q d tr st2)
  /\ same_but_history (snd (plan_round q d tr st1))
                      (snd (plan_round q d tr st2)).
Proof.
  intros H. same_states H st1 st2. unfold plan_round. simpl.
  destruct (ollama_chat _ _ _) as [[text|e] w]; [|now repeat split].
  destruct (PyStr.truthy _); [|now repeat split].
  destruct (bind _ _) as [[[name params]|]|[msg|msg]]; now repeat split.
Qed.

Lemma same_dispatch (name params : value) (st1 st2 : state) :
  same_but_history st1 st2 ->
  fst (dispatch name params st1) = fst (dispatch name params st2)
  /\ same_but_history (snd (dispatch name params st1))
                      (snd (dispatch name params st2)).
Proof.
  intros H. same_states H st1 st2. unfold dispatch. simpl.
  destruct (call_tool _ _ _) as [called w].
  destruct (bind _ _); now repeat split.
Qed.

Lemma same_direct_response (q : string) (st1 st2 : state) :
  same_but_history st1 st2 ->
  fst (_generate_direct_response q st1) = fst (_generate_direct_response q st2)
  /\ same_but_history (snd (_generate_direct_response q st1))
                      (snd (_generate_direct_response q st2)).
Proof.
  intros H. same_states H st1 st2. unfold _generate_direct_response. simpl.
  destruct (ollama_chat _ _ _) as [[text|e] w]; now repeat split.
Qed.

Lemma same_synthesize (q : string) (tr : list ExecutedTool)
  (st1 st2 : state) :
  same_but_history st1 st2 ->
  fst (synthesize q tr st1) = fst (synthesize q tr st2)
  /\ same_but_history (snd (synthesize q tr st1)) (snd (synthesize q tr st2)).
Proof.
  intros H. same_states H st1 st2.
  unfold synthesize, _generate_comprehensive_response. simpl.
  destruct (ollama_chat _ _ _) as [[text|e] w]; now repeat split.
Qed.

Lemma same_execute (fuel : nat) (q d : string) (tr : list ExecutedTool)
  (st1 st2 : state) :
  same_but_history st1 st2 ->
  same_turn (_execute_tools_sequentially fuel q d tr st1)
            (_execute_tools_sequentially fuel q d tr st2).
Proof.
  revert tr st1 st2. induction fuel as [|fuel IH]; intros tr st1 st2 H;
    [exact I|].
  simpl. destruct (same_plan_round q d tr st1 st2 H) as (Hp & Hs).
  destruct (plan_round q d tr st1) as [p1 a1].
  destruct (plan_round q d tr st2) as [p2 a2]. simpl in Hp, Hs. subst p2.
  destruct p1 as [name params| |e].
  - destruct (same_dispatch name params a1 a2 Hs) as (He & Hd).
    destruct (dispatch name params a1) as [e1 b1].
    destruct (dispatch name params a2) as [e2 b2]. simpl in He, Hd. subst e2.
    exact (IH _ b1 b2 Hd).
  - unfold respond. destruct tr as [|x tr].
    + destruct (same_direct_response q a1 a2 Hs) as (Hr & Hf).
      destruct (_generate_direct_response q a1) as [r1 f1].
      destruct (_generate_direct_response q a2) as [r2 f2].
      simpl in *. split; [exact Hr | split; [reflexivity | exact Hf]].
    + destruct (same_synthesize q (x :: tr) a1 a2 Hs) as (Hr & Hf).
      destruct (synthesize q (x :: tr) a1) as [r1 f1].
      destruct (synthesize q (x :: tr) a2) as [r2 f2].
      simpl in *. split; [exact Hr | split; [reflexivity | exact Hf]].
  - unfold respond_to_exception. destruct tr as [|x tr].
    + simpl. split; [reflexivity | split; [reflexivity | exact Hs]].
    + destruct (same_synthesize q (x :: tr) a1 a2 Hs) as (Hr & Hf).
      destruct (synthesize q (x :: tr) a1) as [r1 f1].
      destruct (synthesize q (x :: tr) a2) as [r2 f2].
      simpl in *. split; [exact Hr | split; [reflexivity | exact Hf]].
Qed.

Lemma same_step (fuel : nat) (d line : string) (st1 st2 : state) :
  same_but_history st1 st2 ->
  match start_chat_step fuel d line st1, start_chat_step fuel d line st2 with
  | Some (step1, a1), Some (step2, a2) =>
      step1 = step2 /\ same_but_history a1 a2
  | None, None => True
  | _, _ => False
  end.
Proof.
  intros H. unfold start_chat_step.
  destruct (String.eqb _ "quit"); [now split|].
  destruct (String.eqb _ "clear").
  { split; [reflexivity|]. destruct H as (H1 & H2 & H3).
    repeat split; assumption. }
  destruct (String.eqb _ "tools"); [now split|].
  destruct (PyStr.truthy _); simpl; [|now split].
  unfold _process_query_automatically.
  pose proof (same_execute fuel (PyStr.strip line) d []
                (history_append
                   {| role := "user"; content := PyStr.strip line |} st1)
                (history_append
                   {| role := "user"; content := PyStr.strip line |} st2)
                (same_after_append _ _ _ _ H)) as He.
  unfold same_turn in He.
  destruct (_execute_tools_sequentially _ _ _ _ _) as [t1|];
    destruct (_execute_tools_sequentially _ _ _ _ _) as [t2|];
    try contradiction; [|exact I].
  destruct He as (Hr & _ & Hf). rewrite Hr. now split.
Qed.

(** X20: the conversation history is written and never read. Two sessions
    on the same input, from states that differ only in their history, print
    the same replies, end alike and leave the collaborators in the same
    state: no answer depends on an earlier exchange. *)
Theorem history_is_never_read (fuel : nat) (tool_descriptions : string)
  (events : list console_event) (st1 st2 : state) :
  same_but_history st1 st2 ->
  match chat_loop fuel tool_descriptions events st1,
        chat_loop fuel tool_descriptions events st2 with
  | Some s1, Some s2 =>
      printed s1 = printed s2 /\ ended s1 = ended s2
      /\ same_but_history (after s1) (after s2)
  | None, None => True
  | _, _ => False
  end.
Proof.
  revert st1 st2. induction events as [|ev events IH]; intros st1 st2 H.
  - simpl. split; [reflexivity | split; [reflexivity | exact H]].
  - destruct ev as [text| |e]; simpl.
    + pose proof (same_step fuel tool_descriptions text st1 st2 H) as Hs.
      destruct (start_chat_step fuel tool_descriptions text st1)
        as [[step1 a1]|];
        destruct (start_chat_step fuel tool_descriptions text st2)
          as [[step2 a2]|]; try contradiction; [|exact I].
      destruct Hs as (<- & Ha). destruct step1 as [|shown].
      * simpl. split; [reflexivity | split; [reflexivity | exact Ha]].
      * specialize (IH a1 a2 Ha).
        destruct (chat_loop fuel tool_descriptions events a1) as [s1|];
          destruct (chat_loop fuel tool_descriptions events a2) as [s2|];
          try contradiction; [|exact I].
        destruct IH as (Hp & He & Hf). simpl. rewrite Hp.
        split; [reflexivity | split; [exact He | exact Hf]].
    + split; [reflexivity | split; [reflexivity | exact H]].
    + exact (IH st1 st2 H).
Qed.

End WriteOnly.

(* ===================================================================== *)
(** * The further properties on closed examples *)
(* ===================================================================== *)

(** The model out of reach at the first planning call. *)
Lemma planning_failure_ends_turn_witness :
  exists t,
    _execute_tools_sequentially (C := Stub.scripted) 1 "hello" Stub.catalog []
      (Stub.start Stub.scripted Stub.offline_world) = Some t
    /\ response t = "Error in query processing: connection refused".
Proof.
  destruct (planning_failure_ends_turn (C := Stub.scripted) "hello"
              Stub.catalog 0 []
              (Stub.start Stub.scripted Stub.offline_world)
              (Exception "connection refused")
              {| Stub.chat_script := []; Stub.tool_script := [] |} eq_refl)
    as (t & He & _ & Hempty & _).
  exists t. split; [exact He | exact (proj1 (Hempty eq_refl))].
Defined.

(** A greeting: [[]] at the first planning call. *)
Lemma turn_without_tools_is_direct_witness :
  exists t,
    _process_query_automatically (C := Stub.scripted) 1 "hello" Stub.catalog
      (Stub.start Stub.scripted Scenario.greeting_world) = Some t
    /\ response t = "Hello!"
    /\ history (final t) = [ user "hello"; assistant "Hello!" ].
Proof.
  destruct (turn_without_tools_is_direct (C := Stub.scripted) "hello"
              Stub.catalog 0
              (Stub.start Stub.scripted Scenario.greeting_world) "[]"
              {| Stub.chat_script := [Returns " Hello! "];
                 Stub.tool_script := [] |}
              (VList []) eq_refl eq_refl eq_refl)
    as (t & He & _ & Hok & _).
  exists t. split; [exact He|].
  destruct (Hok " Hello! "
              {| Stub.chat_script := []; Stub.tool_script := [] |} eq_refl)
    as (Hr & _ & Hh).
  split; [exact Hr | exact Hh].
Defined.

(** The scenario of the specification, up to its synthesis. *)
Lemma turn_with_tools_is_synthesized_witness :
  exists t,
    _execute_tools_sequentially (C := Stub.scripted) 3
      Stub.apple_query Stub.catalog []
      (Stub.start Stub.scripted Stub.apple_world) = Some t
    /\ response t = "Apple trades at 190.5"
    /\ history (final t) = [ assistant "Apple trades at 190.5" ].
Proof.
  assert (Hn : Stub.apple_rounds <> []) by discriminate.
  assert (Hf : List.length Stub.apple_rounds < 3) by (simpl; lia).
  destruct (turn_with_tools_is_synthesized (C := Stub.scripted)
              Stub.apple_query Stub.catalog Stub.apple_rounds _ _ _ 3 "[]"
              {| Stub.chat_script := [Returns "Apple trades at 190.5"];
                 Stub.tool_script := [] |}
              (VList []) Hn apple_rounds_run eq_refl eq_refl eq_refl Hf)
    as (t & He & _ & Hok & _).
  exists t. split; [exact He|].
  destruct (Hok "Apple trades at 190.5"
              {| Stub.chat_script := []; Stub.tool_script := [] |} eq_refl)
    as (Hr & _ & Hh).
  split; [exact Hr | exact Hh].
Defined.

Lemma apple_turn_run :
  _execute_tools_sequentially (C := Stub.scripted) 3
    Stub.apple_query Stub.catalog []
    (Stub.start Stub.scripted Stub.apple_world)
  = Some Scenario.apple_turn.
Proof. vm_compute. reflexivity. Defined.

Lemma trace_is_append_only_witness :
  exists added,
    trace Scenario.apple_turn = ([] ++ added)%list /\ List.length added < 3.
Proof.
  exact (trace_is_append_only (C := Stub.scripted) Stub.apple_query
           Stub.catalog 3 [] _ _ apple_turn_run).
Defined.

Lemma answer_after_tools_is_recorded_witness :
  history (final Scenario.apple_turn)
  = (history (Stub.start Stub.scripted Stub.apple_world)
       ++ [assistant (response Scenario.apple_turn)])%list.
Proof.
  apply (answer_after_tools_is_recorded (C := Stub.scripted) Stub.apple_query
           Stub.catalog 3 [] _ _ apple_turn_run).
  discriminate.
Defined.

(** A registry that returns an image for the price. *)
Lemma image_round_run :
  rounds (C := Stub.scripted) Stub.apple_query Stub.catalog
    [Stub.price_round (Returns [ImageContent "iVBORw0KGgo=" "image/png"])]
    [] (Stub.start Stub.scripted Scenario.image_world)
    (map entry_of
       [Stub.price_round (Returns [ImageContent "iVBORw0KGgo=" "image/png"])])
    (Stub.start Stub.scripted
       {| Stub.chat_script := [Returns "[]"; Returns "A chart"];
          Stub.tool_script := [] |}).
Proof. answer_round. apply rounds_done. Defined.

(** The image is recorded as the error of reading its [text]. *)
Lemma non_text_result_is_an_error_entry_witness :
  exists t,
    _execute_tools_sequentially (C := Stub.scripted) 2
      Stub.apple_query Stub.catalog []
      (Stub.start Stub.scripted Scenario.image_world) = Some t
    /\ List.length (trace t) = 1
    /\ exists e,
         tool_output_of [ImageContent "iVBORw0KGgo=" "image/png"] = Raises e
         /\ nth_error (trace t) 0
            = Some {| tool_name := VStr "get_stock_price";
                      parameters := VDict [("ticker", VStr "AAPL")];
                      result := "Error: " ++ str_exn e |}.
Proof.
  destruct (non_text_result_is_an_error_entry (C := Stub.scripted)
              Stub.apple_query Stub.catalog _ _ _ _ 2 image_round_run)
    as (t & He & Hl & Hk).
  - vm_compute. exact I.
  - simpl. lia.
  - exists t. split; [exact He|]. split; [exact Hl|].
    apply (Hk 0 _ (ImageContent "iVBORw0KGgo=" "image/png") [] eq_refl eq_refl).
    intros text H. discriminate H.
Defined.

(** The catalog of two tools. *)
Lemma format_tools_lists_every_tool_witness :
  exists text,
    _format_tools_for_model (C := Stub.scripted)
      [Scenario.price_tool; Scenario.bare_tool] = Returns text
    /\ forall tool,
         In tool [Scenario.price_tool; Scenario.bare_tool] ->
         PyStr.contains ("- " ++ Tool.name tool ++ ": "
                              ++ format_optional (Tool.description tool)) text
         = true.
Proof.
  apply (format_tools_lists_every_tool (C := Stub.scripted)).
  constructor; [|constructor; [exact I | constructor]].
  right. eexists. split; [reflexivity|]. simpl.
  repeat (constructor; [eexists; reflexivity|]). constructor.
Defined.

Lemma format_tools_without_parameters_witness :
  _format_tools_for_model (C := Stub.scripted)
    [Scenario.bare_tool; Scenario.bare_tool]
  = Returns ("- get_ticker_from_name: None" ++ PyStr.nl
               ++ "- get_ticker_from_name: None").
Proof.
  apply (format_tools_without_parameters (C := Stub.scripted)
           [Scenario.bare_tool; Scenario.bare_tool]).
  constructor; [exact I|]. constructor; [exact I | constructor].
Defined.

Lemma format_tool_parameters_witness :
  _format_tools_for_model (C := Stub.scripted) [Scenario.price_tool]
  = Returns ("- get_stock_price: Get the price of a stock" ++ PyStr.nl
               ++ "  Parameters: ticker (string): , period (string): e.g. 1mo").
Proof.
  refine (format_tool_parameters (C := Stub.scripted) Scenario.price_tool
            _ _ eq_refl eq_refl _ _).
  - discriminate.
  - repeat (constructor; [eexists; reflexivity|]). constructor.
Defined.

Lemma format_tools_raises_on_property_witness :
  _format_tools_for_model (C := Stub.scripted)
    [Scenario.price_tool; Scenario.boolean_tool; Scenario.bare_tool]
  = Raises (Exception "'bool' object has no attribute 'get'")
  /\ start_chat (C := Stub.scripted) 3
       [Scenario.price_tool; Scenario.boolean_tool; Scenario.bare_tool]
       Scenario.apple_events (Stub.start Stub.scripted Stub.apple_world)
     = Raises (Exception "'bool' object has no attribute 'get'").
Proof.
  refine (format_tools_raises_on_property (C := Stub.scripted)
            [Scenario.price_tool] [Scenario.bare_tool] Scenario.boolean_tool
            _ [] [] "payload" (VBool true) 3 Scenario.apple_events
            (Stub.start Stub.scripted Stub.apple_world) _ eq_refl eq_refl _ _).
  - constructor; [|constructor].
    right. eexists. split; [reflexivity|]. simpl.
    repeat (constructor; [eexists; reflexivity|]). constructor.
  - constructor.
  - intros d H. discriminate H.
Defined.

Lemma apple_session_run :
  chat_loop (C := Stub.scripted) 3 Stub.catalog Scenario.apple_events
    (Stub.start Stub.scripted Stub.apple_world)
  = Some Scenario.apple_session.
Proof. vm_compute. reflexivity. Defined.

(** The session of the scenario. *)
Lemma chat_loop_keeps_transcript_witness :
  transcript (history (after Scenario.apple_session)).
Proof.
  apply (chat_loop_keeps_transcript (C := Stub.scripted) 3 Stub.catalog
           Scenario.apple_events (Stub.start Stub.scripted Stub.apple_world)).
  - exact transcript_empty.
  - exact apple_session_run.
Defined.

Lemma nothing_is_read_after_the_end_witness :
  chat_loop (C := Stub.scripted) 3 Stub.catalog
    (Scenario.apple_events ++ [Line "clear"; Line "hello"])
    (Stub.start Stub.scripted Stub.apple_world)
  = Some Scenario.apple_session.
Proof.
  apply (nothing_is_read_after_the_end (C := Stub.scripted)).
  - exact apple_session_run.
  - reflexivity.
Defined.

Lemma history_is_kept_without_clear_witness :
  exists added,
    history (after Scenario.apple_session)
    = (history (Stub.start Stub.scripted Stub.apple_world) ++ added)%list.
Proof.
  apply (history_is_kept_without_clear (C := Stub.scripted) 3 Stub.catalog
           Scenario.apple_events).
  - repeat constructor; intro H; vm_compute in H; discriminate H.
  - exact apple_session_run.
Defined.

Lemma history_grows_by_two_at_most_witness :
  List.length (history (after Scenario.apple_session))
  <= List.length (history (Stub.start Stub.scripted Stub.apple_world))
     + 2 * List.length Scenario.apple_events.
Proof.
  exact (history_grows_by_two_at_most (C := Stub.scripted) 3 Stub.catalog
           Scenario.apple_events _ _ apple_session_run).
Defined.

(** The command [clear] with blanks and capitals, and no depth at all. *)
Lemma commands_leave_collaborators_alone_witness :
  exists (step : loop_step) (st' : @state Stub.scripted),
    start_chat_step (C := Stub.scripted) 0 Stub.catalog "  CLEAR "
      Scenario.remembering_state
    = Some (step, st')
    /\ world st' = world Scenario.remembering_state
    /\ (step = Break <-> PyStr.lower (PyStr.strip "  CLEAR ") = "quit")
    /\ (PyStr.lower (PyStr.strip "  CLEAR ") <> "clear" ->
        st' = Scenario.remembering_state).
Proof.
  apply (commands_leave_collaborators_alone (C := Stub.scripted) 0
           Stub.catalog "  CLEAR " Scenario.remembering_state).
  left. right. left. reflexivity.
Defined.

(** The session of the scenario with and without an earlier exchange in the
    history. *)
Lemma history_is_never_read_witness :
  match chat_loop (C := Stub.scripted) 3 Stub.catalog Scenario.apple_events
          Scenario.remembering_state,
        chat_loop (C := Stub.scripted) 3 Stub.catalog Scenario.apple_events
          (Stub.start Stub.scripted Stub.apple_world) with
  | Some s1, Some s2 =>
      printed s1 = printed s2 /\ ended s1 = ended s2
      /\ same_but_history (after s1) (after s2)
  | None, None => True
  | _, _ => False
  end.
Proof.
  apply (history_is_never_read (C := Stub.scripted) 3 Stub.catalog
           Scenario.apple_events).
  repeat split.
Defined.

(* ===================================================================== *)
(** * Further properties: the ticker search *)
(* ===================================================================== *)

Section FindTickerFacts.

Context {N : Network}.

Variables query region lang : string.

#[local] Arguments backoff : simpl never.







(** X22: when the first request is answered with the status 200 and a JSON
    object, [search_tickers] returns the value of its key ["quotes"], the
    empty list if the key is missing, after this one request and without
    sleeping. *)
Theorem search_returns_first_answer (max_retries : Z) (base_sleep : Time)
  (net net1 : Net) (resp : Http.Response) (body : list (string * value)) :
  (0 < max_retries)%Z ->
  requests_get "https://query2.finance.yahoo.com/v1/finance/search"
    [("q", query); ("lang", lang); ("region", region)]
    [("User-Agent", "MyApp/1.0")] net
  = (Returns resp, net1) ->
  Http.status_code resp = 200%Z ->
  Http.json resp = Returns (VDict body) ->
  search_tickers query region lang max_retries base_sleep net
  = (Returns (match Py.lookup "quotes" body with
              | Some quotes => quotes
              | None => VList []
              end), [Requested], net1).
Proof.
  intros Hm Hg Hs Hj. unfold search_tickers, attempts.
  destruct (Z.to_nat max_retries) as [|n] eqn:Hn; [lia|].
  simpl. rewrite Hg, Hs, Hj. simpl.
  destruct (Py.lookup "quotes" body); reflexivity.
Qed.

(** X23: a first answer whose status is neither 200 nor 429 and on which
    [raise_for_status] raises ends the search with that exception: the
    request is not repeated. *)
Theorem search_does_not_retry_an_error (max_retries : Z) (base_sleep : Time)
  (net net1 : Net) (resp : Http.Response) (e : exn) :
  (0 < max_retries)%Z ->
  requests_get "https://query2.finance.yahoo.com/v1/finance/search"
    [("q", query); ("lang", lang); ("region", region)]
    [("User-Agent", "MyApp/1.0")] net
  = (Returns resp, net1) ->
  Http.status_code resp <> 200%Z ->
  Http.status_code resp <> 429%Z ->
  Http.raise_for_status resp = Raises e ->
  search_tickers query region lang max_retries base_sleep net
  = (Raises e, [Requested], net1).
Proof.
  intros Hm Hg H200 H429 Hr. unfold search_tickers, attempts.
  destruct (Z.to_nat max_retries) as [|n] eqn:Hn; [lia|].
  simpl. rewrite Hg.
  destruct (Z.eqb_spec (Http.status_code resp) 200); [contradiction|].
  destruct (Z.eqb_spec (Http.status_code resp) 429); [contradiction|].
  now rewrite Hr.
Qed.

Lemma search_loop_bounds (base_sleep : Time) (remaining : list Z) (net : Net) :
  let calls := snd (fst (search_loop query region lang base_sleep
                           remaining net)) in
  requests calls <= List.length remaining
  /\ List.length calls <= 2 * requests calls
  /\ forall t,
       In (Slept t) calls ->
       exists attempt,
         In attempt remaining
         /\ t = times base_sleep (2 ^ (attempt - 1))%Z.
Proof.
  revert net. induction remaining as [|a rest IH]; intros net; simpl.
  - repeat split; auto. intros t [].
  - destruct (requests_get _ _ _ net) as [[resp|e] net1].
    + destruct (Http.status_code resp =? 200)%Z.
      { simpl. unfold requests. simpl. repeat split; try lia.
        intros t [H | []]. discriminate H. }
      destruct (Http.status_code resp =? 429)%Z.
      * unfold backoff.
        destruct (times_raises base_sleep (2 ^ (a - 1))%Z);
          [simpl; unfold requests; simpl; repeat split; try lia;
           intros t [H | []]; discriminate H|].
        destruct (format_raises (times base_sleep (2 ^ (a - 1))%Z));
          [simpl; unfold requests; simpl; repeat split; try lia;
           intros t [H | []]; discriminate H|].
        destruct (time_sleep _ net1) as [[u|e] net2].
        -- specialize (IH net2).
           destruct (search_loop query region lang base_sleep rest net2)
             as [[r calls] net3]. simpl in *. unfold requests in *. simpl.
           destruct IH as (H1 & H2 & H3). repeat split; try lia.
           intros t [H | [H | H]]; [discriminate H | |].
           ++ injection H as <-. exists a. split; [now left | reflexivity].
           ++ destruct (H3 t H) as (b & Hb & ->). exists b.
              split; [now right | reflexivity].
        -- simpl. unfold requests. simpl. repeat split; try lia.
           intros t [H | [H | []]]; [discriminate H|].
           injection H as <-. exists a. split; [now left | reflexivity].
      * destruct (Http.raise_for_status resp) as [u|e].
        -- specialize (IH net1).
           destruct (search_loop query region lang base_sleep rest net1)
             as [[r calls] net3]. simpl in *. unfold requests in *. simpl.
           destruct IH as (H1 & H2 & H3). repeat split; try lia.
           intros t [H | H]; [discriminate H|].
           destruct (H3 t H) as (b & Hb & ->). exists b.
           split; [now right | reflexivity].
        -- simpl. unfold requests. simpl. repeat split; try lia.
           intros t [H | []]. discriminate H.
    + simpl. unfold requests. simpl. repeat split; try lia.
      intros t [H | []]. discriminate H.
Qed.

Lemma attempts_range (max_retries a : Z) :
  In a (attempts max_retries) -> (1 <= a <= max_retries)%Z.
Proof.
  unfold attempts. rewrite in_map_iff. intros (k & <- & Hk).
  apply in_seq in Hk. lia.
Qed.

(** X24: whatever the network answers, [search_tickers] makes at most
    [max_retries] requests, sleeps at most once after each request, and
    every sleep lasts [base_sleep * 2 ** j] for some [0 <= j < max_retries]:
    the waiting is bounded by the arguments. *)
Theorem search_is_bounded (max_retries : Z) (base_sleep : Time) (net : Net) :
  let calls :=
    snd (fst (search_tickers query region lang max_retries base_sleep net)) in
  requests calls <= Z.to_nat max_retries
  /\ List.length calls <= 2 * requests calls
  /\ forall t,
       In (Slept t) calls ->
       exists j, (0 <= j < max_retries)%Z /\ t = times base_sleep (2 ^ j)%Z.
Proof.
  pose proof (search_loop_bounds base_sleep (attempts max_retries) net) as H.
  unfold search_tickers.
  destruct (search_loop query region lang base_sleep (attempts max_retries)
              net) as [[r calls] net1].
  assert (Hc : snd (fst (match r with
                         | Returns (Some quotes) =>
                             (Returns quotes, calls, net1)
                         | Returns None =>
                             (Raises
                                (Exception
                                   ("Failed after " ++ Py.str_int max_retries
                                      ++ " retries due to rate limits.")),
                              calls, net1)
                         | Raises e => (Raises e, calls, net1)
                         end)) = calls).
  { destruct r as [[q|]|e]; reflexivity. }
  cbv zeta. rewrite Hc. simpl in H. destruct H as (H1 & H2 & H3).
  split; [|split; [exact H2|]].
  - unfold attempts in H1. now rewrite length_map, length_seq in H1.
  - intros t Ht. destruct (H3 t Ht) as (a & Ha & ->).
    apply attempts_range in Ha. exists (a - 1)%Z. split; [lia | reflexivity].
Qed.

End FindTickerFacts.



(** An answer without the key ["quotes"]. *)
Lemma search_returns_first_answer_witness :
  search_tickers (N := NetStub.scripted) "Apple Inc" "" "en" 5 1000%Z
    [NetStub.nothing; NetStub.found]
  = (Returns (VList []), [Requested], [NetStub.found]).
Proof.
  refine (search_returns_first_answer (N := NetStub.scripted)
            "Apple Inc" "" "en" 5 1000%Z [NetStub.nothing; NetStub.found]
            [NetStub.found] NetStub.nothing [("count", VInt 0)]
            _ eq_refl eq_refl eq_refl).
  lia.
Defined.

(** A forbidden request, with an answer ready behind it. *)
Lemma search_does_not_retry_an_error_witness :
  search_tickers (N := NetStub.scripted) "Apple Inc" "" "en" 5 1000%Z
    [NetStub.forbidden; NetStub.found]
  = (Raises (Exception "403 Client Error"), [Requested],
     [NetStub.found]).
Proof.
  refine (search_does_not_retry_an_error (N := NetStub.scripted)
            "Apple Inc" "" "en" 5 1000%Z [NetStub.forbidden; NetStub.found]
            [NetStub.found] NetStub.forbidden (Exception "403 Client Error")
            _ eq_refl _ _ eq_refl).
  - lia.
  - discriminate.
  - discriminate.
Defined.

(** Two refusals, then the answer. *)
Example search_after_two_refusals :
  search_tickers (N := NetStub.scripted) "Apple Inc" "" "en" 5 1000%Z
    [NetStub.too_many; NetStub.too_many; NetStub.found]
  = (Returns (VList [VDict [("symbol", VStr "AAPL")]]),
     [ Requested; NetStub.paused 1000; Requested; NetStub.paused 2000;
       Requested ], []).
Proof. reflexivity. Qed.

(** With the [float] of the default and a network that is always busy, the
    product of the attempt 1025 raises: 1100 retries are not used up. *)
Example search_overflows_before_giving_up :
  let '(r, calls, _) :=
    search_tickers (N := NetStub.busy_float) "Apple Inc" "" "en" 1100 1%Z tt in
  r = Raises (Exception "int too large to convert to float")
  /\ requests (N := NetStub.busy_float) calls = 1025
  /\ List.length calls = 2049.
Proof. vm_compute. repeat split. Qed.
